(** * XDC green-lending agent: the ledger wrapper and the scoring agents

    A shallow embedding of [blockchain/xdc_interact.py] (connection, balance
    lookup, gas-price floor, transfer submission), of the score
    computations of [agents/impact_assessor.py], [agents/goat_agent.py] and
    [app.py], and of the simulations of the other agents (oracle monitor,
    liquidity routing, storage, tokenization, governance vote).

    Python code that talks to the node is embedded in a small monad that
    carries the outcome of the computation (a value or a raised exception)
    together with the chronological list of the effects it performed:
    every [print], every [time.sleep] and every call made to the node. *)

From Stdlib Require Import ZArith QArith Qround Qpower List String Ascii Bool Lia.
Import ListNotations.

Local Open Scope Z_scope.

(** ** Outcomes of Python calls *)

(** A call either returns a value or raises an exception; [Raise] carries
    [str(e)], the only part of an exception the program looks at. *)
Inductive result (A : Type) : Type :=
| Ok (a : A)
| Raise (e : string).
Arguments Ok {A} a.
Arguments Raise {A} e.

(** ** Decimal numbers

    A finite [decimal.Decimal]: the value [coefficient * 10 ^ exponent].
    NaN and infinities are not part of the model. *)
Record Decimal : Type := mkDecimal { coefficient : Z; exponent : Z }.

Module Dec.

Definition of_Z (n : Z) : Decimal := mkDecimal n 0.

(** The exact rational value of a decimal. *)
Definition to_Q (d : Decimal) : Q :=
  (inject_Z (coefficient d) * Qpower (inject_Z 10) (exponent d))%Q.

(** The coefficient of [d] once rewritten at exponent [e <= exponent d]. *)
Definition scaled (d : Decimal) (e : Z) : Z :=
  coefficient d * 10 ^ (exponent d - e).

Definition common_exponent (a b : Decimal) : Z :=
  Z.min (exponent a) (exponent b).

(** Comparisons are by value, whatever the exponents. *)
Definition ltb (a b : Decimal) : bool :=
  let e := common_exponent a b in scaled a e <? scaled b e.

Definition is_zero (d : Decimal) : bool := coefficient d =? 0.

(** Number of decimal digits of a non-negative integer (1 for 0). *)
Fixpoint digits_fuel (fuel : nat) (n : Z) : Z :=
  match fuel with
  | O => 1
  | S fuel' => if n <? 10 then 1 else 1 + digits_fuel fuel' (n / 10)
  end.

Definition digits (n : Z) : Z := digits_fuel (Z.to_nat (Z.log2 n)) n.

(** The precision of the default arithmetic context. *)
Definition DEFAULT_PREC : Z := 28.

(** Rounding of an exact result to [prec] significant digits, half to
    even, as the default context does after each arithmetic operation. *)
Definition round_half_even (prec : Z) (d : Decimal) : Decimal :=
  let c := Z.abs (coefficient d) in
  let n := digits c in
  if n <=? prec then d
  else
    let shift := n - prec in
    let q := c / 10 ^ shift in
    let r := c mod 10 ^ shift in
    let half := 5 * 10 ^ (shift - 1) in
    let q' := if (half <? r) || ((r =? half) && Z.odd q) then q + 1 else q in
    mkDecimal (Z.sgn (coefficient d) * q') (exponent d + shift).

Definition add_exact (a b : Decimal) : Decimal :=
  let e := common_exponent a b in mkDecimal (scaled a e + scaled b e) e.

(** [a + b] of the source: the exact sum rounded in the default context.
    The exponent limits of the context are not modelled. *)
Definition add (a b : Decimal) : Decimal :=
  round_half_even DEFAULT_PREC (add_exact a b).

End Dec.

(** ** Currency units of the client library *)

Inductive unit_name : Type := gwei | ether.

Definition unit_exponent (u : unit_name) : Z :=
  match u with gwei => 9 | ether => 18 end.

Definition MIN_WEI : Z := 0.
Definition MAX_WEI : Z := 2 ^ 256 - 1.

(** [from_wei(number, unit)]: zero is returned as it is, a number outside
    the 256-bit range is refused, anything else is divided by the unit. *)
Definition from_wei (number : Z) (u : unit_name) : result Decimal :=
  if number =? 0 then Ok (Dec.of_Z 0)
  else if (number <? MIN_WEI) || (MAX_WEI <? number)
       then Raise "value must be between 1 and 2**256 - 1"
       else Ok (mkDecimal number (- unit_exponent u)).

(** [to_wei(number, unit)]: the number times the unit, refused outside the
    256-bit range, truncated to an integer. *)
Definition to_wei (number : Decimal) (u : unit_name) : result Z :=
  if Dec.is_zero number then Ok 0
  else
    let e := exponent number + unit_exponent u in
    let c := coefficient number in
    if (c <? 0) || (if 0 <=? e then MAX_WEI <? c * 10 ^ e
                    else MAX_WEI <? Z.quot c (10 ^ (- e)))
    then Raise "value must be between 1 and 2**256 - 1"
    else Ok (if 0 <=? e then c * 10 ^ e else Z.quot c (10 ^ (- e))).

(** ** The node as seen through a [Web3] instance *)

Record transaction : Type := mkTransaction {
  tx_nonce : Z;
  tx_to : string;
  tx_value : Z;
  tx_gas : Z;
  tx_gasPrice : Z;
  tx_chainId : Z
}.

Record SignedTransaction : Type := { raw_transaction : string }.

Record receipt : Type := mkReceipt {
  status : Z;
  blockNumber : Z;
  gasUsed : Z
}.

(** What a [Web3] instance answers to each request the program makes.
    Within one call of any function below each request is made at most
    once, so an answer per request describes every behaviour of the node;
    an answer may be an exception. *)
Record Web3 : Type := mkWeb3 {
  is_connected : result bool;
  eth_chain_id : result Z;
  eth_gas_price : result Z;
  eth_get_balance : string -> result Z;
  eth_get_transaction_count : string -> result Z;
  eth_account_sign_transaction : transaction -> string -> result SignedTransaction;
  eth_send_raw_transaction : string -> result string;
  eth_wait_for_transaction_receipt : string -> Z -> result receipt
}.

(** ** Effects *)

Inductive reason : Type :=
| ReasonInsufficientBalance
| ReasonInvalidPrivateKey
| ReasonNonceConflict
| ReasonGasLimit.

(** The lines the program prints, with the values they are formatted from. *)
Inductive message : Type :=
| MsgConnected (rpc_url : string)
| MsgChainId (chain_id : Z)
| MsgUnexpectedChainId
| MsgConnectionFailed
| MsgErrorConnecting (e : string)
| MsgCheckingBalance (checksum_address : string)
| MsgBalance (balance_xdc : Decimal)
| MsgErrorGettingBalance (address e : string)
| MsgAnalyzing
| MsgNetworkSuggested (price_gwei : Decimal)
| MsgPriceTooLow (price_gwei : Decimal) (minimum_gwei : Z)
| MsgUsingNetworkPrice (price_gwei : Decimal)
| MsgFinalGasPrice (price_gwei : Decimal)
| MsgUsingGasPrice (price_gwei : Decimal)
| MsgEstimatedGasCost (gas_cost_xdc : Decimal)
| MsgNoSenderBalance
| MsgInsufficientFunds (total_required sender_balance : Decimal)
| MsgPleaseFund
| MsgPreparing (amount : Decimal) (from_address to_address : string)
| MsgTransactionSent (tx_hash_hex : string)
| MsgWaitingForReceipt
| MsgConfirmed (block : Z)
| MsgGasUsed (gas : Z)
| MsgTransactionFailed (r : receipt)
| MsgErrorSending (e : string)
| MsgReason (r : reason).

Inductive event : Type :=
| EvPrint (m : message)
| EvSleep (seconds : Z)
| EvNewProvider (rpc_url : string)
| EvIsConnected
| EvChainId
| EvGasPrice
| EvGetBalance (address : string)
| EvGetTransactionCount (address : string)
| EvSign (tx : transaction) (private_key : string)
| EvBroadcast (raw : string)
| EvWaitReceipt (tx_hash : string) (timeout : Z).

(** ** The monad: an outcome and the effects performed on the way *)

Definition M (A : Type) : Type := (result A * list event)%type.

Definition ret {A} (a : A) : M A := (Ok a, []).

Definition bind {A B} (m : M A) (f : A -> M B) : M B :=
  match m with
  | (Ok a, t) => let (r, t') := f a in (r, t ++ t')
  | (Raise e, t) => (Raise e, t)
  end.

(** A pure library call, which may raise. *)
Definition lift {A} (r : result A) : M A := (r, []).

(** A request to the node: the event is recorded, then the answer comes. *)
Definition request {A} (ev : event) (answer : result A) : M A := (answer, [ev]).

Definition print (m : message) : M unit := (Ok tt, [EvPrint m]).

Definition sleep (seconds : Z) : M unit := (Ok tt, [EvSleep seconds]).

(** [try: body except Exception as e: handler]. *)
Definition try_except {A} (body : M A) (handler : string -> M A) : M A :=
  match body with
  | (Ok a, t) => (Ok a, t)
  | (Raise e, t) => let (r, t') := handler e in (r, t ++ t')
  end.

Declare Scope py_scope.
Delimit Scope py_scope with py.
Notation "x <- m ;; k" := (bind m (fun x => k))
  (at level 61, m at next level, right associativity) : py_scope.
Notation "m ;; k" := (bind m (fun _ => k))
  (at level 61, right associativity) : py_scope.
Local Open Scope py_scope.

Definition outcome {A} (m : M A) : result A := fst m.
Definition effects {A} (m : M A) : list event := snd m.

(** ** blockchain/xdc_interact.py *)

Definition XDC_TESTNET_RPC_URL : string := "https://erpc.apothem.network".

Definition MIN_GAS_PRICE_GWEI : Z := 250.

Definition ai_agent_optimize_gas_price (w3_instance : Web3) : M Z :=
  print MsgAnalyzing ;;
  sleep 1 ;;
  network_gas_price_wei <- request EvGasPrice (eth_gas_price w3_instance) ;;
  shown <- lift (from_wei network_gas_price_wei gwei) ;;
  print (MsgNetworkSuggested shown) ;;
  min_gas_price_wei <- lift (to_wei (Dec.of_Z MIN_GAS_PRICE_GWEI) gwei) ;;
  final_gas_price <-
    (if network_gas_price_wei <? min_gas_price_wei then
       shown' <- lift (from_wei network_gas_price_wei gwei) ;;
       print (MsgPriceTooLow shown' MIN_GAS_PRICE_GWEI) ;;
       ret min_gas_price_wei
     else
       shown' <- lift (from_wei network_gas_price_wei gwei) ;;
       print (MsgUsingNetworkPrice shown') ;;
       ret network_gas_price_wei) ;;
  final_shown <- lift (from_wei final_gas_price gwei) ;;
  print (MsgFinalGasPrice final_shown) ;;
  ret final_gas_price.

(** *** Strings and bytes *)

(** [s.lower()] on the ASCII letters of a message. *)
Definition ascii_lower (c : ascii) : ascii :=
  let n := N_of_ascii c in
  if ((65 <=? n) && (n <=? 90))%N then ascii_of_N (n + 32) else c.

Fixpoint lower (s : string) : string :=
  match s with
  | EmptyString => EmptyString
  | String c s' => String (ascii_lower c) (lower s')
  end.

(** [sub in s]. *)
Definition contains (sub s : string) : bool :=
  match String.index 0 sub s with
  | Some _ => true
  | None => false
  end.

Definition hex_digit (n : N) : ascii :=
  if (n <? 10)%N then ascii_of_N (48 + n) else ascii_of_N (87 + n).

(** [tx_hash.hex()]: two lowercase hexadecimal digits per byte. *)
Fixpoint hex (bytes : string) : string :=
  match bytes with
  | EmptyString => EmptyString
  | String b rest =>
      let n := N_of_ascii b in
      String (hex_digit (n / 16)) (String (hex_digit (n mod 16)) (hex rest))
  end.

(** The [amount_xdc] argument: a finite number, or any other object. *)
Inductive PyAmount : Type :=
| AmountNumber (d : Decimal)
| AmountOther (repr : string).

(** [Decimal(str(amount_xdc))]: the decimal the number prints as; the
    text of any other object is not a number. *)
Definition Decimal_of_str (amount_xdc : PyAmount) : result Decimal :=
  match amount_xdc with
  | AmountNumber d => Ok d
  | AmountOther _ => Raise "[<class 'decimal.ConversionSyntax'>]"
  end.

Section XdcInteract.

(** [Web3.to_checksum_address]: the checksummed form of an address, or
    an exception when the text is not an address. *)
Variable to_checksum_address : string -> result string.

(** [Web3(Web3.HTTPProvider(rpc_url))]: the instance built for an
    endpoint. *)
Variable HTTPProvider : string -> result Web3.

(** The encoder of [sys.stdout] on a text of the caller: [None] when it
    accepts the text, or the text of the [UnicodeEncodeError] that
    [print] raises on a line that holds it; no encoder accepts a lone
    surrogate. *)
Variable encode_error : string -> option string.

(** [print] of a line formatted from a text of the caller. The other
    lines of this file are formatted from fixed texts, numbers, the
    message of an exception, checksummed addresses, addresses that
    [to_checksum_address] has accepted and an endpoint that answered
    the connection test; they are written without fault. *)
Definition print_text (text : string) (m : message) : M unit :=
  match encode_error text with
  | Some e => lift (Raise e)
  | None => print m
  end.

(** The [try] block of [connect_to_xdc_testnet]. *)
Definition connect_try (rpc_url : string) : M (option Web3) :=
  w3 <- request (EvNewProvider rpc_url) (HTTPProvider rpc_url) ;;
  connected <- request EvIsConnected (is_connected w3) ;;
  if connected : bool then
    print (MsgConnected rpc_url) ;;
    chain_id <- request EvChainId (eth_chain_id w3) ;;
    print (MsgChainId chain_id) ;;
    (if negb (chain_id =? 51) then print MsgUnexpectedChainId else ret tt) ;;
    ret (Some w3)
  else
    print MsgConnectionFailed ;;
    ret None.

Definition connect_to_xdc_testnet (rpc_url : string) : M (option Web3) :=
  try_except (connect_try rpc_url)
    (fun e =>
       print (MsgErrorConnecting e) ;;
       ret None).

(** The [try] block of [get_account_balance]. *)
Definition balance_try (w3_instance : Web3) (address : string)
  : M (option Decimal) :=
  checksum_address <- lift (to_checksum_address address) ;;
  print (MsgCheckingBalance checksum_address) ;;
  balance_wei <- request (EvGetBalance checksum_address)
                   (eth_get_balance w3_instance checksum_address) ;;
  balance_xdc <- lift (from_wei balance_wei ether) ;;
  print (MsgBalance balance_xdc) ;;
  ret (Some balance_xdc).

(** The handler prints the address as the caller gave it; an exception
    of that [print] leaves the function. *)
Definition get_account_balance (w3_instance : Web3) (address : string)
  : M (option Decimal) :=
  try_except (balance_try w3_instance address)
    (fun e =>
       print_text address (MsgErrorGettingBalance address e) ;;
       ret None).

(** The hints printed by the handler of [send_xdc_transaction]. *)
Definition explain (e : string) : M unit :=
  let error_msg := lower e in
  if contains "insufficient funds" error_msg || contains "balance" error_msg
  then print (MsgReason ReasonInsufficientBalance)
  else if contains "invalid signature" error_msg || contains "private key" error_msg
  then print (MsgReason ReasonInvalidPrivateKey)
  else if contains "nonce too low" error_msg || contains "nonce" error_msg
  then print (MsgReason ReasonNonceConflict)
  else if contains "gas" error_msg && contains "limit" error_msg
  then print (MsgReason ReasonGasLimit)
  else ret tt.

(** The [try] block of [send_xdc_transaction]. *)
Definition send_try (w3_instance : Web3)
    (private_key_str from_address to_address : string)
    (amount_xdc : PyAmount) : M (option string) :=
  from_addr <- lift (to_checksum_address from_address) ;;
  to_addr <- lift (to_checksum_address to_address) ;;
  nonce <- request (EvGetTransactionCount from_addr)
             (eth_get_transaction_count w3_instance from_addr) ;;
  gas_price <- ai_agent_optimize_gas_price w3_instance ;;
  shown <- lift (from_wei gas_price gwei) ;;
  print (MsgUsingGasPrice shown) ;;
  let gas_limit := 21000 in
  let gas_cost_wei := gas_limit * gas_price in
  gas_cost_xdc <- lift (from_wei gas_cost_wei ether) ;;
  print (MsgEstimatedGasCost gas_cost_xdc) ;;
  sender_balance <- get_account_balance w3_instance from_address ;;
  match sender_balance with
  | None =>
      print MsgNoSenderBalance ;;
      ret None
  | Some sender_balance =>
      amount_xdc_decimal <- lift (Decimal_of_str amount_xdc) ;;
      let total_required := Dec.add amount_xdc_decimal gas_cost_xdc in
      if Dec.ltb sender_balance total_required then
        print (MsgInsufficientFunds total_required sender_balance) ;;
        print MsgPleaseFund ;;
        ret None
      else
        value <- lift (to_wei amount_xdc_decimal ether) ;;
        chain_id <- request EvChainId (eth_chain_id w3_instance) ;;
        let tx := mkTransaction nonce to_addr value gas_limit gas_price chain_id in
        print (MsgPreparing amount_xdc_decimal from_address to_address) ;;
        signed_tx <- request (EvSign tx private_key_str)
                       (eth_account_sign_transaction w3_instance tx private_key_str) ;;
        tx_hash <- request (EvBroadcast (raw_transaction signed_tx))
                     (eth_send_raw_transaction w3_instance (raw_transaction signed_tx)) ;;
        print (MsgTransactionSent (hex tx_hash)) ;;
        print MsgWaitingForReceipt ;;
        receipt <- request (EvWaitReceipt tx_hash 60)
                     (eth_wait_for_transaction_receipt w3_instance tx_hash 60) ;;
        if status receipt =? 1 then
          print (MsgConfirmed (blockNumber receipt)) ;;
          print (MsgGasUsed (gasUsed receipt)) ;;
          ret (Some (hex tx_hash))
        else
          print (MsgTransactionFailed receipt) ;;
          ret None
  end.

Definition send_xdc_transaction (w3_instance : Web3)
    (private_key_str from_address to_address : string)
    (amount_xdc : PyAmount) : M (option string) :=
  try_except
    (send_try w3_instance private_key_str from_address to_address amount_xdc)
    (fun e =>
       print (MsgErrorSending e) ;;
       explain e ;;
       ret None).

End XdcInteract.

(** ** The scoring agents *)

(** Integers and finite floats are rationals, and comparisons between
    them are exact. *)
Definition Qgtb (a b : Q) : bool := negb (Qle_bool a b).
Definition Qltb (a b : Q) : bool := negb (Qle_bool b a).
Definition Qgeb (a b : Q) : bool := Qle_bool b a.

(** [rwa_data]: a row of the asset table, read with [.get(key, default)];
    an absent key is [None]. The agents only compare these numbers with
    thresholds ([>], and [== 0] for the water savings): a NaN cell fails
    every such test, as the number 1 does, and stands in the row as that
    number. *)
Record rwa_row : Type := mkRwa {
  estimated_co2_reduction_tons_per_year : option Q;
  estimated_energy_generated_kwh_per_year : option Q;
  estimated_jobs_created : option Q;
  estimated_water_savings_liters_per_year : option Q;
  certification_level : option string;
  project_type : option string
}.

(** A number of the borrower table: a finite number, or NaN, which is
    what [pandas.read_csv] gives for an empty cell. Infinities are not
    part of the model. *)
Inductive number : Type :=
| Finite (x : Q)
| NaN.

(** An arithmetic operation on two numbers: NaN as soon as an operand
    is NaN. *)
Definition lift2 (op : Q -> Q -> Q) (a b : number) : number :=
  match a, b with
  | Finite x, Finite y => Finite (op x y)
  | _, _ => NaN
  end.

(** A comparison of two numbers: false as soon as one of them is NaN. *)
Definition compare2 (test : Q -> Q -> bool) (a b : number) : bool :=
  match a, b with
  | Finite x, Finite y => test x y
  | _, _ => false
  end.

(** [a] and [b] are both NaN, or both numbers with [a <= b]. *)
Definition num_le (a b : number) : Prop :=
  match a, b with
  | Finite x, Finite y => (x <= y)%Q
  | NaN, NaN => True
  | _, _ => False
  end.

(** [borrower_data]: a row of the borrower table. *)
Record borrower_row : Type := mkBorrower {
  credit_score : option number;
  default_history : option number;
  debt_to_income_ratio : option number
}.

Definition get {A} (field : option A) (default : A) : A :=
  match field with
  | Some v => v
  | None => default
  end.

(** [round(min(max(x, 0), 100), 2)] on an integer [x]: rounding an
    integer at two decimals leaves it as it is. *)
Definition clamp_int (x : Z) : Z := Z.min (Z.max x 0) 100.

Module ImpactAssessorAgent.

Record assessment : Type := mkAssessment {
  impact_score : Z;
  impact_category : string;
  feedback_notes : list string
}.

(** [assess_impact], without the text of the underwriting report, which
    is formatted from the same values. *)
Definition assess_impact (project_description : string) (rwa_data : rwa_row)
    (loan_amount loan_term_years : Q) : assessment :=
  let co2_reduction := get (estimated_co2_reduction_tons_per_year rwa_data) 0%Q in
  let energy_generated := get (estimated_energy_generated_kwh_per_year rwa_data) 0%Q in
  let jobs_created := get (estimated_jobs_created rwa_data) 0%Q in
  let water_savings := get (estimated_water_savings_liters_per_year rwa_data) 0%Q in
  let certification := get (certification_level rwa_data) "None"%string in
  let impact_score := 0 in
  let feedback_notes := @nil string in
  (* CO2 impact *)
  let '(impact_score, feedback_notes) :=
    if Qgtb co2_reduction 10000 then (impact_score + 30, feedback_notes)
    else if Qgtb co2_reduction 1000 then (impact_score + 15, feedback_notes)
    else (impact_score,
          feedback_notes ++
          ["Consider projects with higher CO2 reduction potential."%string]) in
  (* Energy impact *)
  let '(impact_score, feedback_notes) :=
    if Qgtb energy_generated 5000000 then (impact_score + 25, feedback_notes)
    else if Qgtb energy_generated 1000000 then (impact_score + 10, feedback_notes)
    else (impact_score,
          feedback_notes ++
          ["Seek RWAs with greater renewable energy generation capacity."%string]) in
  (* Social impact (jobs) *)
  let '(impact_score, feedback_notes) :=
    if Qgtb jobs_created 50 then (impact_score + 20, feedback_notes)
    else if Qgtb jobs_created 10 then (impact_score + 10, feedback_notes)
    else (impact_score,
          feedback_notes ++
          ["Encourage projects that create more local employment opportunities."%string]) in
  (* Water savings *)
  let '(impact_score, feedback_notes) :=
    if Qgtb water_savings 1000000 then (impact_score + 15, feedback_notes)
    else if Qgtb water_savings 100000 then (impact_score + 5, feedback_notes)
    else if contains "water" (lower project_description) && Qeq_bool water_savings 0
    then (impact_score,
          feedback_notes ++
          ["Project description mentions water, but no water savings estimated."%string])
    else (impact_score, feedback_notes) in
  (* Certification bonus *)
  let '(impact_score, feedback_notes) :=
    if contains "Gold" certification then (impact_score + 10, feedback_notes)
    else if contains "Silver" certification then (impact_score + 5, feedback_notes)
    else (impact_score,
          feedback_notes ++
          ["Recommend seeking higher environmental certifications for stronger impact."%string]) in
  (* Loan size and term *)
  let impact_score := if Qgtb loan_amount 500000 then impact_score + 5 else impact_score in
  let impact_score := if Qgtb loan_term_years 5 then impact_score - 5 else impact_score in
  let impact_score := clamp_int impact_score in
  let impact_category :=
    if 70 <=? impact_score then "High"%string
    else if 40 <=? impact_score then "Medium"%string
    else "Low"%string in
  mkAssessment impact_score impact_category feedback_notes.

End ImpactAssessorAgent.

Module GOATAgent.

(** [round(x)] to the nearest integer, ties to the even one. *)
Definition round_half_even (x : Q) : Z :=
  let f := Qfloor x in
  let r := (x - inject_Z f)%Q in
  if Qltb r (1 # 2) then f
  else if Qgtb r (1 # 2) then f + 1
  else if Z.even f then f else f + 1.

Record insights : Type := mkInsights {
  summary : string;
  recommendation : string;
  confidence_score : Q
}.

(** The values [analyze_and_execute] computes: the two scores it keeps
    in local variables and the dictionary it returns. *)
Record analysis : Type := mkAnalysis {
  financial_risk_score : number;
  impact_score : Z;
  goat_insights : insights;
  blockchain_action : string
}.

Section Floats.

(** [fl x]: the float the real result [x] of an operation is rounded
    to. *)
Variable fl : Q -> Q.

Definition fadd (a b : Q) : Q := fl (a + b)%Q.
Definition fsub (a b : Q) : Q := fl (a - b)%Q.
Definition fmul (a b : Q) : Q := fl (a * b)%Q.
Definition fdiv (a b : Q) : Q := fl (a / b)%Q.

(** [max(x, y)] and [min(x, y)] as Python evaluates them: the first
    argument unless the second one beats it. *)
Definition py_max (x y : Q) : Q := if Qgtb y x then y else x.
Definition py_min (x y : Q) : Q := if Qltb y x then y else x.

(** [round(x, 2)]: the float nearest to [x] rounded at two decimals. *)
Definition round2 (x : Q) : Q :=
  fl (inject_Z (round_half_even (x * 100)) / 100)%Q.

(** The same operations on numbers that may be NaN: [max(nan, 0)],
    [min(nan, 100)] and [round(nan, 2)] are all NaN, since no comparison
    with NaN succeeds. *)
Definition nadd : number -> number -> number := lift2 fadd.
Definition nsub : number -> number -> number := lift2 fsub.
Definition nmul : number -> number -> number := lift2 fmul.
Definition ndiv : number -> number -> number := lift2 fdiv.

Definition nmax (x y : number) : number := if compare2 Qgtb y x then y else x.
Definition nmin (x y : number) : number := if compare2 Qltb y x then y else x.

Definition nround2 (x : number) : number :=
  match x with
  | Finite q => Finite (round2 q)
  | NaN => NaN
  end.

(** [noise] is the draw of [np.random.uniform(-0.05, 0.05)]. *)
Definition analyze_and_execute (borrower_data : borrower_row)
    (rwa_data : rwa_row) (noise : Q) : analysis :=
  (* Financial assessment *)
  let credit_score := get (credit_score borrower_data) (Finite 600) in
  let default_history := get (default_history borrower_data) (Finite 0) in
  let debt_to_income_ratio :=
    get (debt_to_income_ratio borrower_data) (Finite (fl (4 # 10))) in
  let financial_risk_score :=
    nmul (nsub (Finite 1) (ndiv credit_score (Finite 850))) (Finite 100) in
  let financial_risk_score :=
    if compare2 Qgtb default_history (Finite 0)
    then nadd financial_risk_score (Finite 20)
    else financial_risk_score in
  let financial_risk_score :=
    if compare2 Qgtb debt_to_income_ratio (Finite (fl (4 # 10)))
    then nadd financial_risk_score
           (nmul (nsub debt_to_income_ratio (Finite (fl (4 # 10)))) (Finite 50))
    else financial_risk_score in
  let financial_risk_score :=
    nround2 (nmin (nmax financial_risk_score (Finite 0)) (Finite 100)) in
  (* Environmental impact assessment *)
  let co2_reduction := get (estimated_co2_reduction_tons_per_year rwa_data) 0%Q in
  let energy_generated := get (estimated_energy_generated_kwh_per_year rwa_data) 0%Q in
  let jobs_created := get (estimated_jobs_created rwa_data) 0%Q in
  let impact_score := 0 in
  let impact_score :=
    if match project_type rwa_data with
       | Some t => String.eqb t "solar"
       | None => false
       end
    then impact_score + 30 else impact_score in
  let impact_score := if Qgtb co2_reduction 5000 then impact_score + 40 else impact_score in
  let impact_score := if Qgtb energy_generated 1000000 then impact_score + 30 else impact_score in
  let impact_score := if Qgtb jobs_created 10 then impact_score + 10 else impact_score in
  let impact_score := clamp_int impact_score in
  (* Combined recommendation *)
  let '(summary, recommendation, confidence_score) :=
    if compare2 Qltb financial_risk_score (Finite 30) && (70 <? impact_score) then
      ("Highly favorable project: low financial risk and significant green impact."%string,
       "Approve loan with priority; recommend favorable terms."%string,
       fl (95 # 100))
    else if compare2 Qltb financial_risk_score (Finite 60) && (40 <? impact_score) then
      ("Standard green loan project: moderate financial risk and good impact."%string,
       "Approve loan after standard due diligence; proceed."%string,
       fl (70 # 100))
    else if compare2 Qgeb financial_risk_score (Finite 60) && (50 <? impact_score) then
      ("Higher financial risk, but strong green impact. Requires careful review."%string,
       "Conditional approval: request additional collateral or higher interest."%string,
       fl (55 # 100))
    else
      ("Project requires further review due to higher financial risk or limited green impact."%string,
       "Deny loan or request substantial additional information/collateral."%string,
       fl (30 # 100)) in
  let confidence_score := py_min 1 (py_max 0 (fadd confidence_score noise)) in
  mkAnalysis financial_risk_score impact_score
    (mkInsights summary recommendation confidence_score)
    "initiate_transaction".

End Floats.

End GOATAgent.

(** Points of a metric with two thresholds, as each block of
    [assess_impact] awards them. *)
Definition tier (x high : Q) (high_points : Z) (low : Q) (low_points : Z) : Z :=
  if Qgtb x high then high_points
  else if Qgtb x low then low_points
  else 0.

(** The sum [assess_impact] has accumulated before it caps it. *)
Definition impact_points (rwa_data : rwa_row) (loan_amount loan_term_years : Q) : Z :=
  tier (get (estimated_co2_reduction_tons_per_year rwa_data) 0%Q) 10000 30 1000 15
  + tier (get (estimated_energy_generated_kwh_per_year rwa_data) 0%Q)
      5000000 25 1000000 10
  + tier (get (estimated_jobs_created rwa_data) 0%Q) 50 20 10 10
  + tier (get (estimated_water_savings_liters_per_year rwa_data) 0%Q)
      1000000 15 100000 5
  + (if contains "Gold" (get (certification_level rwa_data) "None"%string) then 10
     else if contains "Silver" (get (certification_level rwa_data) "None"%string)
          then 5 else 0)
  + (if Qgtb loan_amount 500000 then 5 else 0)
  - (if Qgtb loan_term_years 5 then 5 else 0).

(** ** app.py: the financial risk of a proposal *)

Module App.

Section Floats.

Variable fl : Q -> Q.

(** [calculate_financial_risk(borrower, loan_amount, loan_term_months)]:
    [borrower["key"]] raises [KeyError] on an absent key; the loan amount
    is a float and the term an integer number of months. *)
Definition calculate_financial_risk (borrower : borrower_row)
    (loan_amount : Q) (loan_term_months : Z) : result (number * string) :=
  match credit_score borrower with
  | None => Raise "'credit_score'"
  | Some credit_score =>
      let score :=
        GOATAgent.nmul fl
          (GOATAgent.nsub fl (Finite 1)
             (GOATAgent.ndiv fl credit_score (Finite 850)))
          (Finite 100) in
      match default_history borrower with
      | None => Raise "'default_history'"
      | Some default_history =>
          let score :=
            if compare2 Qgtb default_history (Finite 0)
            then GOATAgent.nadd fl score (Finite 15)
            else score in
          let score :=
            if Qgtb loan_amount 500000
            then GOATAgent.nadd fl score
                   (Finite
                      (GOATAgent.fmul fl
                         (GOATAgent.fdiv fl (GOATAgent.fsub fl loan_amount 500000)
                            100000)
                         2))
            else score in
          let score :=
            if 36 <? loan_term_months
            then GOATAgent.nadd fl score
                   (Finite
                      (GOATAgent.fmul fl
                         (GOATAgent.fdiv fl (inject_Z (loan_term_months - 36)) 12)
                         3))
            else score in
          let score :=
            GOATAgent.nround2 fl
              (GOATAgent.nmin (GOATAgent.nmax score (Finite 0)) (Finite 100)) in
          let category :=
            if compare2 Qgeb score (Finite 60) then "High"%string
            else if compare2 Qgeb score (Finite 30) then "Medium"%string
            else "Low"%string in
          Ok (score, category)
      end
  end.

(** The score of [calculate_financial_risk] before the clamp when the
    credit score is the number [credit_score]; [defaulted] is the result
    of the test on the default history. *)
Definition unclamped_score (credit_score : Q) (defaulted : bool)
    (loan_amount : Q) (loan_term_months : Z) : Q :=
  let score :=
    GOATAgent.fmul fl (GOATAgent.fsub fl 1 (GOATAgent.fdiv fl credit_score 850)) 100 in
  let score := if defaulted then GOATAgent.fadd fl score 15 else score in
  let score :=
    if Qgtb loan_amount 500000
    then GOATAgent.fadd fl score
           (GOATAgent.fmul fl
              (GOATAgent.fdiv fl (GOATAgent.fsub fl loan_amount 500000) 100000)
              2)
    else score in
  if 36 <? loan_term_months
  then GOATAgent.fadd fl score
         (GOATAgent.fmul fl
            (GOATAgent.fdiv fl (inject_Z (loan_term_months - 36)) 12)
            3)
  else score.

End Floats.

End App.

(** ** agents/oracle_monitor.py *)

Module OracleMonitorAgent.

Record reading : Type := mkReading {
  success : bool;
  co2_reduction_tons : Q;
  energy_generated_kwh : Q;
  jobs_created : Z;
  water_savings_liters : Q;
  status_update : string;
  timestamp : string
}.

Section Floats.

Variable fl : Q -> Q.

(** [fetch_simulated_rwa_data(rwa_id, current_month)], with the draws of
    the random generator in the order the code makes them
    ([random.random()], [random.random()], [random.randint(-1, 1)],
    [random.random()]) and the text of [datetime.now()]; logging and the
    sleep are left out. The month is an integer below 2^53 in absolute
    value, which is a float exactly: nothing in the [try] block raises
    then. *)
Definition fetch_simulated_rwa_data (rwa_id : string) (current_month : Z)
    (draw_co2 draw_energy : Q) (jobs_variation : Z) (draw_water : Q)
    (now : string) : reading :=
  let co2_factor :=
    GOATAgent.fadd fl (fl (9 # 10)) (GOATAgent.fmul fl draw_co2 (fl (2 # 10))) in
  let energy_factor :=
    GOATAgent.fadd fl (fl (85 # 100)) (GOATAgent.fmul fl draw_energy (fl (3 # 10))) in
  let water_factor :=
    GOATAgent.fadd fl (fl (9 # 10)) (GOATAgent.fmul fl draw_water (fl (2 # 10))) in
  let base_co2 :=
    GOATAgent.fmul fl 5000
      (GOATAgent.fadd fl 1 (GOATAgent.fmul fl (inject_Z current_month) (fl (5 # 1000)))) in
  let base_energy :=
    GOATAgent.fmul fl 1000000
      (GOATAgent.fadd fl 1 (GOATAgent.fmul fl (inject_Z current_month) (fl (3 # 1000)))) in
  let base_jobs := 10 in
  let base_water :=
    GOATAgent.fmul fl 500000
      (GOATAgent.fadd fl 1 (GOATAgent.fmul fl (inject_Z current_month) (fl (2 # 1000)))) in
  let co2_reduction := GOATAgent.fmul fl base_co2 co2_factor in
  let energy_generated := GOATAgent.fmul fl base_energy energy_factor in
  let jobs_created := Z.max 0 (base_jobs + jobs_variation) in
  let water_savings := GOATAgent.fmul fl base_water water_factor in
  let status := "On Track"%string in
  let status :=
    if Qltb co2_reduction (GOATAgent.fmul fl base_co2 (fl (8 # 10)))
    then "Underperforming CO2"%string else status in
  let status :=
    if Qltb energy_generated (GOATAgent.fmul fl base_energy (fl (8 # 10)))
    then "Underperforming Energy"%string else status in
  mkReading true co2_reduction energy_generated jobs_created water_savings
    status now.

End Floats.

End OracleMonitorAgent.

(** ** agents/akka_liquidity_agent.py *)

Module AkkaLiquidityAgent.

(** The dictionaries the two methods exchange; a key may be absent, which
    is what [.get] and [[...]] tell apart. Printing and sleeping are left
    out. *)
Record details : Type := mkDetails {
  selected_pool : option string;
  via_dex : option string;
  liquidity_depth : option Z;
  estimated_fees_percent : option Q;
  risk_score : option Q
}.

Record route : Type := mkRoute {
  route_found : option bool;
  optimization_details : option details;
  simulated_slippage_percent : option Q;
  simulated_gas_cost_xdc : option Q;
  error_message : option string
}.

(** The draws of [optimize_liquidity_route], in the order of the code. *)
Record route_draws : Type := mkRouteDraws {
  pool_letter : string;
  dex : string;
  depth : Z;
  fees_percent : Q;
  risk_factor : Q;
  slippage_percent : Q;
  gas_cost_xdc : Q
}.

Record trade : Type := mkTrade {
  trade_executed : bool;
  simulated_tx_hash : option string;
  output_amount_received : Z;
  output_asset : string
}.

Definition empty_details : details := mkDetails None None None None None.

(** The [amount_rwa] argument: a number within the range of floats, or an
    object that [float] refuses, with the text of the exception. *)
Inductive amount : Type :=
| Number (x : Q)
| NotNumber (error : string).

Section Floats.

Variable fl : Q -> Q.

(** [float(x)]: the nearest float of a number, the exception otherwise. *)
Definition float_of (x : amount) : result Q :=
  match x with
  | Number q => Ok (fl q)
  | NotNumber error => Raise error
  end.

Definition optimize_liquidity_route (rwa_token_address : string)
    (amount_rwa : amount) (preferred_output_asset : string)
    (max_risk_tolerance : Q) (draws : route_draws) : route :=
  if Qltb (fl max_risk_tolerance) 2 then
    mkRoute (Some false) (Some empty_details) (Some 0%Q) (Some 0%Q)
      (Some "No suitable liquidity route found with the given risk tolerance."%string)
  else
    let optimal_route_details :=
      mkDetails
        (Some (String.append "AKKA-USDC Liquidity Pool " (pool_letter draws)))
        (Some (dex draws))
        (Some (depth draws))
        (Some (fees_percent draws))
        (Some (GOATAgent.fmul fl max_risk_tolerance (risk_factor draws))) in
    let simulated_slippage_percent := slippage_percent draws in
    let simulated_gas_cost_xdc := gas_cost_xdc draws in
    mkRoute (Some true) (Some optimal_route_details)
      (Some simulated_slippage_percent) (Some simulated_gas_cost_xdc) None.

(** The [try] block of [simulate_execute_trade]: the hash of the trade,
    or the exception raised on the way. [variance] is the draw of
    [random.uniform(0.995, 1.005)], [digest] the hexadecimal SHA-256 of
    the random bits. *)
Definition execute_try (optimized_route_details : route) (amount_rwa : amount)
    (variance : Q) (digest : string) : result string :=
  match float_of amount_rwa with
  | Raise e => Raise e
  | Ok amount_rwa_float =>
      match optimization_details optimized_route_details with
      | None => Raise "'optimization_details'"
      | Some found =>
          match estimated_fees_percent found with
          | None => Raise "'estimated_fees_percent'"
          | Some fees =>
              let fees_decimal := GOATAgent.fdiv fl fees 100 in
              match simulated_slippage_percent optimized_route_details with
              | None => Raise "'simulated_slippage_percent'"
              | Some slippage =>
                  let slippage_decimal := GOATAgent.fdiv fl slippage 100 in
                  let simulated_amount_received :=
                    GOATAgent.fmul fl
                      (GOATAgent.fmul fl
                         (GOATAgent.fmul fl amount_rwa_float
                            (GOATAgent.fsub fl 1 fees_decimal))
                         (GOATAgent.fsub fl 1 slippage_decimal))
                      variance in
                  Ok (String.append "0x" digest)
              end
          end
      end
  end.

Definition simulate_execute_trade (optimized_route_details : route)
    (amount_rwa : amount) (preferred_output_asset : string)
    (variance : Q) (digest : string) : trade :=
  let trade_executed := false in
  let simulated_tx_hash := @None string in
  let output_amount_received := 0 in
  let '(trade_executed, simulated_tx_hash) :=
    if get (route_found optimized_route_details) false then
      match execute_try optimized_route_details amount_rwa variance digest with
      | Ok tx_hash => (true, Some tx_hash)
      | Raise _ => (trade_executed, simulated_tx_hash)
      end
    else (trade_executed, simulated_tx_hash) in
  mkTrade trade_executed simulated_tx_hash output_amount_received
    preferred_output_asset.

End Floats.

End AkkaLiquidityAgent.

(** ** agents/storx_agent.py *)

Module StorXAgent.

(** An exception of the storage client: a [ClientError] with the code and
    message of its response, or any other exception with its text. *)
Inductive failure : Type :=
| ClientError (code message : string)
| OtherError (text : string).

Inductive answer (A : Type) : Type :=
| Done (a : A)
| Failed (f : failure).
Arguments Done {A} a.
Arguments Failed {A} f.

(** What the client answers to the three calls the agent makes. *)
Record s3_client : Type := mkClient {
  head_bucket : string -> answer unit;
  create_bucket : string -> answer unit;
  upload_fileobj : string -> string -> string -> answer unit
}.

(** The calls made to the storage service, in order. *)
Inductive call : Type :=
| NewClient (endpoint_url access_key_id secret_access_key : string)
| HeadBucket (bucket : string)
| CreateBucket (bucket : string)
| UploadFileobj (content bucket key : string).

Record agent : Type := mkAgent {
  access_key_id : option string;
  secret_access_key : option string;
  endpoint_url : option string;
  bucket_name : option string;
  is_real_integration_possible : bool;
  s3 : option s3_client
}.

(** Truth value of a credential: [None] and the empty text are false. *)
Definition truthy (x : option string) : bool :=
  match x with
  | Some s => negb (String.eqb s EmptyString)
  | None => false
  end.

(** [f"{x}"] of a credential. *)
Definition show (x : option string) : string := get x "None"%string.

Section Service.

(** [boto3.client('s3', ...)]: the client built for an endpoint and a
    pair of keys, or the exception raised. *)
Variable boto3_client : string -> string -> string -> answer s3_client.

(** [StorXAgent(access_key_id, secret_access_key, endpoint_url,
    bucket_name)]: the agent built and the calls made; logging is left
    out. *)
Definition init (access_key_id secret_access_key endpoint_url bucket_name
                   : option string) : agent * list call :=
  let simulated :=
    mkAgent access_key_id secret_access_key endpoint_url bucket_name false in
  if negb (truthy access_key_id && truthy secret_access_key
           && truthy endpoint_url && truthy bucket_name)
  then (simulated None, [])
  else
    let new_client :=
      NewClient (show endpoint_url) (show access_key_id) (show secret_access_key) in
    match boto3_client (show endpoint_url) (show access_key_id)
            (show secret_access_key) with
    | Failed _ => (simulated None, [new_client])
    | Done client =>
        let real :=
          mkAgent access_key_id secret_access_key endpoint_url bucket_name
            true (Some client) in
        match head_bucket client (show bucket_name) with
        | Done _ => (real, [new_client; HeadBucket (show bucket_name)])
        | Failed (ClientError code _) =>
            if String.eqb code "404" then
              match create_bucket client (show bucket_name) with
              | Done _ =>
                  (real, [new_client; HeadBucket (show bucket_name);
                          CreateBucket (show bucket_name)])
              | Failed _ =>
                  (simulated (Some client),
                   [new_client; HeadBucket (show bucket_name);
                    CreateBucket (show bucket_name)])
              end
            else
              (simulated (Some client),
               [new_client; HeadBucket (show bucket_name)])
        | Failed (OtherError _) =>
            (simulated (Some client),
             [new_client; HeadBucket (show bucket_name)])
        end
    end.

End Service.

(** The content handed to [upload_document]: bytes, or another object
    with its [str]. *)
Inductive content : Type :=
| Bytes (b : string)
| NotBytes (text : string).





End StorXAgent.

(** ** agents/rwa_tokenizer.py *)

(** Python values as [_convert_numpy_types] tells them apart: dictionaries
    with text keys, lists, NumPy integers and floats, and the rest (here
    the plain values and tuples). *)
#[local] Unset Elimination Schemes.
Inductive pyobj : Type :=
| PyNone
| PyBool (b : bool)
| PyInt (n : Z)
| PyFloat (x : Q)
| PyStr (s : string)
| NpInteger (n : Z)
| NpFloating (x : Q)
| PyList (items : list pyobj)
| PyTuple (items : list pyobj)
| PyDict (entries : list (string * pyobj)).
#[local] Set Elimination Schemes.

Module RWATokenizerAgent.

Fixpoint _convert_numpy_types (obj : pyobj) : pyobj :=
  match obj with
  | PyDict entries =>
      PyDict (List.map (fun '(k, v) => (k, _convert_numpy_types v)) entries)
  | PyList items => PyList (List.map _convert_numpy_types items)
  | NpInteger n => PyInt n
  | NpFloating x => PyFloat x
  | _ => obj
  end.

(** No NumPy number is left anywhere in the value. *)
Fixpoint numpy_free (obj : pyobj) : bool :=
  match obj with
  | NpInteger _ | NpFloating _ => false
  | PyList items | PyTuple items => List.forallb numpy_free items
  | PyDict entries => List.forallb (fun '(_, v) => numpy_free v) entries
  | _ => true
  end.

(** No tuple anywhere in the value. *)
Fixpoint tuple_free (obj : pyobj) : bool :=
  match obj with
  | PyTuple _ => false
  | PyList items => List.forallb tuple_free items
  | PyDict entries => List.forallb (fun '(_, v) => tuple_free v) entries
  | _ => true
  end.

(** [d.get(key)] on the entries of a dictionary. *)
Fixpoint lookup (key : string) (entries : list (string * pyobj)) : option pyobj :=
  match entries with
  | [] => None
  | (k, v) :: rest => if String.eqb k key then Some v else lookup key rest
  end.

Definition is_dash (c : ascii) : bool := Ascii.eqb c "-"%char.

Fixpoint has_dash (s : string) : bool :=
  match s with
  | EmptyString => false
  | String c rest => is_dash c || has_dash rest
  end.

(** [s.split('-')[-1]]: what follows the last dash, or all of [s]. *)
Fixpoint last_segment (s : string) : string :=
  match s with
  | EmptyString => EmptyString
  | String c rest =>
      if has_dash rest then last_segment rest
      else if is_dash c then rest
      else s
  end.

(** [s.upper()] on a hexadecimal digest: only the letters [a] to [z]
    change. *)
Definition ascii_upper (c : ascii) : ascii :=
  let n := N_of_ascii c in
  if ((97 <=? n) && (n <=? 122))%N then ascii_of_N (n - 32) else c.

Fixpoint upper (s : string) : string :=
  match s with
  | EmptyString => EmptyString
  | String c rest => String (ascii_upper c) (upper rest)
  end.

Record token : Type := mkToken {
  token_id : string;
  token_symbol : string;
  token_name : string;
  metadata_url : string
}.

Inductive tokenization : Type :=
| Tokenized (t : token)
| TokenizationFailed (error : string).

Section Library.

(** [hashlib.sha256(json.dumps(obj, sort_keys=True).encode()).hexdigest()]:
    the digest of a value, or the exception of [json.dumps] on a value it
    cannot write. *)
Variable sha256_of_json : pyobj -> result string.

(** [str(obj)] of a value that is not a text. *)
Variable str : pyobj -> string.

(** [type(obj).__name__]. *)
Variable type_name : pyobj -> string.

(** [f"{obj}"]. *)
Definition format (obj : pyobj) : string :=
  match obj with
  | PyStr s => s
  | _ => str obj
  end.

(** [obj.split('-')[-1]]: only a text has the method, another object
    raises [AttributeError]. *)
Definition split_last (obj : pyobj) : result string :=
  match obj with
  | PyStr s => Ok (last_segment s)
  | _ =>
      Raise (String.append "'"
               (String.append (type_name obj)
                  "' object has no attribute 'split'"))
  end.

(** [simulate_tokenize_rwa(loan_details)] on the entries of the
    dictionary; logging and the sleep are left out. *)
Definition simulate_tokenize_rwa (loan_details : list (string * pyobj))
    : tokenization :=
  let serializable_loan_details := _convert_numpy_types (PyDict loan_details) in
  match sha256_of_json serializable_loan_details with
  | Raise e => TokenizationFailed e
  | Ok loan_hash =>
      let token_id := String.append "RWA-" (upper (String.substring 0 10 loan_hash)) in
      let token_name :=
        String.append "Green Loan #"
          (format (get (lookup "loan_id" loan_details) (PyStr "Unknown"))) in
      match split_last (get (lookup "loan_id" loan_details) (PyStr "000")) with
      | Raise e => TokenizationFailed e
      | Ok suffix =>
          let token_symbol := String.append "GL" suffix in
          let simulated_metadata_url :=
            String.append "https://simulated.storx.link/rwa_metadata/"
              (String.append token_id ".json") in
          Tokenized (mkToken token_id token_symbol token_name simulated_metadata_url)
      end
  end.

End Library.

End RWATokenizerAgent.

(** ** agents/dao_governance.py *)

Module DAOGovernanceAgent.

(** The keys of [proposal_details] the vote reads: a number and a text,
    each of which may be absent. *)
Record proposal : Type := mkProposal {
  impact_score : option Q;
  financial_risk : option string
}.

Record ballot : Type := mkBallot {
  success : bool;
  vote_outcome : string;
  yes_votes_percent : Q;
  no_votes_percent : Q;
  total_voters : Z;
  reason : string
}.

Section Floats.

Variable fl : Q -> Q.

(** [random.uniform(a, b)] is [a + (b - a) * random.random()]. *)
Definition uniform (a b draw : Q) : Q :=
  GOATAgent.fadd fl a (GOATAgent.fmul fl (GOATAgent.fsub fl b a) draw).

(** [simulate_vote_on_proposal(proposal_id, proposal_details)], with the
    draw of [random.random()] inside [random.uniform] and the draw of
    [random.randint(50, 200)]; logging and the sleep are left out. On a
    number and a text nothing in the [try] block raises. *)
Definition simulate_vote_on_proposal (proposal_id : string)
    (proposal_details : proposal) (draw : Q) (voters : Z) : ballot :=
  let impact_score := get (impact_score proposal_details) 50%Q in
  let financial_risk := get (financial_risk proposal_details) "Medium"%string in
  let yes_chance := fl (6 # 10) in
  let yes_chance :=
    if Qgtb impact_score 70 then GOATAgent.fadd fl yes_chance (fl (15 # 100))
    else yes_chance in
  let yes_chance :=
    if String.eqb financial_risk "Low"
    then GOATAgent.fadd fl yes_chance (fl (10 # 100))
    else if String.eqb financial_risk "High"
         then GOATAgent.fsub fl yes_chance (fl (20 # 100))
         else yes_chance in
  let yes_votes_percent :=
    GOATAgent.py_min
      (GOATAgent.py_max
         (uniform (GOATAgent.fsub fl yes_chance (fl (1 # 10)))
            (GOATAgent.fadd fl yes_chance (fl (1 # 10))) draw)
         (fl (4 # 10)))
      (fl (95 # 100)) in
  let no_votes_percent := GOATAgent.fsub fl 1 yes_votes_percent in
  let total_voters := voters in
  let vote_outcome := "Pending"%string in
  let reason := "Voting is ongoing."%string in
  let '(vote_outcome, reason) :=
    if Qgtb yes_votes_percent (fl (70 # 100)) then
      ("Approved"%string,
       "Strong community support for green impact and low financial risk."%string)
    else if Qgtb no_votes_percent (fl (40 # 100)) then
      ("Rejected"%string,
       "Insufficient green impact or high perceived financial risk."%string)
    else
      (vote_outcome,
       "Vote outcome is still too close to call, further discussion needed."%string) in
  mkBallot true vote_outcome
    (GOATAgent.round2 fl (GOATAgent.fmul fl yes_votes_percent 100))
    (GOATAgent.round2 fl (GOATAgent.fmul fl no_votes_percent 100))
    total_voters reason.

End Floats.

End DAOGovernanceAgent.

(** [x] lies between two multiples of 1/1024. *)
Definition within (lo hi : Z) (x : Q) : Prop :=
  (lo # 1024 <= x)%Q /\ (x <= hi # 1024)%Q.

(** ** Counting effects *)

Definition is_signing (ev : event) : bool :=
  match ev with EvSign _ _ => true | _ => false end.

Definition is_broadcast (ev : event) : bool :=
  match ev with EvBroadcast _ => true | _ => false end.

Definition is_gas_price_read (ev : event) : bool :=
  match ev with EvGasPrice => true | _ => false end.

Definition count (p : event -> bool) (t : list event) : nat :=
  List.length (List.filter p t).

Definition signings (t : list event) : nat := count is_signing t.
Definition broadcasts (t : list event) : nat := count is_broadcast t.

(** Effects that change nothing on the ledger: printing, sleeping and the
    reads (connection test, chain identifier, gas price, balance,
    transaction count); building a provider and the three steps of a
    submission are the others. *)
Definition is_read_only (ev : event) : bool :=
  match ev with
  | EvSign _ _ | EvBroadcast _ | EvWaitReceipt _ _ | EvNewProvider _ => false
  | _ => true
  end.

(** The configured floor in the smallest unit of the chain. *)
Definition floor_wei : Z := MIN_GAS_PRICE_GWEI * 10 ^ unit_exponent gwei.

(** Two quotes in a row, on the handle as it is at the first call and as
    it is at the second. *)
Definition quote_twice (first second : Web3) : M (Z * Z) :=
  g1 <- ai_agent_optimize_gas_price first ;;
  g2 <- ai_agent_optimize_gas_price second ;;
  ret (g1, g2).

(** [b] is the effect that comes right after [a]. *)
Definition follows (t : list event) (a b : event) : Prop :=
  exists before after, t = before ++ a :: b :: after.

(** During a run with effects [t], the 60-second wait for the receipt of
    some broadcast transaction came back with a receipt of status 1, and
    [x] is the hexadecimal text of that transaction's hash. *)
Definition confirmed_within_timeout (w3 : Web3) (t : list event) (x : string) : Prop :=
  exists tx_hash rc,
    In (EvWaitReceipt tx_hash 60) t
    /\ eth_wait_for_transaction_receipt w3 tx_hash 60 = Ok rc
    /\ status rc = 1
    /\ x = hex tx_hash.

Definition is_balance_read (ev : event) : bool :=
  match ev with EvGetBalance _ => true | _ => false end.

Definition is_receipt_wait (ev : event) : bool :=
  match ev with EvWaitReceipt _ _ => true | _ => false end.

(** ** Sample nodes and requests *)

Module Sample.

(** A stand-in for the checksum routine: texts that start with [0x] are
    taken as already checksummed, anything else is refused. *)
Definition checksum (address : string) : result string :=
  if String.prefix "0x" address then Ok address
  else Raise "invalid address".

(** The text ["\ud800"], a lone surrogate, held as the three bytes that
    the [surrogatepass] handler writes for it. *)
Definition lone_surrogate : string :=
  String (ascii_of_N 237) (String (ascii_of_N 160) (String (ascii_of_N 128) EmptyString)).

(** What [str(e)] is for the [UnicodeEncodeError] that [print] raises
    on the handler's line of [get_account_balance] for that address: the
    surrogate is the character at index 28 of the line. *)
Definition surrogates_not_allowed : string :=
  "'utf-8' codec can't encode character '\ud800' in position 28: surrogates not allowed".

(** A standard output in UTF-8, as far as the samples go: it refuses a
    text that holds the lone surrogate and writes the others. *)
Definition stdout (text : string) : option string :=
  if contains lone_surrogate text then Some surrogates_not_allowed else None.

Definition signed (tx : transaction) (key : string) : result SignedTransaction :=
  if String.eqb key "key" then Ok {| raw_transaction := "raw" |}
  else Raise "invalid private key".

(** A node that reports the given chain, gas price and balance, accepts
    the broadcast and answers the receipt wait with [wait]. *)
Definition node (chain_id gas_price balance_wei : Z) (wait : result receipt) : Web3 :=
  {| is_connected := Ok true;
     eth_chain_id := Ok chain_id;
     eth_gas_price := Ok gas_price;
     eth_get_balance := fun _ => Ok balance_wei;
     eth_get_transaction_count := fun _ => Ok 7;
     eth_account_sign_transaction := signed;
     eth_send_raw_transaction := fun _ => Ok "h"%string;
     eth_wait_for_transaction_receipt := fun _ _ => wait |}.

Definition ten_gwei : Z := 10 * 10 ^ 9.
Definition xdc (n : Z) : Z := n * 10 ^ 18.

Definition confirmed : receipt := mkReceipt 1 1200 21000.
Definition reverted : receipt := mkReceipt 0 1200 21000.

(** Balance 100, a receipt with success status. *)
Definition funded : Web3 := node 51 ten_gwei (xdc 100) (Ok confirmed).

(** Balance 100, the receipt wait runs out of time. *)
Definition silent : Web3 :=
  node 51 ten_gwei (xdc 100)
    (Raise "Transaction is not in the chain after 60 seconds").

(** Balance 100, a receipt with failure status. *)
Definition rejected : Web3 := node 51 ten_gwei (xdc 100) (Ok reverted).

(** Balance 50. *)
Definition poor : Web3 := node 51 ten_gwei (xdc 50) (Ok confirmed).

(** A node of another chain. *)
Definition elsewhere : Web3 := node 50 ten_gwei (xdc 100) (Ok confirmed).

(** A node that is down. *)
Definition down : Web3 :=
  {| is_connected := Ok false;
     eth_chain_id := Raise "connection refused";
     eth_gas_price := Raise "connection refused";
     eth_get_balance := fun _ => Raise "connection refused";
     eth_get_transaction_count := fun _ => Raise "connection refused";
     eth_account_sign_transaction := signed;
     eth_send_raw_transaction := fun _ => Raise "connection refused";
     eth_wait_for_transaction_receipt := fun _ _ => Raise "connection refused" |}.

Definition provider (w3 : Web3) (rpc_url : string) : result Web3 := Ok w3.

(** An endpoint that cannot be reached. *)
Definition unreachable (rpc_url : string) : result Web3 :=
  Raise "connection refused".

Definition sender : string := "0xA".
Definition recipient : string := "0xB".
Definition ninety : PyAmount := AmountNumber (Dec.of_Z 90).

(** The transfer the program builds for [ninety] on the nodes above. *)
Definition transfer : transaction :=
  mkTransaction 7 recipient (xdc 90) 21000 floor_wei 51.

Definition submit (w3 : Web3) : M (option string) :=
  send_xdc_transaction checksum stdout w3 "key" sender recipient ninety.

(** A gas price one wei above the floor, the fee of a plain transfer at
    that price, an amount of 10^13 XDC, and a node whose balance is 1000
    wei short of the amount plus the fee. *)
Definition pricey : Z := floor_wei + 1.
Definition fee_wei : Z := 21000 * pricey.
Definition fortune : PyAmount := AmountNumber (Dec.of_Z (10 ^ 13)).
Definition short_wei : Z := xdc (10 ^ 13) + fee_wei - 1000.
Definition whale : Web3 := node 51 pricey short_wei (Ok confirmed).

Definition solar_farm : rwa_row :=
  mkRwa (Some 12000%Q) (Some 7500000%Q) (Some 35%Q) None
    (Some "Gold"%string) (Some "solar"%string).

Definition borrower : borrower_row :=
  mkBorrower (Some (Finite 720)) (Some (Finite 0)) (Some (Finite (35 # 100))).

(** The same borrower with an empty cell for the credit score. *)
Definition unrated : borrower_row :=
  mkBorrower (Some NaN) (Some (Finite 0)) (Some (Finite (35 # 100))).

End Sample.

(** ** More samples *)

Module Demo.

(** Floats taken as exact. *)
Definition exact (x : Q) : Q := x.

Definition not_a_number : PyAmount := AmountOther "ninety".

Definition loan_details : list (string * pyobj) :=
  [("loan_id"%string, PyStr "LOAN-0001");
   ("expected_co2"%string, NpInteger 12000);
   ("impact_score"%string, NpFloating (9 # 10))].

(** A hashing that gives every object the same digest, and a [str] and
    a type name that give every object the same text. *)
Definition digest (obj : pyobj) : result string :=
  Ok "9f86d081884c7d659a2feaa0c55ad015a3bf4f1b2b0b822cd15d6c15b0f00a08"%string.

Definition text (obj : pyobj) : string := "?".

Definition kind (obj : pyobj) : string := "object".

(** A better asset than [Sample.solar_farm] on every metric. *)
Definition larger_farm : rwa_row :=
  mkRwa (Some 20000%Q) (Some 9000000%Q) (Some 60%Q) (Some 2000000%Q)
    (Some "Gold"%string) (Some "solar"%string).

(** Two proposals put to the vote. *)
Definition risky : DAOGovernanceAgent.proposal :=
  DAOGovernanceAgent.mkProposal (Some 60%Q) (Some "High"%string).

Definition sound : DAOGovernanceAgent.proposal :=
  DAOGovernanceAgent.mkProposal (Some 85%Q) (Some "Low"%string).

End Demo.

(** * Properties *)

(** ** The monad and the counters *)

Lemma count_app (p : event -> bool) (a b : list event) :
  count p (a ++ b) = (count p a + count p b)%nat.
Proof.
  unfold count. rewrite List.filter_app, List.length_app. reflexivity.
Qed.

(** ** Decimal numbers and their rational values *)

Lemma ten_nonzero : ~ (inject_Z 10 == 0)%Q.
Proof. discriminate. Qed.

Lemma scaled_value (d : Decimal) (e : Z) :
  e <= exponent d ->
  (inject_Z (Dec.scaled d e) * Qpower (inject_Z 10) e == Dec.to_Q d)%Q.
Proof.
  intros He. unfold Dec.scaled, Dec.to_Q.
  rewrite inject_Z_mult, Zpower_Qpower by lia.
  rewrite <- Qmult_assoc, <- Qpower_plus by exact ten_nonzero.
  replace (exponent d - e + e) with (exponent d) by lia.
  reflexivity.
Qed.

(** [<] on decimals is [<] on their values. *)
Lemma ltb_value (a b : Decimal) :
  Dec.ltb a b = true <-> (Dec.to_Q a < Dec.to_Q b)%Q.
Proof.
  unfold Dec.ltb.
  rewrite <- (scaled_value a (Dec.common_exponent a b))
    by (unfold Dec.common_exponent; lia).
  rewrite <- (scaled_value b (Dec.common_exponent a b))
    by (unfold Dec.common_exponent; lia).
  rewrite Qmult_lt_r by (apply Qpower_0_lt; reflexivity).
  rewrite <- Zlt_Qlt. apply Z.ltb_lt.
Qed.

(** The sum before rounding is the sum of the values. *)
Lemma add_exact_value (a b : Decimal) :
  (Dec.to_Q (Dec.add_exact a b) == Dec.to_Q a + Dec.to_Q b)%Q.
Proof.
  rewrite <- (scaled_value a (Dec.common_exponent a b))
    by (unfold Dec.common_exponent; lia).
  rewrite <- (scaled_value b (Dec.common_exponent a b))
    by (unfold Dec.common_exponent; lia).
  unfold Dec.add_exact, Dec.to_Q. cbn [coefficient exponent].
  rewrite inject_Z_plus. ring.
Qed.

(** A sum of at most 28 significant digits is not rounded. *)
Lemma add_within_precision (a b : Decimal) :
  Dec.digits (Z.abs (coefficient (Dec.add_exact a b))) <= Dec.DEFAULT_PREC ->
  Dec.add a b = Dec.add_exact a b.
Proof.
  intros H. unfold Dec.add, Dec.round_half_even.
  apply Z.leb_le in H. rewrite H. reflexivity.
Qed.

(** Twenty-nine digits do not fit: the last one is rounded away. *)
Example add_rounds_to_28_digits :
  Dec.add (mkDecimal 10000000000000 0) (mkDecimal 5250000000021 (-15))
  = mkDecimal 1000000000000000525000000002 (-14).
Proof. vm_compute. reflexivity. Qed.

(** 90 plus the fee of a plain transfer at the floor price. *)
Example add_amount_and_fee :
  Dec.add (Dec.of_Z 90) (mkDecimal (21000 * floor_wei) (-18))
  = mkDecimal 90005250000000000000 (-18).
Proof. vm_compute. reflexivity. Qed.

(** ** Gas price advisor *)

Lemma floor_wei_value : floor_wei = 250000000000.
Proof. reflexivity. Qed.

Lemma to_wei_floor : to_wei (Dec.of_Z MIN_GAS_PRICE_GWEI) gwei = Ok floor_wei.
Proof. reflexivity. Qed.

Ltac run_py :=
  cbn [bind lift request print sleep ret try_except fst snd outcome effects app].

Lemma from_wei_in_range (n : Z) (u : unit_name) :
  0 <= n <= MAX_WEI -> exists d, from_wei n u = Ok d.
Proof.
  intros [Hlo Hhi]. unfold from_wei.
  destruct (n =? 0); [eauto|].
  replace (n <? MIN_WEI) with false by (symmetry; apply Z.ltb_ge; exact Hlo).
  replace (MAX_WEI <? n) with false by (symmetry; apply Z.ltb_ge; exact Hhi).
  cbn [orb]. eauto.
Qed.

Lemma floor_wei_in_range : 0 <= floor_wei <= MAX_WEI.
Proof. split; discriminate. Qed.

(** The advisor on a handle whose price read answers [g]: the outcome and
    the effects, whatever the side the floor falls on. *)
Lemma quote_run (w3 : Web3) (g : Z) :
  eth_gas_price w3 = Ok g -> 0 <= g <= MAX_WEI ->
  exists shown final_shown,
    from_wei g gwei = Ok shown /\
    from_wei (Z.max g floor_wei) gwei = Ok final_shown /\
    ai_agent_optimize_gas_price w3 =
      (Ok (Z.max g floor_wei),
       [EvPrint MsgAnalyzing; EvSleep 1; EvGasPrice;
        EvPrint (MsgNetworkSuggested shown);
        EvPrint (if g <? floor_wei
                 then MsgPriceTooLow shown MIN_GAS_PRICE_GWEI
                 else MsgUsingNetworkPrice shown);
        EvPrint (MsgFinalGasPrice final_shown)]).
Proof.
  intros Hg Hr.
  destruct (from_wei_in_range g gwei Hr) as [shown Hs].
  assert (Hm : 0 <= Z.max g floor_wei <= MAX_WEI)
    by (pose proof floor_wei_in_range; lia).
  destruct (from_wei_in_range _ gwei Hm) as [final_shown Hf].
  exists shown, final_shown. split; [exact Hs|]. split; [exact Hf|].
  unfold ai_agent_optimize_gas_price. rewrite Hg, to_wei_floor. run_py.
  rewrite Hs. run_py.
  destruct (g <? floor_wei) eqn:Hlt; run_py.
  - apply Z.ltb_lt in Hlt. rewrite Z.max_r in Hf |- * by lia.
    rewrite Hf. reflexivity.
  - apply Z.ltb_ge in Hlt. rewrite Z.max_l in Hf |- * by lia.
    rewrite Hf. reflexivity.
Qed.

(** C1. On every handle whose gas-price read answers a 256-bit quantity
    [g], the advisor returns [max g floor], where the floor is the
    configured 250 Gwei in wei; when [g] is at least the floor the result
    is [g] itself, and a suggestion of 10 Gwei is quoted at 250 Gwei. *)
Theorem quote_is_max_of_suggested_and_floor (w3 : Web3) (g : Z) :
  eth_gas_price w3 = Ok g -> 0 <= g <= MAX_WEI ->
  outcome (ai_agent_optimize_gas_price w3) = Ok (Z.max g floor_wei)
  /\ to_wei (Dec.of_Z MIN_GAS_PRICE_GWEI) gwei = Ok floor_wei
  /\ MIN_GAS_PRICE_GWEI = 250
  /\ (floor_wei <= g -> outcome (ai_agent_optimize_gas_price w3) = Ok g)
  /\ (g = 10 * 10 ^ 9 ->
      outcome (ai_agent_optimize_gas_price w3) = Ok (250 * 10 ^ 9)).
Proof.
  intros Hg Hr.
  destruct (quote_run w3 g Hg Hr) as (shown & final_shown & _ & _ & Hrun).
  rewrite Hrun. cbn [outcome fst].
  split; [reflexivity|]. split; [exact to_wei_floor|]. split; [reflexivity|].
  split.
  - intros Hge. rewrite Z.max_l by exact Hge. reflexivity.
  - intros ->. reflexivity.
Qed.

Lemma quote_is_max_of_suggested_and_floor_witness :
  outcome (ai_agent_optimize_gas_price Sample.funded) = Ok (250 * 10 ^ 9).
Proof.
  refine (proj2 (proj2 (proj2 (proj2
    (quote_is_max_of_suggested_and_floor Sample.funded Sample.ten_gwei
       eq_refl _)))) eq_refl).
  split; intros H; vm_compute in H; discriminate H.
Defined.

(** Case analysis on every answer and test met along a run. *)
Ltac split_run :=
  run_py;
  repeat (match goal with
          | |- context [match ?o with Some _ => _ | None => _ end] =>
              destruct o eqn:?
          | |- context [match ?r with Ok _ => _ | Raise _ => _ end] =>
              destruct r eqn:?
          | |- context [if ?b then _ else _] => destruct b eqn:?
          end; run_py).

(** Whatever the node answers, the advisor prints, sleeps and reads the
    price once; it neither signs nor broadcasts. *)
Lemma quote_effects (w3 : Web3) :
  signings (effects (ai_agent_optimize_gas_price w3)) = 0%nat
  /\ broadcasts (effects (ai_agent_optimize_gas_price w3)) = 0%nat
  /\ count is_gas_price_read (effects (ai_agent_optimize_gas_price w3)) = 1%nat
  /\ forallb is_read_only (effects (ai_agent_optimize_gas_price w3)) = true.
Proof.
  unfold ai_agent_optimize_gas_price. rewrite to_wei_floor. run_py.
  split_run; repeat split; reflexivity.
Qed.

Section Boundaries.

Variable to_checksum_address : string -> result string.
Variable encode_error : string -> option string.
Variable HTTPProvider : string -> result Web3.

(** A handler that returns makes the whole [try] return. *)
Lemma try_except_returns {A} (body : M A) (handler : string -> M A) :
  (forall e, exists a, outcome (handler e) = Ok a) ->
  exists a, outcome (try_except body handler) = Ok a.
Proof.
  intros Hh. destruct body as [[a|e] t]; run_py; [eauto|].
  destruct (Hh e) as [a Ha]. destruct (handler e) as [r t'].
  cbn [outcome fst] in *. eauto.
Qed.

(** An exception of the body is answered by the handler. *)
Lemma try_except_caught {A} (body : M A) (handler : string -> M A)
    (e : string) (r : result A) :
  outcome body = Raise e ->
  outcome (handler e) = r ->
  outcome (try_except body handler) = r.
Proof.
  destruct body as [[a|e'] t]; cbn [outcome fst]; intros He Hr;
    [discriminate He|].
  injection He as ->. run_py. destruct (handler e) as [r' t'].
  exact Hr.
Qed.

Lemma explain_returns (e : string) : exists t, explain e = (Ok tt, t).
Proof. unfold explain. split_run; eexists; reflexivity. Qed.

Lemma connect_returns (rpc_url : string) :
  exists r, outcome (connect_to_xdc_testnet HTTPProvider rpc_url) = Ok r.
Proof. apply try_except_returns. intros e. run_py. eauto. Qed.

(** With an address that standard output can write, the balance reader
    returns. *)
Lemma balance_returns (w3 : Web3) (address : string) :
  encode_error address = None ->
  exists r, outcome (get_account_balance to_checksum_address encode_error w3 address) = Ok r.
Proof.
  intros Haddress. apply try_except_returns. intros e.
  unfold print_text. rewrite Haddress. run_py. eauto.
Qed.

(** With an address that standard output refuses, an exception of the
    [try] block is answered by the exception of the handler's [print]. *)
Lemma balance_handler_raises (w3 : Web3) (address e u : string) :
  encode_error address = Some u ->
  outcome (balance_try to_checksum_address w3 address) = Raise e ->
  outcome (get_account_balance to_checksum_address encode_error w3 address) = Raise u.
Proof.
  intros Haddress He. apply try_except_caught with e; [exact He|].
  unfold print_text. rewrite Haddress. reflexivity.
Qed.

Lemma send_returns (w3 : Web3) (key from_address to_address : string)
    (amount : PyAmount) :
  exists r,
    outcome (send_xdc_transaction to_checksum_address encode_error w3 key
               from_address to_address amount) = Ok r.
Proof.
  apply try_except_returns. intros e. run_py.
  destruct (explain_returns e) as [t ->]. run_py. eauto.
Qed.

(** The balance reader neither signs nor broadcasts, and asks the node
    for nothing but one balance. *)
Lemma balance_effects (w3 : Web3) (address : string) :
  signings (effects (get_account_balance to_checksum_address encode_error w3 address)) = 0%nat
  /\ broadcasts (effects (get_account_balance to_checksum_address encode_error w3 address)) = 0%nat
  /\ forallb is_read_only
       (effects (get_account_balance to_checksum_address encode_error w3 address)) = true.
Proof.
  unfold get_account_balance, balance_try, print_text.
  split_run; repeat split; reflexivity.
Qed.

End Boundaries.

Lemma count_cons (p : event -> bool) (ev : event) (t : list event) :
  count p (ev :: t) = ((if p ev then 1 else 0) + count p t)%nat.
Proof. unfold count. cbn [List.filter]. destruct (p ev); reflexivity. Qed.

Lemma count_nil (p : event -> bool) : count p [] = 0%nat.
Proof. reflexivity. Qed.

Ltac count_up :=
  unfold signings, broadcasts in *; cbn [effects snd] in *;
  repeat (progress
            (rewrite ?count_app, ?count_cons, ?count_nil;
             cbn [is_signing is_broadcast];
             repeat match goal with
                    | H : count _ _ = _ |- _ => rewrite H
                    end));
  try reflexivity.

(** The hints of the handler are printed, nothing else happens. *)
Lemma explain_effects (e : string) :
  outcome (explain e) = Ok tt
  /\ count is_signing (effects (explain e)) = 0%nat
  /\ count is_broadcast (effects (explain e)) = 0%nat
  /\ forallb is_read_only (effects (explain e)) = true.
Proof. unfold explain. split_run; repeat split; reflexivity. Qed.

Lemma read_only_In (t : list event) (ev : event) :
  forallb is_read_only t = true -> In ev t -> is_read_only ev = true.
Proof. intros H Hin. rewrite forallb_forall in H. exact (H ev Hin). Qed.

Lemma follows_here (a b : event) (t : list event) : follows (a :: b :: t) a b.
Proof. exists [], t. reflexivity. Qed.

Lemma follows_cons (x a b : event) (t : list event) :
  follows t a b -> follows (x :: t) a b.
Proof. intros (l & r & ->). exists (x :: l), r. reflexivity. Qed.

Lemma follows_app (t1 t2 : list event) (a b : event) :
  follows t2 a b -> follows (t1 ++ t2) a b.
Proof.
  intros (l & r & ->). exists (t1 ++ l), r. rewrite <- app_assoc. reflexivity.
Qed.

Lemma follows_app_l (t1 t2 : list event) (a b : event) :
  follows t1 a b -> follows (t1 ++ t2) a b.
Proof.
  intros (l & r & ->). exists l, (r ++ t2).
  rewrite <- app_assoc. reflexivity.
Qed.

(** Where an effect can sit in the effects of a run. *)
Ltac in_cases :=
  repeat match goal with
         | H : In _ (_ ++ _) |- _ => apply in_app_or in H; destruct H as [H|H]
         | H : In _ (_ :: _) |- _ => destruct H as [H|H]; [try discriminate H|]
         | H : In _ [] |- _ => destruct H
         | H : In ?ev ?t, R : forallb is_read_only ?t = true |- _ =>
             apply (read_only_In _ _ R) in H; discriminate H
         end.

Ltac find_in :=
  first [ apply in_eq
        | apply in_cons; find_in
        | apply in_or_app; left; find_in
        | apply in_or_app; right; find_in ].

Ltac handle_explain :=
  try match goal with
      | |- context [explain ?e] =>
          let H := fresh "Hexplain" in
          pose proof (explain_effects e) as H;
          destruct (explain e) as [? ?];
          cbn [outcome effects fst snd] in H;
          destruct H as (-> & ? & ? & ?)
      end.

Section Submitter.

Variable to_checksum_address : string -> result string.
Variable encode_error : string -> option string.

(** X28. When the balance lookup of the sender returns null, or the
    balance is below the sum of the amount and of 21000 times the quoted
    gas price (in the decimal unit) as the code adds them, which is the
    sum rounded to 28 significant digits, the submitter returns the
    failure value having signed nothing and broadcast nothing. *)
Theorem preflight_failure_blocks_submission (w3 : Web3)
    (key from_address to_address : string) (amount : PyAmount) :
  (outcome (get_account_balance to_checksum_address encode_error w3 from_address) = Ok None
   \/ exists sender_balance amount_decimal gas_price gas_cost,
        outcome (get_account_balance to_checksum_address encode_error w3 from_address)
          = Ok (Some sender_balance)
        /\ Decimal_of_str amount = Ok amount_decimal
        /\ outcome (ai_agent_optimize_gas_price w3) = Ok gas_price
        /\ from_wei (21000 * gas_price) ether = Ok gas_cost
        /\ Dec.ltb sender_balance (Dec.add amount_decimal gas_cost) = true) ->
  outcome (send_xdc_transaction to_checksum_address encode_error w3 key
             from_address to_address amount) = Ok None
  /\ signings (effects (send_xdc_transaction to_checksum_address encode_error w3 key
                          from_address to_address amount)) = 0%nat
  /\ broadcasts (effects (send_xdc_transaction to_checksum_address encode_error w3 key
                            from_address to_address amount)) = 0%nat.
Proof.
  intros Hpre.
  pose proof (quote_effects w3) as (Hqs & Hqb & _ & _).
  pose proof (balance_effects to_checksum_address encode_error w3 from_address) as (Hbs & Hbb & _).
  unfold send_xdc_transaction, send_try.
  destruct (ai_agent_optimize_gas_price w3) as [rq tq].
  destruct (get_account_balance to_checksum_address encode_error w3 from_address) as [rb tb].
  unfold signings, broadcasts in *.
  cbn [outcome effects fst snd] in Hpre, Hqs, Hqb, Hbs, Hbb.
  destruct Hpre as [-> | (b & a & gp & gc & -> & Ha & -> & Hgc & Hlt)].
  - split_run; handle_explain; run_py; repeat split; count_up.
  - rewrite Ha. split_run; handle_explain; run_py; repeat split; count_up.
    all: congruence.
Qed.

(** C3, as the code has it. When the run hands a transfer to the signer
    and signing succeeds, exactly one broadcast is made, of the signed
    payload; when the broadcast answers with a hash, its hexadecimal text
    is printed right after the broadcast whatever happens next, it is the
    value returned exactly when the 60-second wait brings a receipt of
    status 1, and the value returned is the failure value, without the
    hash, when the wait raises or the receipt has another status. *)
Theorem one_broadcast_and_hash_printed (w3 : Web3)
    (key from_address to_address : string) (amount : PyAmount)
    (tx : transaction) (signed_tx : SignedTransaction) :
  In (EvSign tx key)
     (effects (send_xdc_transaction to_checksum_address encode_error w3 key
                 from_address to_address amount)) ->
  eth_account_sign_transaction w3 tx key = Ok signed_tx ->
  broadcasts (effects (send_xdc_transaction to_checksum_address encode_error w3 key
                         from_address to_address amount)) = 1%nat
  /\ In (EvBroadcast (raw_transaction signed_tx))
        (effects (send_xdc_transaction to_checksum_address encode_error w3 key
                    from_address to_address amount))
  /\ forall tx_hash,
       eth_send_raw_transaction w3 (raw_transaction signed_tx) = Ok tx_hash ->
       follows (effects (send_xdc_transaction to_checksum_address encode_error w3 key
                           from_address to_address amount))
         (EvBroadcast (raw_transaction signed_tx))
         (EvPrint (MsgTransactionSent (hex tx_hash)))
       /\ (outcome (send_xdc_transaction to_checksum_address encode_error w3 key
                      from_address to_address amount) = Ok (Some (hex tx_hash))
           <-> exists rc,
                 eth_wait_for_transaction_receipt w3 tx_hash 60 = Ok rc
                 /\ status rc = 1)
       /\ ((forall rc, eth_wait_for_transaction_receipt w3 tx_hash 60 = Ok rc ->
                       status rc <> 1) ->
           outcome (send_xdc_transaction to_checksum_address encode_error w3 key
                      from_address to_address amount) = Ok None).
Proof.
  intros Hin Hsign. revert Hin.
  pose proof (quote_effects w3) as (Hqs & Hqb & _ & Hqr).
  pose proof (balance_effects to_checksum_address encode_error w3 from_address) as (Hbs & Hbb & Hbr).
  unfold send_xdc_transaction, send_try.
  destruct (ai_agent_optimize_gas_price w3) as [rq tq].
  destruct (get_account_balance to_checksum_address encode_error w3 from_address) as [rb tb].
  unfold signings, broadcasts in *.
  cbn [outcome effects fst snd] in Hqs, Hqb, Hqr, Hbs, Hbb, Hbr.
  split_run; handle_explain; run_py; intros Hin; in_cases.
  all: injection Hin as Hin; subst tx.
  all: match goal with
       | H : eth_account_sign_transaction _ _ _ = _ |- _ =>
           rewrite Hsign in H; try discriminate H; injection H as H; subst
       end.
  all: split; [count_up|]; split; [find_in|].
  all: match goal with
       | H : eth_send_raw_transaction _ _ = _ |- _ =>
           intros tx_hash Hsent; rewrite Hsent in H;
           try discriminate H; injection H as H; subst
       end.
  all: rewrite ?Z.eqb_eq, ?Z.eqb_neq in *.
  all: split;
    [ let rec search :=
        first [ apply follows_here
              | apply follows_cons; search
              | apply follows_app_l; search
              | apply follows_app; search ] in
      search
    | ]; split.
  all: try (split; [intros Hout; try discriminate Hout; eauto
                   | intros (rc & Hrc & Hst); try reflexivity; congruence]).
  all: intros Hno; try reflexivity; exfalso; eapply Hno; eauto.
Qed.

(** C4. The submitter returns a value other than [None] exactly when the
    60-second wait brought a receipt of status 1, and that value is the
    hexadecimal text of the transaction hash; every other run, whatever
    was broadcast, returns [None]. *)
Theorem hash_returned_iff_confirmed (w3 : Web3)
    (key from_address to_address : string) (amount : PyAmount) :
  (forall x,
     outcome (send_xdc_transaction to_checksum_address encode_error w3 key
                from_address to_address amount) = Ok (Some x)
     <-> confirmed_within_timeout w3
           (effects (send_xdc_transaction to_checksum_address encode_error w3 key
                       from_address to_address amount)) x)
  /\ (outcome (send_xdc_transaction to_checksum_address encode_error w3 key
                 from_address to_address amount) = Ok None
      \/ exists x,
           outcome (send_xdc_transaction to_checksum_address encode_error w3 key
                      from_address to_address amount) = Ok (Some x)).
Proof.
  pose proof (quote_effects w3) as (_ & _ & _ & Hqr).
  pose proof (balance_effects to_checksum_address encode_error w3 from_address) as (_ & _ & Hbr).
  unfold send_xdc_transaction, send_try, confirmed_within_timeout.
  destruct (ai_agent_optimize_gas_price w3) as [rq tq].
  destruct (get_account_balance to_checksum_address encode_error w3 from_address) as [rb tb].
  cbn [outcome effects fst snd] in Hqr, Hbr.
  split_run; handle_explain; run_py.
  all: rewrite ?Z.eqb_eq, ?Z.eqb_neq in *.
  all: split; [|first [left; reflexivity | right; eexists; reflexivity]].
  all: intros x; split;
    [ intros Hout;
      first [ discriminate Hout
            | injection Hout as <-; do 2 eexists; split; [find_in|]; eauto ]
    | intros (h & rc & Hin & Hw & Hst & ->); in_cases;
      try (injection Hin as <-); try reflexivity; congruence ].
Qed.

End Submitter.

Section Connector.

Variable to_checksum_address : string -> result string.
Variable encode_error : string -> option string.
Variable HTTPProvider : string -> result Web3.

(** X29. Whatever the arguments and whatever the library and the node
    do, [connect_to_xdc_testnet] and [send_xdc_transaction] return a
    value: no exception leaves them, and an exception raised inside
    their [try] block is turned into the value [None]. The same holds
    of [get_account_balance] for an address that standard output can
    write; for an address it refuses, an exception of the [try] block
    ends in the [UnicodeEncodeError] of the handler's [print], which
    leaves the function. *)
Theorem exceptions_stop_at_the_boundary (rpc_url : string) (w3 : Web3)
    (address key from_address to_address : string) (amount : PyAmount) :
  (exists r, outcome (connect_to_xdc_testnet HTTPProvider rpc_url) = Ok r)
  /\ (forall e,
        outcome (connect_try HTTPProvider rpc_url) = Raise e ->
        outcome (connect_to_xdc_testnet HTTPProvider rpc_url) = Ok None)
  /\ (exists r,
        outcome (send_xdc_transaction to_checksum_address encode_error w3 key
                   from_address to_address amount) = Ok r)
  /\ (forall e,
        outcome (send_try to_checksum_address encode_error w3 key
                   from_address to_address amount) = Raise e ->
        outcome (send_xdc_transaction to_checksum_address encode_error w3 key
                   from_address to_address amount) = Ok None)
  /\ (encode_error address = None ->
      (exists r,
         outcome (get_account_balance to_checksum_address encode_error w3 address)
         = Ok r)
      /\ (forall e,
            outcome (balance_try to_checksum_address w3 address) = Raise e ->
            outcome (get_account_balance to_checksum_address encode_error w3 address)
            = Ok None))
  /\ (forall u e,
        encode_error address = Some u ->
        outcome (balance_try to_checksum_address w3 address) = Raise e ->
        outcome (get_account_balance to_checksum_address encode_error w3 address)
        = Raise u).
Proof.
  split; [apply connect_returns|].
  split; [intros e He; apply try_except_caught with e; [exact He|reflexivity]|].
  split; [apply send_returns|].
  split.
  { intros e He. apply try_except_caught with e; [exact He|].
    run_py. destruct (explain_returns e) as [t ->]. reflexivity. }
  split.
  - intros Haddress. split; [apply balance_returns; exact Haddress|].
    intros e He. apply try_except_caught with e; [exact He|].
    unfold print_text. rewrite Haddress. reflexivity.
  - intros u e Haddress He. apply balance_handler_raises with e; assumption.
Qed.

Lemma ether_value (wei : Z) :
  (Dec.to_Q (mkDecimal wei (- unit_exponent ether))
   == inject_Z wei / inject_Z (10 ^ 18))%Q.
Proof.
  unfold Dec.to_Q, Qdiv. cbn [coefficient exponent].
  apply Qmult_comp; [reflexivity|]. vm_compute. reflexivity.
Qed.

(** The balance reader asks the node for the balance of the checksummed
    form of the address and of nothing else; when the node answers a
    256-bit quantity it returns that quantity divided by 10^18; when the
    address is refused, the node raises or its answer is out of range,
    it returns [None] if standard output can write the address. *)
Lemma balance_reader_contract (w3 : Web3) (address : string) :
  (forall queried,
     In (EvGetBalance queried)
        (effects (get_account_balance to_checksum_address encode_error w3 address)) ->
     to_checksum_address address = Ok queried)
  /\ (forall checksum_address wei,
        to_checksum_address address = Ok checksum_address ->
        eth_get_balance w3 checksum_address = Ok wei ->
        0 <= wei <= MAX_WEI ->
        exists balance_xdc,
          outcome (get_account_balance to_checksum_address encode_error w3 address)
            = Ok (Some balance_xdc)
          /\ (Dec.to_Q balance_xdc == inject_Z wei / inject_Z (10 ^ 18))%Q
          /\ In (EvGetBalance checksum_address)
               (effects (get_account_balance to_checksum_address encode_error w3 address)))
  /\ (encode_error address = None ->
      (forall e,
         to_checksum_address address = Raise e ->
         get_account_balance to_checksum_address encode_error w3 address
         = (Ok None, [EvPrint (MsgErrorGettingBalance address e)]))
      /\ (forall checksum_address e,
            to_checksum_address address = Ok checksum_address ->
            eth_get_balance w3 checksum_address = Raise e ->
            outcome (get_account_balance to_checksum_address encode_error w3 address)
            = Ok None)
      /\ (forall checksum_address wei,
            to_checksum_address address = Ok checksum_address ->
            eth_get_balance w3 checksum_address = Ok wei ->
            wei < 0 \/ MAX_WEI < wei ->
            outcome (get_account_balance to_checksum_address encode_error w3 address)
            = Ok None))
  /\ (forall u e,
        encode_error address = Some u ->
        to_checksum_address address = Raise e ->
        get_account_balance to_checksum_address encode_error w3 address
        = (Raise u, [])).
Proof.
  unfold get_account_balance, balance_try, print_text.
  split; [|split; [|split]].
  - split_run; intros queried Hin; in_cases; congruence.
  - intros a wei Ha Hb Hr. rewrite Ha. run_py. rewrite Hb. run_py.
    unfold from_wei.
    destruct (wei =? 0) eqn:Hz.
    + apply Z.eqb_eq in Hz. subst wei. run_py.
      eexists. split; [reflexivity|]. split; [|find_in].
      vm_compute. reflexivity.
    + replace (wei <? MIN_WEI) with false
        by (symmetry; apply Z.ltb_ge; unfold MIN_WEI; lia).
      replace (MAX_WEI <? wei) with false by (symmetry; apply Z.ltb_ge; lia).
      run_py. eexists. split; [reflexivity|]. split; [|find_in].
      apply ether_value.
  - intros Haddress. rewrite Haddress. repeat split.
    + intros e ->. reflexivity.
    + intros a e Ha Hb. rewrite Ha. run_py. rewrite Hb. reflexivity.
    + intros a wei Ha Hb Hr. rewrite Ha. run_py. rewrite Hb. run_py.
      unfold from_wei.
      assert (Hz : (wei =? 0) = false)
        by (apply Z.eqb_neq; pose proof floor_wei_in_range; lia).
      rewrite Hz.
      replace ((wei <? MIN_WEI) || (MAX_WEI <? wei)) with true; [reflexivity|].
      symmetry. apply orb_true_iff. rewrite !Z.ltb_lt. unfold MIN_WEI. exact Hr.
  - intros u e Haddress ->. rewrite Haddress. reflexivity.
Qed.

(** C7. [connect_to_xdc_testnet] returns [None] when building the
    instance raises, when the connection test raises and when it answers
    [False]; it returns the instance when the connection test answers
    [True] and the chain identifier is read; it never raises. *)
Theorem connect_contract (rpc_url : string) :
  (forall e,
     HTTPProvider rpc_url = Raise e ->
     outcome (connect_to_xdc_testnet HTTPProvider rpc_url) = Ok None)
  /\ (forall w3 e,
        HTTPProvider rpc_url = Ok w3 -> is_connected w3 = Raise e ->
        outcome (connect_to_xdc_testnet HTTPProvider rpc_url) = Ok None)
  /\ (forall w3,
        HTTPProvider rpc_url = Ok w3 -> is_connected w3 = Ok false ->
        outcome (connect_to_xdc_testnet HTTPProvider rpc_url) = Ok None)
  /\ (forall w3 chain_id,
        HTTPProvider rpc_url = Ok w3 -> is_connected w3 = Ok true ->
        eth_chain_id w3 = Ok chain_id ->
        outcome (connect_to_xdc_testnet HTTPProvider rpc_url) = Ok (Some w3))
  /\ (exists r, outcome (connect_to_xdc_testnet HTTPProvider rpc_url) = Ok r).
Proof.
  unfold connect_to_xdc_testnet, connect_try. repeat split.
  - intros e ->. reflexivity.
  - intros w3 e Hp Hc. rewrite Hp. run_py. rewrite Hc. reflexivity.
  - intros w3 Hp Hc. rewrite Hp. run_py. rewrite Hc. reflexivity.
  - intros w3 chain_id Hp Hc Hid. rewrite Hp. run_py. rewrite Hc. run_py.
    rewrite Hid. run_py.
    destruct (negb (chain_id =? 51)); reflexivity.
  - apply connect_returns.
Qed.

(** C8. On a connected node that reports a chain identifier other than
    51 the connector prints the warning, prints no failure, and returns
    the instance all the same. *)
Theorem chain_mismatch_only_warns (rpc_url : string) (w3 : Web3) (chain_id : Z) :
  HTTPProvider rpc_url = Ok w3 ->
  is_connected w3 = Ok true ->
  eth_chain_id w3 = Ok chain_id ->
  chain_id <> 51 ->
  connect_to_xdc_testnet HTTPProvider rpc_url =
    (Ok (Some w3),
     [EvNewProvider rpc_url; EvIsConnected; EvPrint (MsgConnected rpc_url);
      EvChainId; EvPrint (MsgChainId chain_id); EvPrint MsgUnexpectedChainId]).
Proof.
  intros Hp Hc Hid Hne. unfold connect_to_xdc_testnet, connect_try.
  rewrite Hp. run_py. rewrite Hc. run_py. rewrite Hid. run_py.
  apply Z.eqb_neq in Hne. rewrite Hne. reflexivity.
Qed.

End Connector.

(** C9. Two quotes in a row on a handle whose suggested price did not
    change give the same result; the second call reads the price again
    (two reads in all), the calls only print, sleep and read, and a run
    of the advisor depends on nothing but the answer to its price read. *)
Theorem quote_is_idempotent_and_cache_free (first second : Web3) (g : Z) :
  eth_gas_price first = Ok g ->
  eth_gas_price second = Ok g ->
  0 <= g <= MAX_WEI ->
  outcome (quote_twice first second) = Ok (Z.max g floor_wei, Z.max g floor_wei)
  /\ ai_agent_optimize_gas_price second = ai_agent_optimize_gas_price first
  /\ count is_gas_price_read (effects (quote_twice first second)) = 2%nat
  /\ forallb is_read_only (effects (quote_twice first second)) = true.
Proof.
  intros H1 H2 Hr.
  destruct (quote_run first g H1 Hr) as (s1 & f1 & Hs1 & Hf1 & Hrun1).
  destruct (quote_run second g H2 Hr) as (s2 & f2 & Hs2 & Hf2 & Hrun2).
  assert (s2 = s1) by congruence. assert (f2 = f1) by congruence. subst s2 f2.
  unfold quote_twice. rewrite Hrun1, Hrun2. run_py.
  repeat split; reflexivity.
Qed.

(** ** Scores of the agents *)


Lemma Qle_bool_false (a b : Q) : Qle_bool a b = false -> (b < a)%Q.
Proof.
  intros H. apply Qnot_le_lt. intros Hle.
  apply Qle_bool_iff in Hle. congruence.
Qed.



(** The clamp and the rounding on a number, and on NaN. *)
Lemma clamp_of_number (fl : Q -> Q) (v : Q) :
  GOATAgent.nround2 fl
    (GOATAgent.nmin (GOATAgent.nmax (Finite v) (Finite 0)) (Finite 100))
  = Finite (GOATAgent.round2 fl (GOATAgent.py_min (GOATAgent.py_max v 0) 100)).
Proof.
  unfold GOATAgent.nmin, GOATAgent.nmax, GOATAgent.py_min, GOATAgent.py_max.
  cbn [compare2]. destruct (Qgtb 0 v); cbn [compare2];
    destruct (Qltb 100 _); reflexivity.
Qed.

Lemma clamp_of_nan (fl : Q -> Q) :
  GOATAgent.nround2 fl
    (GOATAgent.nmin (GOATAgent.nmax NaN (Finite 0)) (Finite 100)) = NaN.
Proof. reflexivity. Qed.

(** A comparison that succeeds is a comparison of two numbers. *)
Lemma compare2_inv (test : Q -> Q -> bool) (a : number) (bound : Q) :
  compare2 test a (Finite bound) = true ->
  exists q, a = Finite q /\ test q bound = true.
Proof.
  destruct a as [q|]; cbn [compare2]; [eauto | discriminate].
Qed.

Section FloatRounding.

Variable fl : Q -> Q.
Hypothesis fl_monotone : forall x y, (x <= y)%Q -> (fl x <= fl y)%Q.
Hypothesis fl_0 : (fl 0 == 0)%Q.
Hypothesis fl_100 : (fl 100 == 100)%Q.



End FloatRounding.

(** ** The statements above on the sample nodes *)

(** Balance 100, amount 90: the preflight passes, the transfer is signed
    and broadcast once, and the hash comes back. *)
Example funded_transfer_goes_through :
  signings (effects (Sample.submit Sample.funded)) = 1%nat
  /\ broadcasts (effects (Sample.submit Sample.funded)) = 1%nat
  /\ outcome (Sample.submit Sample.funded) = Ok (Some (hex "h")).
Proof. repeat split; vm_compute; reflexivity. Qed.

(** A receipt with failure status: one broadcast, [None] returned. *)
Example rejected_transfer_returns_none :
  broadcasts (effects (Sample.submit Sample.rejected)) = 1%nat
  /\ outcome (Sample.submit Sample.rejected) = Ok None.
Proof. repeat split; vm_compute; reflexivity. Qed.

(** A wrong key: signing raises, nothing is broadcast, [None] returned. *)
Example bad_key_is_not_broadcast :
  broadcasts (effects (send_xdc_transaction Sample.checksum Sample.stdout Sample.funded
                         "wrong" Sample.sender Sample.recipient Sample.ninety))
  = 0%nat
  /\ outcome (send_xdc_transaction Sample.checksum Sample.stdout Sample.funded
                "wrong" Sample.sender Sample.recipient Sample.ninety) = Ok None.
Proof. repeat split; vm_compute; reflexivity. Qed.

(** C2. A balance that is 1000 wei short of 10^13 XDC plus the fee: the
    sum has 29 digits, the code compares the balance with the sum
    rounded to 28, finds it sufficient, and the transfer is signed and
    broadcast. *)
Theorem shortfall_past_28_digits_is_signed :
  outcome (get_account_balance Sample.checksum Sample.stdout Sample.whale
             Sample.sender) = Ok (Some (mkDecimal Sample.short_wei (-18)))
  /\ Decimal_of_str Sample.fortune = Ok (Dec.of_Z (10 ^ 13))
  /\ outcome (ai_agent_optimize_gas_price Sample.whale) = Ok Sample.pricey
  /\ from_wei (21000 * Sample.pricey) ether = Ok (mkDecimal Sample.fee_wei (-18))
  /\ (Dec.to_Q (mkDecimal Sample.short_wei (-18))
      < Dec.to_Q (Dec.of_Z (10 ^ 13)) + Dec.to_Q (mkDecimal Sample.fee_wei (-18)))%Q
  /\ Dec.ltb (mkDecimal Sample.short_wei (-18))
       (Dec.add (Dec.of_Z (10 ^ 13)) (mkDecimal Sample.fee_wei (-18))) = false
  /\ signings
       (effects (send_xdc_transaction Sample.checksum Sample.stdout Sample.whale
                   "key" Sample.sender Sample.recipient Sample.fortune)) = 1%nat
  /\ broadcasts
       (effects (send_xdc_transaction Sample.checksum Sample.stdout Sample.whale
                   "key" Sample.sender Sample.recipient Sample.fortune)) = 1%nat
  /\ outcome (send_xdc_transaction Sample.checksum Sample.stdout Sample.whale
                "key" Sample.sender Sample.recipient Sample.fortune)
     = Ok (Some (hex "h")).
Proof.
  split; [vm_compute; reflexivity|]. split; [reflexivity|].
  split; [vm_compute; reflexivity|]. split; [vm_compute; reflexivity|].
  split.
  { rewrite <- add_exact_value. apply ltb_value. vm_compute. reflexivity. }
  repeat split; vm_compute; reflexivity.
Qed.

(** C5. [get_account_balance] on the address ["\ud800"]: the checksum
    routine refuses the address, the handler's [print] of the address
    raises [UnicodeEncodeError], and that exception leaves the function.
    With the same text as sender [send_xdc_transaction] returns [None]:
    its handler prints the message of the exception only. *)
Theorem encoding_error_leaves_the_balance_reader :
  outcome (balance_try Sample.checksum Sample.funded Sample.lone_surrogate)
    = Raise "invalid address"
  /\ Sample.stdout Sample.lone_surrogate = Some Sample.surrogates_not_allowed
  /\ outcome (get_account_balance Sample.checksum Sample.stdout Sample.funded
                Sample.lone_surrogate) = Raise Sample.surrogates_not_allowed
  /\ outcome (send_xdc_transaction Sample.checksum Sample.stdout Sample.funded
                "key" Sample.lone_surrogate Sample.recipient Sample.ninety)
     = Ok None.
Proof. repeat split; vm_compute; reflexivity. Qed.

(** C6. The address ["\ud800"] is refused by the checksum routine, a
    lookup error; [get_account_balance] does not return [None] for it
    but raises the [UnicodeEncodeError] of its handler's [print], having
    printed nothing and asked the node nothing. *)
Theorem refused_address_raises_instead_of_none :
  Sample.checksum Sample.lone_surrogate = Raise "invalid address"
  /\ get_account_balance Sample.checksum Sample.stdout Sample.funded
       Sample.lone_surrogate = (Raise Sample.surrogates_not_allowed, [])
  /\ outcome (get_account_balance Sample.checksum Sample.stdout Sample.funded
                Sample.lone_surrogate) <> Ok None.
Proof.
  split; [vm_compute; reflexivity|]. split; [vm_compute; reflexivity|].
  intros H. vm_compute in H. discriminate H.
Qed.

Lemma preflight_failure_blocks_submission_witness :
  outcome (Sample.submit Sample.poor) = Ok None
  /\ signings (effects (Sample.submit Sample.poor)) = 0%nat
  /\ broadcasts (effects (Sample.submit Sample.poor)) = 0%nat.
Proof.
  apply (preflight_failure_blocks_submission Sample.checksum Sample.stdout Sample.poor
           "key" Sample.sender Sample.recipient Sample.ninety).
  right.
  exists (mkDecimal (Sample.xdc 50) (-18)), (Dec.of_Z 90), floor_wei,
         (mkDecimal (21000 * floor_wei) (-18)).
  repeat split; vm_compute; reflexivity.
Defined.

(** On a node that never produces the receipt the transfer is signed and
    broadcast once, the broadcast answers with a hash, the wait raises,
    and the value returned is [None]: it holds no identifier. *)
Lemma timeout_result_carries_no_identifier :
  In (EvSign Sample.transfer "key") (effects (Sample.submit Sample.silent))
  /\ eth_account_sign_transaction Sample.silent Sample.transfer "key"
     = Ok {| raw_transaction := "raw" |}
  /\ eth_send_raw_transaction Sample.silent "raw" = Ok "h"%string
  /\ eth_wait_for_transaction_receipt Sample.silent "h" 60
     = Raise "Transaction is not in the chain after 60 seconds"
  /\ broadcasts (effects (Sample.submit Sample.silent)) = 1%nat
  /\ outcome (Sample.submit Sample.silent) = Ok None
  /\ outcome (Sample.submit Sample.silent) <> Ok (Some (hex "h")).
Proof.
  split; [vm_compute; repeat (first [left; reflexivity | right])|].
  repeat split; try (vm_compute; reflexivity).
  intros H. vm_compute in H. discriminate H.
Qed.

Lemma one_broadcast_and_hash_printed_witness :
  broadcasts (effects (Sample.submit Sample.funded)) = 1%nat
  /\ In (EvBroadcast "raw") (effects (Sample.submit Sample.funded))
  /\ forall tx_hash,
       eth_send_raw_transaction Sample.funded "raw" = Ok tx_hash ->
       follows (effects (Sample.submit Sample.funded))
         (EvBroadcast "raw") (EvPrint (MsgTransactionSent (hex tx_hash)))
       /\ (outcome (Sample.submit Sample.funded) = Ok (Some (hex tx_hash))
           <-> exists rc,
                 eth_wait_for_transaction_receipt Sample.funded tx_hash 60 = Ok rc
                 /\ status rc = 1)
       /\ ((forall rc,
              eth_wait_for_transaction_receipt Sample.funded tx_hash 60 = Ok rc ->
              status rc <> 1) ->
           outcome (Sample.submit Sample.funded) = Ok None).
Proof.
  apply (one_broadcast_and_hash_printed Sample.checksum Sample.stdout Sample.funded
           "key" Sample.sender Sample.recipient Sample.ninety
           Sample.transfer {| raw_transaction := "raw" |}).
  - vm_compute. repeat (first [left; reflexivity | right]).
  - reflexivity.
Defined.

Lemma connect_contract_witness :
  outcome (connect_to_xdc_testnet (Sample.provider Sample.down) XDC_TESTNET_RPC_URL)
    = Ok None
  /\ outcome (connect_to_xdc_testnet (Sample.provider Sample.funded)
                XDC_TESTNET_RPC_URL) = Ok (Some Sample.funded).
Proof.
  split.
  - exact (proj1 (proj2 (proj2 (connect_contract (Sample.provider Sample.down)
                                  XDC_TESTNET_RPC_URL)))
             Sample.down eq_refl eq_refl).
  - exact (proj1 (proj2 (proj2 (proj2 (connect_contract
                                         (Sample.provider Sample.funded)
                                         XDC_TESTNET_RPC_URL))))
             Sample.funded 51 eq_refl eq_refl eq_refl).
Defined.

Lemma chain_mismatch_only_warns_witness :
  connect_to_xdc_testnet (Sample.provider Sample.elsewhere) XDC_TESTNET_RPC_URL =
    (Ok (Some Sample.elsewhere),
     [EvNewProvider XDC_TESTNET_RPC_URL; EvIsConnected;
      EvPrint (MsgConnected XDC_TESTNET_RPC_URL);
      EvChainId; EvPrint (MsgChainId 50); EvPrint MsgUnexpectedChainId]).
Proof.
  apply (chain_mismatch_only_warns (Sample.provider Sample.elsewhere)
           XDC_TESTNET_RPC_URL Sample.elsewhere 50);
    try reflexivity.
  discriminate.
Defined.

Lemma quote_is_idempotent_and_cache_free_witness :
  outcome (quote_twice Sample.funded Sample.funded) = Ok (floor_wei, floor_wei)
  /\ ai_agent_optimize_gas_price Sample.funded = ai_agent_optimize_gas_price Sample.funded
  /\ count is_gas_price_read (effects (quote_twice Sample.funded Sample.funded)) = 2%nat
  /\ forallb is_read_only (effects (quote_twice Sample.funded Sample.funded)) = true.
Proof.
  refine (quote_is_idempotent_and_cache_free Sample.funded Sample.funded
            Sample.ten_gwei eq_refl eq_refl _).
  split; intros H; vm_compute in H; discriminate H.
Defined.


(** C10. A row whose credit score is NaN, as read from an empty cell:
    whatever the rounding of floats, the asset and the noise, the
    financial risk score that [analyze_and_execute] computes is NaN,
    which [round(min(max(x, 0), 100), 2)] lets through, and not a number
    of [0,100]. *)
Theorem nan_credit_score_passes_the_clamp (fl : Q -> Q) (rwa_data : rwa_row)
    (noise : Q) :
  credit_score Sample.unrated = Some NaN
  /\ GOATAgent.financial_risk_score
       (GOATAgent.analyze_and_execute fl Sample.unrated rwa_data noise) = NaN
  /\ ~ (exists q,
          GOATAgent.financial_risk_score
            (GOATAgent.analyze_and_execute fl Sample.unrated rwa_data noise)
          = Finite q
          /\ (0 <= q <= 100)%Q).
Proof.
  assert (H : GOATAgent.financial_risk_score
                (GOATAgent.analyze_and_execute fl Sample.unrated rwa_data noise)
              = NaN).
  { unfold GOATAgent.analyze_and_execute.
    repeat match goal with
           | |- context [let '(_, _) := ?p in _] => destruct p as [[? ?] ?]
           end.
    cbn [GOATAgent.financial_risk_score].
    unfold GOATAgent.nadd, GOATAgent.nsub, GOATAgent.nmul, GOATAgent.ndiv.
    cbn [Sample.unrated get credit_score default_history debt_to_income_ratio
         compare2 lift2].
    repeat match goal with
           | |- context [if ?b then _ else _] => destruct b; cbn [lift2]
           end.
    all: reflexivity. }
  split; [reflexivity|]. split; [exact H|].
  intros (q & Hq & _). rewrite H in Hq. discriminate Hq.
Qed.

(** * Further properties of the ledger wrapper *)

Lemma from_wei_ok_range (n : Z) (u : unit_name) (d : Decimal) :
  from_wei n u = Ok d -> 0 <= n <= MAX_WEI.
Proof.
  unfold from_wei. destruct (n =? 0) eqn:Hz.
  - apply Z.eqb_eq in Hz. subst n. intros _. split; [lia | discriminate].
  - destruct ((n <? MIN_WEI) || (MAX_WEI <? n)) eqn:Hout; [discriminate|].
    apply orb_false_iff in Hout. destruct Hout as [Hlo Hhi].
    apply Z.ltb_ge in Hlo, Hhi. unfold MIN_WEI in Hlo. intros _. lia.
Qed.

(** What a returned quote tells about the price read. *)
Lemma quote_ok_inv (w3 : Web3) (p : Z) :
  outcome (ai_agent_optimize_gas_price w3) = Ok p ->
  exists g,
    eth_gas_price w3 = Ok g /\ p = Z.max g floor_wei
    /\ floor_wei <= p <= MAX_WEI.
Proof.
  unfold ai_agent_optimize_gas_price. rewrite to_wei_floor. run_py.
  destruct (eth_gas_price w3) as [g|e]; run_py; [|discriminate].
  destruct (from_wei g gwei) as [shown|e]; run_py; [|discriminate].
  destruct (g <? floor_wei) eqn:Hlt; run_py.
  - destruct (from_wei floor_wei gwei) as [final|e] eqn:Hf; run_py;
      [|discriminate].
    intros H. injection H as <-. apply Z.ltb_lt in Hlt.
    exists g. split; [reflexivity|]. split; [lia|].
    pose proof floor_wei_in_range. lia.
  - destruct (from_wei g gwei) as [final|e] eqn:Hf; run_py; [|discriminate].
    intros H. injection H as <-. apply Z.ltb_ge in Hlt.
    apply from_wei_ok_range in Hf.
    exists g. split; [reflexivity|]. split; lia.
Qed.

(** X1. A quote that is returned is never below the floor of 250 Gwei
    and never above the 256-bit range, and it is the larger of the floor
    and of what the node answered. *)
Theorem quote_never_below_floor (w3 : Web3) (p : Z) :
  outcome (ai_agent_optimize_gas_price w3) = Ok p ->
  floor_wei <= p <= MAX_WEI
  /\ exists g, eth_gas_price w3 = Ok g /\ p = Z.max g floor_wei.
Proof.
  intros H. destruct (quote_ok_inv w3 p H) as (g & Hg & Hp & Hr).
  split; [exact Hr|]. exists g. split; assumption.
Qed.

Lemma quote_never_below_floor_witness :
  floor_wei <= floor_wei <= MAX_WEI
  /\ exists g, eth_gas_price Sample.funded = Ok g /\ floor_wei = Z.max g floor_wei.
Proof.
  apply (quote_never_below_floor Sample.funded floor_wei).
  vm_compute. reflexivity.
Defined.

(** The advisor, the balance reader and the hints of the handler perform
    no effect of a kind [p] that excludes theirs. *)
Lemma quote_count (p : event -> bool) (w3 : Web3) :
  (forall m, p (EvPrint m) = false) -> (forall n, p (EvSleep n) = false) ->
  p EvGasPrice = false ->
  count p (effects (ai_agent_optimize_gas_price w3)) = 0%nat.
Proof.
  intros Hprint Hsleep Hread.
  unfold ai_agent_optimize_gas_price. rewrite to_wei_floor.
  split_run; rewrite ?count_cons, ?count_nil, ?Hprint, ?Hsleep, ?Hread;
    reflexivity.
Qed.

Lemma explain_count (p : event -> bool) (e : string) :
  (forall m, p (EvPrint m) = false) -> count p (effects (explain e)) = 0%nat.
Proof.
  intros Hprint. unfold explain.
  split_run; rewrite ?count_cons, ?count_nil, ?Hprint; reflexivity.
Qed.

Ltac tally :=
  cbn [effects snd] in *;
  repeat (progress
            (rewrite ?count_app, ?count_cons, ?count_nil;
             cbn [is_signing is_broadcast is_receipt_wait is_balance_read];
             repeat match goal with
                    | H : count _ _ = _ |- _ => rewrite H
                    end));
  try reflexivity; try lia.

Section SubmitterMore.

Variable to_checksum_address : string -> result string.
Variable encode_error : string -> option string.

(** X2. The advisor has no handler of its own: when the price read
    raises, the exception leaves it. The submitter then returns [None]
    before it has asked for the balance, signed or broadcast anything. *)
Theorem price_failure_aborts_before_balance_lookup (w3 : Web3)
    (key from_address to_address : string) (amount : PyAmount) (e : string) :
  eth_gas_price w3 = Raise e ->
  outcome (ai_agent_optimize_gas_price w3) = Raise e
  /\ outcome (send_xdc_transaction to_checksum_address encode_error w3 key
                from_address to_address amount) = Ok None
  /\ count is_balance_read
       (effects (send_xdc_transaction to_checksum_address encode_error w3 key
                   from_address to_address amount)) = 0%nat
  /\ signings (effects (send_xdc_transaction to_checksum_address encode_error w3 key
                          from_address to_address amount)) = 0%nat
  /\ broadcasts (effects (send_xdc_transaction to_checksum_address encode_error w3 key
                            from_address to_address amount)) = 0%nat.
Proof.
  intros Hg.
  unfold send_xdc_transaction, send_try, ai_agent_optimize_gas_price,
    signings, broadcasts.
  rewrite Hg. run_py. split; [reflexivity|].
  split_run.
  all: match goal with
       | |- context [explain ?x] =>
           pose proof (explain_effects x) as (Ho & Hs & Hb & _);
           pose proof (explain_count is_balance_read x (fun _ => eq_refl)) as Hr;
           destruct (explain x) as [ro to]; cbn [outcome effects fst snd] in *;
           subst ro
       end.
  all: run_py; repeat split; tally.
Qed.

(** X5. In any run the submitter signs at most once, broadcasts at most
    once and only after a signing, and waits for a receipt at most once
    and only after a broadcast: nothing is retried or submitted again. *)
Theorem nothing_is_retried (w3 : Web3)
    (key from_address to_address : string) (amount : PyAmount) :
  (signings (effects (send_xdc_transaction to_checksum_address encode_error w3 key
                        from_address to_address amount)) <= 1)%nat
  /\ (broadcasts (effects (send_xdc_transaction to_checksum_address encode_error w3 key
                             from_address to_address amount))
      <= signings (effects (send_xdc_transaction to_checksum_address encode_error w3 key
                              from_address to_address amount)))%nat
  /\ (count is_receipt_wait
        (effects (send_xdc_transaction to_checksum_address encode_error w3 key
                    from_address to_address amount))
      <= broadcasts (effects (send_xdc_transaction to_checksum_address encode_error w3 key
                                from_address to_address amount)))%nat.
Proof.
  pose proof (quote_effects w3) as (Hqs & Hqb & _ & _).
  pose proof (quote_count is_receipt_wait w3
                (fun _ => eq_refl) (fun _ => eq_refl) eq_refl) as Hqw.
  pose proof (balance_effects to_checksum_address encode_error w3 from_address)
    as (Hbs & Hbb & Hbr).
  assert (Hbw : count is_receipt_wait
                  (effects (get_account_balance to_checksum_address encode_error w3
                              from_address)) = 0%nat).
  { unfold get_account_balance, balance_try, print_text. split_run; reflexivity. }
  unfold send_xdc_transaction, send_try, signings, broadcasts in *.
  destruct (ai_agent_optimize_gas_price w3) as [rq tq].
  destruct (get_account_balance to_checksum_address encode_error w3 from_address) as [rb tb].
  cbn [outcome effects fst snd] in *.
  split_run.
  all: match goal with
       | |- context [explain ?x] =>
           pose proof (explain_effects x) as (Ho & Hs & Hb & _);
           pose proof (explain_count is_receipt_wait x (fun _ => eq_refl)) as Hw;
           destruct (explain x) as [ro to]; cbn [outcome effects fst snd] in *;
           subst ro
       | _ => idtac
       end.
  all: run_py; repeat split; tally.
Qed.

(** X3. Whatever is handed to the signer is the transfer that was asked
    for: the caller's key, gas limit 21000, the quoted gas price (at least
    the floor), the checksummed recipient, the nonce and chain identifier
    the node reported, and the amount converted to wei. *)
Theorem signed_transfer_is_as_requested (w3 : Web3)
    (key from_address to_address : string) (amount : PyAmount)
    (tx : transaction) (used_key : string) :
  In (EvSign tx used_key)
     (effects (send_xdc_transaction to_checksum_address encode_error w3 key
                 from_address to_address amount)) ->
  used_key = key
  /\ tx_gas tx = 21000
  /\ outcome (ai_agent_optimize_gas_price w3) = Ok (tx_gasPrice tx)
  /\ floor_wei <= tx_gasPrice tx
  /\ to_checksum_address to_address = Ok (tx_to tx)
  /\ (exists from_addr,
        to_checksum_address from_address = Ok from_addr
        /\ eth_get_transaction_count w3 from_addr = Ok (tx_nonce tx))
  /\ eth_chain_id w3 = Ok (tx_chainId tx)
  /\ (exists amount_decimal,
        Decimal_of_str amount = Ok amount_decimal
        /\ to_wei amount_decimal ether = Ok (tx_value tx)).
Proof.
  pose proof (quote_effects w3) as (_ & _ & _ & Hqr).
  pose proof (balance_effects to_checksum_address encode_error w3 from_address) as (_ & _ & Hbr).
  pose proof (quote_ok_inv w3) as Hinv.
  unfold send_xdc_transaction, send_try.
  destruct (ai_agent_optimize_gas_price w3) as [rq tq].
  destruct (get_account_balance to_checksum_address encode_error w3 from_address) as [rb tb].
  cbn [outcome effects fst snd] in Hqr, Hbr, Hinv |- *.
  split_run; handle_explain; run_py; intros Hin; in_cases.
  all: injection Hin as <- <-; cbn [tx_gas tx_gasPrice tx_to tx_nonce tx_chainId tx_value].
  all: destruct (Hinv _ eq_refl) as (g & _ & _ & Hfloor & _).
  all: repeat split; try assumption; try reflexivity; eauto.
Qed.

(** A balance that is not below a sum of at most 28 digits is not below
    the exact sum. *)
Lemma not_below_exact_sum (balance amount fee : Decimal) :
  Dec.digits (Z.abs (coefficient (Dec.add_exact amount fee))) <= Dec.DEFAULT_PREC ->
  Dec.ltb balance (Dec.add amount fee) = false ->
  (Dec.to_Q amount + Dec.to_Q fee <= Dec.to_Q balance)%Q.
Proof.
  intros Hdigits Hlt. rewrite (add_within_precision _ _ Hdigits) in Hlt.
  rewrite <- add_exact_value. apply Qnot_lt_le. intros H.
  apply ltb_value in H. congruence.
Qed.

(** X4. Nothing is handed to the signer unless the balance of the sender
    was read and was not below the sum of the amount and the fee as the
    code adds them, which is the sum rounded to 28 significant digits;
    when the exact sum has at most 28 digits, the balance is not below
    the amount plus the fee. *)
Theorem signing_requires_sufficient_funds (w3 : Web3)
    (key from_address to_address : string) (amount : PyAmount)
    (tx : transaction) (used_key : string) :
  In (EvSign tx used_key)
     (effects (send_xdc_transaction to_checksum_address encode_error w3 key
                 from_address to_address amount)) ->
  exists sender_balance amount_decimal gas_cost,
    outcome (get_account_balance to_checksum_address encode_error w3 from_address)
      = Ok (Some sender_balance)
    /\ Decimal_of_str amount = Ok amount_decimal
    /\ from_wei (21000 * tx_gasPrice tx) ether = Ok gas_cost
    /\ Dec.ltb sender_balance (Dec.add amount_decimal gas_cost) = false
    /\ (Dec.digits (Z.abs (coefficient (Dec.add_exact amount_decimal gas_cost)))
        <= Dec.DEFAULT_PREC ->
        (Dec.to_Q amount_decimal + Dec.to_Q gas_cost <= Dec.to_Q sender_balance)%Q).
Proof.
  pose proof (quote_effects w3) as (_ & _ & _ & Hqr).
  pose proof (balance_effects to_checksum_address encode_error w3 from_address) as (_ & _ & Hbr).
  unfold send_xdc_transaction, send_try.
  destruct (ai_agent_optimize_gas_price w3) as [rq tq].
  destruct (get_account_balance to_checksum_address encode_error w3 from_address) as [rb tb].
  cbn [outcome effects fst snd] in Hqr, Hbr |- *.
  split_run; handle_explain; run_py; intros Hin; in_cases.
  all: injection Hin as <- <-; cbn [tx_gasPrice].
  all: do 3 eexists; split; [reflexivity|]; split; [reflexivity|];
    split; [eassumption|]; split; [eassumption|].
  all: intros Hdigits; apply not_below_exact_sum; eassumption.
Qed.

(** X6. The only thing ever broadcast is the payload the signer returned
    for a transfer signed with the caller's key in the same run. *)
Theorem only_signed_payload_is_broadcast (w3 : Web3)
    (key from_address to_address : string) (amount : PyAmount) (raw : string) :
  In (EvBroadcast raw)
     (effects (send_xdc_transaction to_checksum_address encode_error w3 key
                 from_address to_address amount)) ->
  exists tx signed_tx,
    In (EvSign tx key)
       (effects (send_xdc_transaction to_checksum_address encode_error w3 key
                   from_address to_address amount))
    /\ eth_account_sign_transaction w3 tx key = Ok signed_tx
    /\ raw = raw_transaction signed_tx.
Proof.
  pose proof (quote_effects w3) as (_ & _ & _ & Hqr).
  pose proof (balance_effects to_checksum_address encode_error w3 from_address) as (_ & _ & Hbr).
  unfold send_xdc_transaction, send_try.
  destruct (ai_agent_optimize_gas_price w3) as [rq tq].
  destruct (get_account_balance to_checksum_address encode_error w3 from_address) as [rb tb].
  cbn [outcome effects fst snd] in Hqr, Hbr |- *.
  split_run; handle_explain; run_py; intros Hin; in_cases.
  all: injection Hin as <-.
  all: do 2 eexists; split; [find_in|]; split; [eassumption|reflexivity].
Qed.

Lemma to_wei_negative (d : Decimal) (u : unit_name) :
  coefficient d < 0 -> exists e, to_wei d u = Raise e.
Proof.
  intros Hneg. unfold to_wei, Dec.is_zero.
  replace (coefficient d =? 0) with false by (symmetry; apply Z.eqb_neq; lia).
  replace (coefficient d <? 0) with true by (symmetry; apply Z.ltb_lt; lia).
  cbn [orb]. eauto.
Qed.

Lemma at_most_minus_one_wei_negative (d : Decimal) :
  Dec.ltb (mkDecimal (-1) (-18)) d = false -> coefficient d < 0.
Proof.
  unfold Dec.ltb, Dec.scaled, Dec.common_exponent.
  cbn [coefficient exponent]. intros H. apply Z.ltb_ge in H.
  set (e := Z.min (-18) (exponent d)) in *.
  assert (Hp : 0 < 10 ^ (exponent d - e)) by (apply Z.pow_pos_nonneg; lia).
  assert (Hq : 0 < 10 ^ (-18 - e)) by (apply Z.pow_pos_nonneg; lia).
  nia.
Qed.

(** X7. An amount that is not a number, or a number of minus one wei or
    less, is never signed: the submitter returns [None] without signing
    or broadcasting. *)
Theorem bad_amount_is_never_signed (w3 : Web3)
    (key from_address to_address : string) (amount : PyAmount) :
  match amount with
  | AmountNumber d => Dec.ltb (mkDecimal (-1) (-18)) d = false
  | AmountOther _ => True
  end ->
  outcome (send_xdc_transaction to_checksum_address encode_error w3 key
             from_address to_address amount) = Ok None
  /\ signings (effects (send_xdc_transaction to_checksum_address encode_error w3 key
                          from_address to_address amount)) = 0%nat
  /\ broadcasts (effects (send_xdc_transaction to_checksum_address encode_error w3 key
                            from_address to_address amount)) = 0%nat.
Proof.
  intros Hbad.
  pose proof (quote_effects w3) as (Hqs & Hqb & _ & _).
  pose proof (balance_effects to_checksum_address encode_error w3 from_address) as (Hbs & Hbb & _).
  unfold send_xdc_transaction, send_try.
  destruct (ai_agent_optimize_gas_price w3) as [rq tq].
  destruct (get_account_balance to_checksum_address encode_error w3 from_address) as [rb tb].
  unfold signings, broadcasts in *.
  cbn [outcome effects fst snd] in Hqs, Hqb, Hbs, Hbb.
  destruct amount as [d|repr]; cbn [Decimal_of_str].
  - apply at_most_minus_one_wei_negative in Hbad.
    destruct (to_wei_negative d ether Hbad) as [e He].
    split_run; handle_explain; run_py; try congruence; repeat split; count_up.
  - split_run; handle_explain; run_py; repeat split; count_up.
Qed.

End SubmitterMore.

Section ConnectorMore.

Variable to_checksum_address : string -> result string.
Variable encode_error : string -> option string.
Variable HTTPProvider : string -> result Web3.

(** X8. The connector returns an instance only when it was built for the
    endpoint, answered [True] to the connection test and let its chain
    identifier be read; the instance returned is the one that was built. *)
Theorem handle_only_when_connected (rpc_url : string) (w3 : Web3) :
  outcome (connect_to_xdc_testnet HTTPProvider rpc_url) = Ok (Some w3)
  <-> HTTPProvider rpc_url = Ok w3
      /\ is_connected w3 = Ok true
      /\ exists chain_id, eth_chain_id w3 = Ok chain_id.
Proof.
  unfold connect_to_xdc_testnet, connect_try. split.
  - split_run; intros H; try discriminate H; injection H as <-.
    all: repeat split; eauto.
  - intros (Hp & Hc & chain_id & Hid).
    rewrite Hp. run_py. rewrite Hc. run_py. rewrite Hid. run_py.
    destruct (negb (chain_id =? 51)); reflexivity.
Qed.

(** X9. The warning about the chain is printed exactly when a chain
    identifier was read and is not 51; with 51 the effects of a
    successful connection hold no warning. *)
Theorem warning_iff_other_chain (rpc_url : string) :
  In (EvPrint MsgUnexpectedChainId)
     (effects (connect_to_xdc_testnet HTTPProvider rpc_url))
  <-> exists w3 chain_id,
        HTTPProvider rpc_url = Ok w3 /\ is_connected w3 = Ok true
        /\ eth_chain_id w3 = Ok chain_id /\ chain_id <> 51.
Proof.
  unfold connect_to_xdc_testnet, connect_try. split.
  - split_run; intros Hin; in_cases; try discriminate.
    do 2 eexists. repeat split; try reflexivity; try eassumption.
    match goal with
    | H : negb _ = true |- _ =>
        apply negb_true_iff in H; apply Z.eqb_neq in H; exact H
    end.
  - intros (w3 & chain_id & Hp & Hc & Hid & Hne).
    rewrite Hp. run_py. rewrite Hc. run_py. rewrite Hid. run_py.
    apply Z.eqb_neq in Hne. rewrite Hne. cbn [negb]. run_py. find_in.
Qed.

(** A balance that is returned comes from the [try] block. *)
Lemma balance_ok_inv (w3 : Web3) (address : string) (balance_xdc : Decimal) :
  outcome (get_account_balance to_checksum_address encode_error w3 address)
    = Ok (Some balance_xdc) ->
  outcome (balance_try to_checksum_address w3 address) = Ok (Some balance_xdc).
Proof.
  unfold get_account_balance, print_text.
  destruct (balance_try to_checksum_address w3 address) as [[r|e] t]; run_py;
    [trivial|].
  destruct (encode_error address); run_py; discriminate.
Qed.

(** X10. A balance is returned only for a genuine answer of the node:
    the address was accepted, the node answered a 256-bit quantity for
    its checksummed form, and the value returned is that quantity
    divided by 10^18, hence never negative. *)
Theorem balance_comes_from_the_node (w3 : Web3) (address : string)
    (balance_xdc : Decimal) :
  outcome (get_account_balance to_checksum_address encode_error w3 address)
    = Ok (Some balance_xdc) ->
  exists checksum_address wei,
    to_checksum_address address = Ok checksum_address
    /\ eth_get_balance w3 checksum_address = Ok wei
    /\ 0 <= wei <= MAX_WEI
    /\ (Dec.to_Q balance_xdc == inject_Z wei / inject_Z (10 ^ 18))%Q
    /\ (0 <= Dec.to_Q balance_xdc)%Q.
Proof.
  intros Hout. apply balance_ok_inv in Hout. revert Hout. unfold balance_try.
  split_run; intros H; try discriminate H; injection H as <-.
  match goal with
  | H : from_wei ?wei ether = Ok ?d |- _ =>
      pose proof (from_wei_ok_range _ _ _ H) as Hr;
      assert (Hv : (Dec.to_Q d == inject_Z wei / inject_Z (10 ^ 18))%Q)
  end.
  { unfold from_wei in *.
    destruct (a0 =? 0) eqn:Hz.
    - apply Z.eqb_eq in Hz. subst a0.
      match goal with H : Ok _ = Ok _ |- _ => injection H as <- end.
      vm_compute. reflexivity.
    - destruct ((a0 <? MIN_WEI) || (MAX_WEI <? a0)); [discriminate|].
      match goal with H : Ok _ = Ok _ |- _ => injection H as <- end.
      apply ether_value. }
  do 2 eexists. repeat split; try eassumption; try reflexivity; try lia.
  rewrite Hv. unfold Qle, Qdiv, Qmult, Qinv, inject_Z. cbn. lia.
Qed.

End ConnectorMore.

(** * Further properties of the scores *)

Lemma Qgtb_true (a b : Q) : Qgtb a b = true <-> (b < a)%Q.
Proof.
  unfold Qgtb. rewrite negb_true_iff. split.
  - apply Qle_bool_false.
  - intros H. destruct (Qle_bool a b) eqn:E; [|reflexivity].
    apply Qle_bool_iff in E. exfalso. exact (Qlt_not_le _ _ H E).
Qed.

Lemma Qgtb_false (a b : Q) : Qgtb a b = false <-> (a <= b)%Q.
Proof.
  unfold Qgtb. rewrite negb_false_iff. apply Qle_bool_iff.
Qed.

Lemma Qltb_true (a b : Q) : Qltb a b = true <-> (a < b)%Q.
Proof. exact (Qgtb_true b a). Qed.

Lemma Qltb_false (a b : Q) : Qltb a b = false <-> (b <= a)%Q.
Proof. exact (Qgtb_false b a). Qed.

Lemma py_max_monotone (x y c : Q) :
  (x <= y)%Q -> (GOATAgent.py_max x c <= GOATAgent.py_max y c)%Q.
Proof.
  intros H. unfold GOATAgent.py_max.
  destruct (Qgtb c x) eqn:Hx; destruct (Qgtb c y) eqn:Hy.
  - apply Qle_refl.
  - apply Qgtb_false in Hy. exact Hy.
  - apply Qgtb_false in Hx. apply Qgtb_true in Hy.
    exfalso. apply (Qlt_not_le _ _ Hy). apply Qle_trans with x; assumption.
  - exact H.
Qed.

Lemma py_min_monotone (x y c : Q) :
  (x <= y)%Q -> (GOATAgent.py_min x c <= GOATAgent.py_min y c)%Q.
Proof.
  intros H. unfold GOATAgent.py_min.
  destruct (Qltb c x) eqn:Hx; destruct (Qltb c y) eqn:Hy.
  - apply Qle_refl.
  - apply Qltb_true in Hx. apply Qltb_false in Hy.
    exfalso. apply (Qlt_not_le _ _ Hx). apply Qle_trans with y; assumption.
  - apply Qltb_false in Hx. exact Hx.
  - exact H.
Qed.

Lemma round_half_even_between (x : Q) :
  Qfloor x <= GOATAgent.round_half_even x <= Qfloor x + 1.
Proof.
  unfold GOATAgent.round_half_even.
  destruct (Qltb _ _); [lia|]. destruct (Qgtb _ _); [lia|].
  destruct (Z.even _); lia.
Qed.

Lemma round_half_even_monotone (x y : Q) :
  (x <= y)%Q -> GOATAgent.round_half_even x <= GOATAgent.round_half_even y.
Proof.
  intros H. pose proof (Qfloor_resp_le _ _ H) as Hf.
  destruct (Z.eq_dec (Qfloor x) (Qfloor y)) as [E|N].
  - assert (Hr : (x - inject_Z (Qfloor x) <= y - inject_Z (Qfloor y))%Q).
    { rewrite E. apply Qplus_le_compat; [exact H | apply Qle_refl]. }
    unfold GOATAgent.round_half_even. rewrite <- E.
    rewrite <- E in Hr.
    set (rx := (x - inject_Z (Qfloor x))%Q) in *.
    set (ry := (y - inject_Z (Qfloor x))%Q) in *.
    destruct (Qltb rx (1 # 2)) eqn:Hx1.
    + destruct (Qltb ry (1 # 2)); [lia|]. destruct (Qgtb ry (1 # 2)); [lia|].
      destruct (Z.even _); lia.
    + apply Qltb_false in Hx1.
      assert (Hy1 : Qltb ry (1 # 2) = false)
        by (apply Qltb_false; apply Qle_trans with rx; assumption).
      rewrite Hy1.
      destruct (Qgtb rx (1 # 2)) eqn:Hx2.
      * apply Qgtb_true in Hx2.
        assert (Hy2 : Qgtb ry (1 # 2) = true)
          by (apply Qgtb_true; apply Qlt_le_trans with rx; assumption).
        rewrite Hy2. lia.
      * destruct (Qgtb ry (1 # 2)); destruct (Z.even _); lia.
  - pose proof (round_half_even_between x). pose proof (round_half_even_between y).
    lia.
Qed.

Section FloatArithmetic.

Variable fl : Q -> Q.
Hypothesis fl_monotone : forall x y, (x <= y)%Q -> (fl x <= fl y)%Q.
Hypothesis fl_0 : (fl 0 == 0)%Q.
Hypothesis fl_100 : (fl 100 == 100)%Q.
Hypothesis fl_idempotent : forall x, (fl (fl x) == fl x)%Q.

Lemma fl_nonneg (x : Q) : (0 <= x)%Q -> (0 <= fl x)%Q.
Proof.
  intros H. apply Qle_trans with (fl 0); [rewrite fl_0; apply Qle_refl|].
  apply fl_monotone. exact H.
Qed.

Lemma fl_compat (x y : Q) : (x == y)%Q -> (fl x == fl y)%Q.
Proof.
  intros H. apply Qle_antisym; apply fl_monotone; rewrite H; apply Qle_refl.
Qed.

Lemma round2_monotone (x y : Q) :
  (x <= y)%Q -> (GOATAgent.round2 fl x <= GOATAgent.round2 fl y)%Q.
Proof.
  intros H. unfold GOATAgent.round2. apply fl_monotone.
  assert (Hm : (x * 100 <= y * 100)%Q)
    by (apply Qmult_le_compat_r; [exact H | discriminate]).
  pose proof (round_half_even_monotone _ _ Hm) as Hz.
  set (zx := GOATAgent.round_half_even (x * 100)) in *.
  set (zy := GOATAgent.round_half_even (y * 100)) in *.
  unfold Qle, Qdiv, Qmult, Qinv, inject_Z. cbn. lia.
Qed.

Lemma fadd_monotone (a a' b b' : Q) :
  (a <= a')%Q -> (b <= b')%Q ->
  (GOATAgent.fadd fl a b <= GOATAgent.fadd fl a' b')%Q.
Proof.
  intros Ha Hb. apply fl_monotone. apply Qplus_le_compat; assumption.
Qed.

(** Adding a non-negative quantity to a float does not lower it. *)
Lemma fadd_grows (a b : Q) :
  (fl a == a)%Q -> (0 <= b)%Q -> (a <= GOATAgent.fadd fl a b)%Q.
Proof.
  intros Ha Hb. unfold GOATAgent.fadd.
  apply Qle_trans with (fl a); [rewrite Ha; apply Qle_refl|].
  apply fl_monotone.
  apply Qle_trans with (a + 0)%Q; [rewrite Qplus_0_r; apply Qle_refl|].
  apply Qplus_le_compat; [apply Qle_refl | exact Hb].
Qed.

Lemma scaled_excess_monotone (x y c d k : Q) :
  (0 < d)%Q -> (0 <= k)%Q -> (x <= y)%Q ->
  (GOATAgent.fmul fl (GOATAgent.fdiv fl (GOATAgent.fsub fl x c) d) k
   <= GOATAgent.fmul fl (GOATAgent.fdiv fl (GOATAgent.fsub fl y c) d) k)%Q.
Proof.
  intros Hd Hk H. unfold GOATAgent.fmul, GOATAgent.fdiv, GOATAgent.fsub.
  apply fl_monotone. apply Qmult_le_compat_r; [|exact Hk].
  apply fl_monotone. unfold Qdiv. apply Qmult_le_compat_r.
  - apply fl_monotone. apply Qplus_le_compat; [exact H | apply Qle_refl].
  - apply Qlt_le_weak. apply Qinv_lt_0_compat. exact Hd.
Qed.

Lemma scaled_excess_nonneg (x c d k : Q) :
  (0 < d)%Q -> (0 <= k)%Q -> (c <= x)%Q ->
  (0 <= GOATAgent.fmul fl (GOATAgent.fdiv fl (GOATAgent.fsub fl x c) d) k)%Q.
Proof.
  intros Hd Hk H. unfold GOATAgent.fmul, GOATAgent.fdiv, GOATAgent.fsub.
  apply fl_nonneg. apply Qmult_le_0_compat; [|exact Hk].
  apply fl_nonneg. unfold Qdiv. apply Qmult_le_0_compat.
  - apply fl_nonneg. unfold Qminus. rewrite <- (Qplus_opp_r c).
    apply Qplus_le_compat; [exact H | apply Qle_refl].
  - apply Qlt_le_weak. apply Qinv_lt_0_compat. exact Hd.
Qed.

Lemma step_float (c : bool) (s inc : Q) :
  (fl s == s)%Q ->
  (fl (if c then GOATAgent.fadd fl s inc else s)
   == (if c then GOATAgent.fadd fl s inc else s))%Q.
Proof.
  intros Hs. destruct c; [apply fl_idempotent | exact Hs].
Qed.

(** A conditional increment keeps the order of two scores when the
    second one meets the condition whenever the first does and its
    increment is no smaller. *)
Lemma step_monotone (c c' : bool) (s s' inc inc' : Q) :
  (c = true -> c' = true) ->
  (s <= s')%Q -> (fl s' == s')%Q ->
  (c = true -> (inc <= inc')%Q) ->
  (c' = true -> (0 <= inc')%Q) ->
  ((if c then GOATAgent.fadd fl s inc else s)
   <= (if c' then GOATAgent.fadd fl s' inc' else s'))%Q.
Proof.
  intros Hc Hs Hf Hinc Hpos. destruct c.
  - rewrite (Hc eq_refl). apply fadd_monotone; [exact Hs | exact (Hinc eq_refl)].
  - destruct c'; [|exact Hs].
    apply Qle_trans with s'; [exact Hs|].
    apply fadd_grows; [exact Hf | exact (Hpos eq_refl)].
Qed.

(** [calculate_financial_risk] on a row whose credit score is a number. *)
Lemma risk_of_rated_borrower (borrower : borrower_row) (cs : Q) (dh : number)
    (loan_amount : Q) (loan_term_months : Z) :
  credit_score borrower = Some (Finite cs) ->
  default_history borrower = Some dh ->
  App.calculate_financial_risk fl borrower loan_amount loan_term_months
  = let score :=
      GOATAgent.round2 fl
        (GOATAgent.py_min
           (GOATAgent.py_max
              (App.unclamped_score fl cs (compare2 Qgtb dh (Finite 0))
                 loan_amount loan_term_months) 0) 100) in
    Ok (Finite score,
        if Qgeb score 60 then "High"%string
        else if Qgeb score 30 then "Medium"%string
        else "Low"%string).
Proof.
  intros Hcs Hdh. unfold App.calculate_financial_risk, App.unclamped_score.
  rewrite Hcs, Hdh.
  unfold GOATAgent.nadd, GOATAgent.nsub, GOATAgent.nmul, GOATAgent.ndiv.
  cbn [lift2].
  destruct (compare2 Qgtb dh (Finite 0)); cbn [lift2];
    destruct (Qgtb loan_amount 500000); cbn [lift2];
    destruct (36 <? loan_term_months); cbn [lift2];
    rewrite clamp_of_number; reflexivity.
Qed.

(** [calculate_financial_risk] on a row whose credit score is NaN. *)
Lemma risk_of_unrated_borrower (borrower : borrower_row) (dh : number)
    (loan_amount : Q) (loan_term_months : Z) :
  credit_score borrower = Some NaN ->
  default_history borrower = Some dh ->
  App.calculate_financial_risk fl borrower loan_amount loan_term_months
  = Ok (NaN, "Low"%string).
Proof.
  intros Hcs Hdh. unfold App.calculate_financial_risk.
  rewrite Hcs, Hdh.
  unfold GOATAgent.nadd, GOATAgent.nsub, GOATAgent.nmul, GOATAgent.ndiv.
  cbn [lift2].
  destruct (compare2 Qgtb dh (Finite 0)); cbn [lift2];
    destruct (Qgtb loan_amount 500000); cbn [lift2];
    destruct (36 <? loan_term_months); reflexivity.
Qed.


(** X12. For one borrower, a larger loan or a longer term never gives a
    lower financial risk score; with a credit score that is NaN both
    scores are NaN. *)
Theorem risk_never_falls_with_larger_loan (borrower : borrower_row)
    (loan_amount loan_amount' : Q) (loan_term_months loan_term_months' : Z)
    (score score' : number) (category category' : string) :
  (loan_amount <= loan_amount')%Q ->
  loan_term_months <= loan_term_months' ->
  App.calculate_financial_risk fl borrower loan_amount loan_term_months
    = Ok (score, category) ->
  App.calculate_financial_risk fl borrower loan_amount' loan_term_months'
    = Ok (score', category') ->
  num_le score score'.
Proof.
  intros Hla Hterm.
  destruct (credit_score borrower) as [[cs|]|] eqn:Hcs;
    [| |unfold App.calculate_financial_risk; rewrite Hcs; discriminate].
  all: destruct (default_history borrower) as [dh|] eqn:Hdh;
    [|unfold App.calculate_financial_risk; rewrite Hcs, Hdh; discriminate].
  2: { rewrite !(risk_of_unrated_borrower _ dh _ _ Hcs Hdh).
       intros H H'. injection H as <- _. injection H' as <- _. exact I. }
  rewrite !(risk_of_rated_borrower _ cs dh _ _ Hcs Hdh). cbv zeta.
  intros H H'. injection H as <- _. injection H' as <- _. cbn [num_le].
  apply round2_monotone, py_min_monotone, py_max_monotone.
  unfold App.unclamped_score.
  set (s0 := GOATAgent.fmul fl (GOATAgent.fsub fl 1 (GOATAgent.fdiv fl cs 850)) 100).
  set (s1 := if compare2 Qgtb dh (Finite 0) then GOATAgent.fadd fl s0 15 else s0).
  assert (F1 : (fl s1 == s1)%Q).
  { subst s1. apply step_float. subst s0. apply fl_idempotent. }
  apply step_monotone.
  - rewrite !Z.ltb_lt. lia.
  - apply step_monotone.
    + rewrite !Qgtb_true. intros Hgt. apply Qlt_le_trans with loan_amount; assumption.
    + apply Qle_refl.
    + exact F1.
    + intros _. apply scaled_excess_monotone; [reflexivity | discriminate | exact Hla].
    + rewrite Qgtb_true. intros Hgt.
      apply scaled_excess_nonneg; [reflexivity | discriminate |].
      apply Qlt_le_weak. exact Hgt.
  - apply step_float. exact F1.
  - intros _. unfold GOATAgent.fmul, GOATAgent.fdiv.
    apply fl_monotone. apply Qmult_le_compat_r; [|discriminate].
    apply fl_monotone. unfold Qdiv. apply Qmult_le_compat_r; [|discriminate].
    rewrite <- Zle_Qle. lia.
  - rewrite Z.ltb_lt. intros Hgt. unfold GOATAgent.fmul, GOATAgent.fdiv.
    apply fl_nonneg. apply Qmult_le_0_compat; [|discriminate].
    apply fl_nonneg. unfold Qdiv. apply Qmult_le_0_compat; [|discriminate].
    change 0%Q with (inject_Z 0). rewrite <- Zle_Qle. lia.
Qed.

Lemma not_below_threshold (base factor low : Q) :
  (0 <= base)%Q -> (low <= factor)%Q ->
  Qltb (GOATAgent.fmul fl base factor) (GOATAgent.fmul fl base low) = false.
Proof.
  intros Hb Hf. apply Qltb_false. unfold GOATAgent.fmul. apply fl_monotone.
  rewrite (Qmult_comm base low), (Qmult_comm base factor).
  apply Qmult_le_compat_r; assumption.
Qed.

Lemma base_nonneg (k m rate : Q) :
  (0 <= k)%Q -> (0 <= m)%Q -> (0 <= rate)%Q ->
  (0 <= GOATAgent.fmul fl k
          (GOATAgent.fadd fl 1 (GOATAgent.fmul fl m (fl rate))))%Q.
Proof.
  intros Hk Hm Hr. unfold GOATAgent.fmul, GOATAgent.fadd.
  apply fl_nonneg. apply Qmult_le_0_compat; [exact Hk|].
  apply fl_nonneg.
  apply Qle_trans with (1 + 0)%Q; [discriminate|].
  apply Qplus_le_compat; [apply Qle_refl|].
  apply fl_nonneg. apply Qmult_le_0_compat; [exact Hm|].
  apply fl_nonneg. exact Hr.
Qed.

Lemma factor_at_least (start low draw spread : Q) :
  (low <= start)%Q -> (0 <= draw)%Q -> (0 <= spread)%Q ->
  (fl low <= GOATAgent.fadd fl (fl start) (GOATAgent.fmul fl draw (fl spread)))%Q.
Proof.
  intros Hl Hd Hs.
  apply Qle_trans with (fl start); [apply fl_monotone; exact Hl|].
  apply fadd_grows; [apply fl_idempotent|].
  unfold GOATAgent.fmul. apply fl_nonneg.
  apply Qmult_le_0_compat; [exact Hd | apply fl_nonneg; exact Hs].
Qed.

(** X13. From month 0 on (below 2^53) and for draws of the generator
    that are not negative, the status reported by the oracle monitor is
    always [On Track]: the factors start at 0.9 and 0.85, so neither
    underperformance test can succeed; the job count is never negative. *)
Theorem oracle_status_is_always_on_track (rwa_id : string) (current_month : Z)
    (draw_co2 draw_energy : Q) (jobs_variation : Z) (draw_water : Q)
    (now : string) :
  0 <= current_month < 2 ^ 53 -> (0 <= draw_co2)%Q -> (0 <= draw_energy)%Q ->
  OracleMonitorAgent.status_update
    (OracleMonitorAgent.fetch_simulated_rwa_data fl rwa_id current_month
       draw_co2 draw_energy jobs_variation draw_water now) = "On Track"%string
  /\ 0 <= OracleMonitorAgent.jobs_created
            (OracleMonitorAgent.fetch_simulated_rwa_data fl rwa_id current_month
               draw_co2 draw_energy jobs_variation draw_water now).
Proof.
  intros [Hm _] H1 H2.
  assert (Hmq : (0 <= inject_Z current_month)%Q)
    by (change 0%Q with (inject_Z 0); rewrite <- Zle_Qle; exact Hm).
  unfold OracleMonitorAgent.fetch_simulated_rwa_data.
  cbn [OracleMonitorAgent.status_update OracleMonitorAgent.jobs_created].
  split; [|lia].
  rewrite !not_below_threshold; try reflexivity.
  - apply base_nonneg; [discriminate | exact Hmq | discriminate].
  - apply factor_at_least; [discriminate | exact H1 | discriminate].
  - apply base_nonneg; [discriminate | exact Hmq | discriminate].
  - apply factor_at_least; [discriminate | exact H2 | discriminate].
Qed.

End FloatArithmetic.

Lemma unit_clamp_bounds (v : Q) :
  (0 <= GOATAgent.py_min 1 (GOATAgent.py_max 0 v) <= 1)%Q.
Proof.
  unfold GOATAgent.py_min, GOATAgent.py_max.
  destruct (Qgtb v 0) eqn:H0.
  - apply Qgtb_true in H0. destruct (Qltb v 1) eqn:H1.
    + apply Qltb_true in H1. split; apply Qlt_le_weak; assumption.
    + split; discriminate.
  - destruct (Qltb 0 1); split; discriminate.
Qed.

(** X14. Whatever the rows, the random draw and the rounding of floats,
    the confidence score of the GOAT agent lies in [0,1]. *)
Theorem confidence_within_unit_interval (fl : Q -> Q)
    (borrower_data : borrower_row) (rwa_data : rwa_row) (noise : Q) :
  (0 <= GOATAgent.confidence_score
          (GOATAgent.goat_insights
             (GOATAgent.analyze_and_execute fl borrower_data rwa_data noise))
   <= 1)%Q.
Proof.
  unfold GOATAgent.analyze_and_execute.
  repeat match goal with
         | |- context [let '(_, _) := ?p in _] => destruct p as [[? ?] ?]
         end.
  cbn [GOATAgent.goat_insights GOATAgent.confidence_score].
  apply unit_clamp_bounds.
Qed.

(** X15. The GOAT agent recommends approval with priority only for a
    project whose CO2 reduction exceeds 5000 tons a year and whose
    financial risk score is a number below 30: no other combination of
    its criteria brings the impact score above 70. *)
Theorem priority_approval_needs_co2 (fl : Q -> Q)
    (borrower_data : borrower_row) (rwa_data : rwa_row) (noise : Q) :
  GOATAgent.recommendation
    (GOATAgent.goat_insights
       (GOATAgent.analyze_and_execute fl borrower_data rwa_data noise))
  = "Approve loan with priority; recommend favorable terms."%string ->
  (5000 < get (estimated_co2_reduction_tons_per_year rwa_data) 0)%Q
  /\ (exists q,
        GOATAgent.financial_risk_score
          (GOATAgent.analyze_and_execute fl borrower_data rwa_data noise)
        = Finite q
        /\ (q < 30)%Q)
  /\ 70 < GOATAgent.impact_score
            (GOATAgent.analyze_and_execute fl borrower_data rwa_data noise).
Proof.
  unfold GOATAgent.analyze_and_execute.
  match goal with
  | |- context [GOATAgent.nround2 fl ?x] => set (risk := GOATAgent.nround2 fl x)
  end.
  destruct (match project_type rwa_data with
            | Some t => String.eqb t "solar"
            | None => false
            end);
    destruct (Qgtb (get (estimated_co2_reduction_tons_per_year rwa_data) 0%Q) 5000)
      eqn:Hco2;
    destruct (Qgtb (get (estimated_energy_generated_kwh_per_year rwa_data) 0%Q) 1000000);
    destruct (Qgtb (get (estimated_jobs_created rwa_data) 0%Q) 10);
    cbn -[compare2 Qltb Qgeb GOATAgent.py_min GOATAgent.py_max GOATAgent.fadd];
    destruct (compare2 Qltb risk (Finite 30)) eqn:H30;
    destruct (compare2 Qltb risk (Finite 60));
    destruct (compare2 Qgeb risk (Finite 60));
    cbn -[compare2 Qltb Qgeb GOATAgent.py_min GOATAgent.py_max GOATAgent.fadd];
    intros H; try discriminate H.
  all: apply Qgtb_true in Hco2.
  all: destruct (compare2_inv _ _ _ H30) as (q & Hq & Hlt); apply Qltb_true in Hlt.
  all: split; [assumption|]; split; [exists q; split; assumption | reflexivity].
Qed.

Lemma tier_monotone (x y high : Q) (high_points : Z) (low : Q) (low_points : Z) :
  0 <= low_points <= high_points -> (x <= y)%Q ->
  tier x high high_points low low_points <= tier y high high_points low low_points.
Proof.
  intros Hp H. unfold tier.
  destruct (Qgtb x high) eqn:Hxh.
  - apply Qgtb_true in Hxh.
    assert (Hyh : Qgtb y high = true)
      by (apply Qgtb_true; apply Qlt_le_trans with x; assumption).
    rewrite Hyh. lia.
  - destruct (Qgtb x low) eqn:Hxl.
    + apply Qgtb_true in Hxl.
      assert (Hyl : Qgtb y low = true)
        by (apply Qgtb_true; apply Qlt_le_trans with x; assumption).
      rewrite Hyl. destruct (Qgtb y high); lia.
    + destruct (Qgtb y high); [lia|]. destruct (Qgtb y low); lia.
Qed.

(** The score returned is the capped sum of the points. *)
Lemma impact_score_is_capped_sum (project_description : string)
    (rwa_data : rwa_row) (loan_amount loan_term_years : Q) :
  ImpactAssessorAgent.impact_score
    (ImpactAssessorAgent.assess_impact project_description rwa_data
       loan_amount loan_term_years)
  = clamp_int (impact_points rwa_data loan_amount loan_term_years).
Proof.
  unfold ImpactAssessorAgent.assess_impact, impact_points, tier.
  destruct (Qgtb (get (estimated_co2_reduction_tons_per_year rwa_data) 0%Q) 10000);
    [|destruct (Qgtb (get (estimated_co2_reduction_tons_per_year rwa_data) 0%Q) 1000)].
  all: destruct (Qgtb (get (estimated_energy_generated_kwh_per_year rwa_data) 0%Q) 5000000);
    [|destruct (Qgtb (get (estimated_energy_generated_kwh_per_year rwa_data) 0%Q) 1000000)].
  all: destruct (Qgtb (get (estimated_jobs_created rwa_data) 0%Q) 50);
    [|destruct (Qgtb (get (estimated_jobs_created rwa_data) 0%Q) 10)].
  all: destruct (Qgtb (get (estimated_water_savings_liters_per_year rwa_data) 0%Q) 1000000);
    [|destruct (Qgtb (get (estimated_water_savings_liters_per_year rwa_data) 0%Q) 100000);
      [|destruct (contains "water" (lower project_description)
                 && Qeq_bool (get (estimated_water_savings_liters_per_year rwa_data) 0%Q) 0)]].
  all: destruct (contains "Gold" (get (certification_level rwa_data) "None"%string));
    [|destruct (contains "Silver" (get (certification_level rwa_data) "None"%string))].
  all: destruct (Qgtb loan_amount 500000); destruct (Qgtb loan_term_years 5).
  all: reflexivity.
Qed.

Lemma clamp_int_monotone (x y : Z) : x <= y -> clamp_int x <= clamp_int y.
Proof. unfold clamp_int. lia. Qed.

(** X16. With the same certification, an asset that is at least as good
    on every metric, a loan that is at least as large and a term that is
    no longer never get a lower impact score. *)
Theorem impact_score_is_monotone (project_description project_description' : string)
    (rwa_data rwa_data' : rwa_row)
    (loan_amount loan_amount' loan_term_years loan_term_years' : Q) :
  certification_level rwa_data = certification_level rwa_data' ->
  (get (estimated_co2_reduction_tons_per_year rwa_data) 0
   <= get (estimated_co2_reduction_tons_per_year rwa_data') 0)%Q ->
  (get (estimated_energy_generated_kwh_per_year rwa_data) 0
   <= get (estimated_energy_generated_kwh_per_year rwa_data') 0)%Q ->
  (get (estimated_jobs_created rwa_data) 0
   <= get (estimated_jobs_created rwa_data') 0)%Q ->
  (get (estimated_water_savings_liters_per_year rwa_data) 0
   <= get (estimated_water_savings_liters_per_year rwa_data') 0)%Q ->
  (loan_amount <= loan_amount')%Q ->
  (loan_term_years' <= loan_term_years)%Q ->
  ImpactAssessorAgent.impact_score
    (ImpactAssessorAgent.assess_impact project_description rwa_data
       loan_amount loan_term_years)
  <= ImpactAssessorAgent.impact_score
       (ImpactAssessorAgent.assess_impact project_description' rwa_data'
          loan_amount' loan_term_years').
Proof.
  intros Hcert Hco2 Hen Hjobs Hwater Hla Hlt.
  rewrite !impact_score_is_capped_sum. apply clamp_int_monotone.
  unfold impact_points. rewrite <- Hcert.
  pose proof (tier_monotone _ _ 10000 30 1000 15 ltac:(lia) Hco2).
  pose proof (tier_monotone _ _ 5000000 25 1000000 10 ltac:(lia) Hen).
  pose proof (tier_monotone _ _ 50 20 10 10 ltac:(lia) Hjobs).
  pose proof (tier_monotone _ _ 1000000 15 100000 5 ltac:(lia) Hwater).
  assert (Hl : (if Qgtb loan_amount 500000 then 5 else 0)
               <= (if Qgtb loan_amount' 500000 then 5 else 0)).
  { destruct (Qgtb loan_amount 500000) eqn:E.
    - apply Qgtb_true in E.
      assert (E' : Qgtb loan_amount' 500000 = true)
        by (apply Qgtb_true; apply Qlt_le_trans with loan_amount; assumption).
      rewrite E'. lia.
    - destruct (Qgtb loan_amount' 500000); lia. }
  assert (Ht : (if Qgtb loan_term_years' 5 then 5 else 0)
               <= (if Qgtb loan_term_years 5 then 5 else 0)).
  { destruct (Qgtb loan_term_years' 5) eqn:E.
    - apply Qgtb_true in E.
      assert (E' : Qgtb loan_term_years 5 = true)
        by (apply Qgtb_true; apply Qlt_le_trans with loan_term_years'; assumption).
      rewrite E'. lia.
    - destruct (Qgtb loan_term_years 5); lia. }
  destruct (contains "Gold" _); [|destruct (contains "Silver" _)]; lia.
Qed.

(** * Properties of the liquidity agent *)

(** X17. Whatever the route and the amount, the trade a simulation
    reports has received amount 0: the amount the code computes is never
    stored. The hash is present exactly when the trade is reported as
    executed, and it is then [0x] followed by the digest. *)
Theorem trade_amount_is_always_zero (fl : Q -> Q)
    (optimized_route_details : AkkaLiquidityAgent.route)
    (amount_rwa : AkkaLiquidityAgent.amount)
    (preferred_output_asset : string) (variance : Q) (digest : string) :
  AkkaLiquidityAgent.output_amount_received
    (AkkaLiquidityAgent.simulate_execute_trade fl optimized_route_details
       amount_rwa preferred_output_asset variance digest) = 0
  /\ (AkkaLiquidityAgent.trade_executed
        (AkkaLiquidityAgent.simulate_execute_trade fl optimized_route_details
           amount_rwa preferred_output_asset variance digest) = true
      /\ AkkaLiquidityAgent.simulated_tx_hash
           (AkkaLiquidityAgent.simulate_execute_trade fl optimized_route_details
              amount_rwa preferred_output_asset variance digest)
         = Some (String.append "0x" digest)
      \/ AkkaLiquidityAgent.trade_executed
           (AkkaLiquidityAgent.simulate_execute_trade fl optimized_route_details
              amount_rwa preferred_output_asset variance digest) = false
         /\ AkkaLiquidityAgent.simulated_tx_hash
              (AkkaLiquidityAgent.simulate_execute_trade fl optimized_route_details
                 amount_rwa preferred_output_asset variance digest) = None).
Proof.
  unfold AkkaLiquidityAgent.simulate_execute_trade,
    AkkaLiquidityAgent.execute_try, AkkaLiquidityAgent.float_of.
  destruct (get (AkkaLiquidityAgent.route_found optimized_route_details) false);
    [|split; [reflexivity | right; split; reflexivity]].
  destruct amount_rwa;
    [|split; [reflexivity | right; split; reflexivity]].
  destruct (AkkaLiquidityAgent.optimization_details optimized_route_details)
    as [found|]; [|split; [reflexivity | right; split; reflexivity]].
  destruct (AkkaLiquidityAgent.estimated_fees_percent found);
    [|split; [reflexivity | right; split; reflexivity]].
  destruct (AkkaLiquidityAgent.simulated_slippage_percent optimized_route_details);
    split; try reflexivity; [left | right]; split; reflexivity.
Qed.

(** X18. A trade is reported as executed exactly when the route says a
    route was found, the amount converts to a float, and the fee and the
    slippage are in the dictionary; a missing key or an amount that
    [float] refuses gives a trade that is not executed, never an
    exception. *)
Theorem trade_executed_iff_route_complete (fl : Q -> Q)
    (optimized_route_details : AkkaLiquidityAgent.route)
    (amount_rwa : AkkaLiquidityAgent.amount)
    (preferred_output_asset : string) (variance : Q) (digest : string) :
  AkkaLiquidityAgent.trade_executed
    (AkkaLiquidityAgent.simulate_execute_trade fl optimized_route_details
       amount_rwa preferred_output_asset variance digest) = true
  <-> AkkaLiquidityAgent.route_found optimized_route_details = Some true
      /\ (exists x, amount_rwa = AkkaLiquidityAgent.Number x)
      /\ (exists found fees,
            AkkaLiquidityAgent.optimization_details optimized_route_details
              = Some found
            /\ AkkaLiquidityAgent.estimated_fees_percent found = Some fees)
      /\ (exists slippage,
            AkkaLiquidityAgent.simulated_slippage_percent optimized_route_details
              = Some slippage).
Proof.
  unfold AkkaLiquidityAgent.simulate_execute_trade,
    AkkaLiquidityAgent.execute_try, AkkaLiquidityAgent.float_of.
  destruct (AkkaLiquidityAgent.route_found optimized_route_details) as [[|]|];
    cbn [get].
  2,3: split; [discriminate | intros (H & _); discriminate H].
  destruct amount_rwa as [q|error].
  2: split; [discriminate | intros (_ & (d & H) & _); discriminate H].
  destruct (AkkaLiquidityAgent.optimization_details optimized_route_details)
    as [found|].
  2: split; [discriminate | intros (_ & _ & (f & x & H & _) & _); discriminate H].
  destruct (AkkaLiquidityAgent.estimated_fees_percent found) as [fees|] eqn:Hfees.
  2: { split; [discriminate|].
       intros (_ & _ & (f & x & H & Hx) & _). injection H as <-. congruence. }
  destruct (AkkaLiquidityAgent.simulated_slippage_percent optimized_route_details)
    as [slippage|].
  2: split; [discriminate | intros (_ & _ & _ & (x & H)); discriminate H].
  split; [|reflexivity]. intros _. repeat split; eauto.
Qed.

(** X19. Run on the route that [optimize_liquidity_route] returns, the
    trade simulation executes exactly when the risk tolerance, as a
    float, is not below 2; below 2 the route carries an error message, no
    pool and zero slippage and gas cost. *)
Theorem trade_follows_risk_tolerance (fl : Q -> Q)
    (rwa_token_address : string) (amount : Q)
    (preferred_output_asset : string) (max_risk_tolerance : Q)
    (draws : AkkaLiquidityAgent.route_draws) (variance : Q) (digest : string) :
  (AkkaLiquidityAgent.trade_executed
     (AkkaLiquidityAgent.simulate_execute_trade fl
        (AkkaLiquidityAgent.optimize_liquidity_route fl rwa_token_address
           (AkkaLiquidityAgent.Number amount) preferred_output_asset max_risk_tolerance draws)
        (AkkaLiquidityAgent.Number amount) preferred_output_asset variance digest) = true
   <-> (2 <= fl max_risk_tolerance)%Q)
  /\ ((fl max_risk_tolerance < 2)%Q ->
      AkkaLiquidityAgent.optimize_liquidity_route fl rwa_token_address
        (AkkaLiquidityAgent.Number amount) preferred_output_asset max_risk_tolerance draws
      = AkkaLiquidityAgent.mkRoute (Some false)
          (Some AkkaLiquidityAgent.empty_details) (Some 0%Q) (Some 0%Q)
          (Some "No suitable liquidity route found with the given risk tolerance."%string)).
Proof.
  unfold AkkaLiquidityAgent.optimize_liquidity_route.
  destruct (Qltb (fl max_risk_tolerance) 2) eqn:Hlow.
  - apply Qltb_true in Hlow. split.
    + split; [discriminate|]. intros H. exfalso. exact (Qlt_not_le _ _ Hlow H).
    + intros _. reflexivity.
  - apply Qltb_false in Hlow. split.
    + split; [intros _; exact Hlow | intros _; reflexivity].
    + intros H. exfalso. exact (Qlt_not_le _ _ H Hlow).
Qed.

(** * Properties of the storage agent *)

Section Storage.

Variable boto3_client :
  string -> string -> string -> StorXAgent.answer StorXAgent.s3_client.

(** X20. The agent comes out of its constructor in real mode exactly
    when the four credentials are non-empty, the client could be built,
    and the vault either exists or answered 404 and was created; in real
    mode the agent holds that client. *)
Theorem real_mode_iff_vault_ready
    (access_key_id secret_access_key endpoint_url bucket_name : option string) :
  (StorXAgent.is_real_integration_possible
     (fst (StorXAgent.init boto3_client access_key_id secret_access_key
             endpoint_url bucket_name)) = true
   <-> StorXAgent.truthy access_key_id = true
       /\ StorXAgent.truthy secret_access_key = true
       /\ StorXAgent.truthy endpoint_url = true
       /\ StorXAgent.truthy bucket_name = true
       /\ exists client,
            boto3_client (StorXAgent.show endpoint_url)
              (StorXAgent.show access_key_id)
              (StorXAgent.show secret_access_key) = StorXAgent.Done client
            /\ StorXAgent.s3
                 (fst (StorXAgent.init boto3_client access_key_id
                         secret_access_key endpoint_url bucket_name))
               = Some client
            /\ (StorXAgent.head_bucket client (StorXAgent.show bucket_name)
                = StorXAgent.Done tt
                \/ exists message,
                     StorXAgent.head_bucket client (StorXAgent.show bucket_name)
                     = StorXAgent.Failed (StorXAgent.ClientError "404" message)
                     /\ StorXAgent.create_bucket client
                          (StorXAgent.show bucket_name) = StorXAgent.Done tt)).
Proof.
  unfold StorXAgent.init.
  destruct (StorXAgent.truthy access_key_id);
    [|split; [discriminate | intros (H & _); discriminate H]].
  destruct (StorXAgent.truthy secret_access_key);
    [|split; [discriminate | intros (_ & H & _); discriminate H]].
  destruct (StorXAgent.truthy endpoint_url);
    [|split; [discriminate | intros (_ & _ & H & _); discriminate H]].
  destruct (StorXAgent.truthy bucket_name);
    [|split; [discriminate | intros (_ & _ & _ & H & _); discriminate H]].
  cbn [andb negb].
  destruct (boto3_client _ _ _) as [client|f].
  2: { split; [discriminate|].
       intros (_ & _ & _ & _ & c & H & _). discriminate H. }
  destruct (StorXAgent.head_bucket client _) as [[]|[code message|text]] eqn:Hhead.
  - split; [|reflexivity]. intros _. repeat split.
    exists client. repeat split. left. exact Hhead.
  - destruct (String.eqb code "404") eqn:Hcode.
    + apply String.eqb_eq in Hcode. subst code.
      destruct (StorXAgent.create_bucket client _) as [[]|f] eqn:Hcreate.
      * split; [|reflexivity]. intros _. repeat split.
        exists client. repeat split. right. exists message.
        split; [exact Hhead | exact Hcreate].
      * split; [discriminate|].
        intros (_ & _ & _ & _ & c & Hc & _ & [H | (m & _ & H)]);
          injection Hc as <-; congruence.
    + split; [discriminate|].
      intros (_ & _ & _ & _ & c & Hc & _ & [H | (m & H & _)]);
        injection Hc as <-; [congruence|].
      rewrite Hhead in H. injection H as -> _.
      rewrite String.eqb_refl in Hcode. discriminate Hcode.
  - split; [discriminate|].
    intros (_ & _ & _ & _ & c & Hc & _ & [H | (m & H & _)]);
      injection Hc as <-; congruence.
Qed.

(** X21. The constructor makes no call at all when a credential is
    missing or empty, and it asks for a vault to be created only after
    the check of that vault was answered by a 404 error. *)
Theorem vault_created_only_after_404
    (access_key_id secret_access_key endpoint_url bucket_name : option string) :
  (StorXAgent.truthy access_key_id && StorXAgent.truthy secret_access_key
   && StorXAgent.truthy endpoint_url && StorXAgent.truthy bucket_name = false ->
   StorXAgent.init boto3_client access_key_id secret_access_key
     endpoint_url bucket_name
   = (StorXAgent.mkAgent access_key_id secret_access_key endpoint_url
        bucket_name false None, []))
  /\ (forall bucket,
        In (StorXAgent.CreateBucket bucket)
           (snd (StorXAgent.init boto3_client access_key_id secret_access_key
                   endpoint_url bucket_name)) ->
        bucket = StorXAgent.show bucket_name
        /\ exists client message,
             boto3_client (StorXAgent.show endpoint_url)
               (StorXAgent.show access_key_id)
               (StorXAgent.show secret_access_key) = StorXAgent.Done client
             /\ StorXAgent.head_bucket client bucket
                = StorXAgent.Failed (StorXAgent.ClientError "404" message)).
Proof.
  unfold StorXAgent.init. split.
  - intros ->. reflexivity.
  - intros bucket.
    destruct (negb _); [intros []|].
    destruct (boto3_client _ _ _) as [client|f]; cbn [snd In].
    2: intros [H|[]]; discriminate H.
    destruct (StorXAgent.head_bucket client _) as [[]|[code message|text]] eqn:Hhead;
      cbn [snd In].
    + intros [H|[H|[]]]; discriminate H.
    + destruct (String.eqb code "404") eqn:Hcode.
      * apply String.eqb_eq in Hcode. subst code.
        destruct (StorXAgent.create_bucket client _); cbn [snd In];
          intros [H|[H|[H|[]]]]; try discriminate H; injection H as <-.
        all: split; [reflexivity|]; exists client, message.
        all: split; [reflexivity | exact Hhead].
      * cbn [snd In]. intros [H|[H|[]]]; discriminate H.
    + intros [H|[H|[]]]; discriminate H.
Qed.


End Storage.

(** * Properties of the tokenizer *)

Section PyobjInduction.

Variable P : pyobj -> Prop.
Hypothesis P_none : P PyNone.
Hypothesis P_bool : forall b, P (PyBool b).
Hypothesis P_int : forall n, P (PyInt n).
Hypothesis P_float : forall x, P (PyFloat x).
Hypothesis P_str : forall s, P (PyStr s).
Hypothesis P_np_integer : forall n, P (NpInteger n).
Hypothesis P_np_floating : forall x, P (NpFloating x).
Hypothesis P_list : forall items, Forall P items -> P (PyList items).
Hypothesis P_tuple : forall items, Forall P items -> P (PyTuple items).
Hypothesis P_dict :
  forall entries, Forall (fun kv => P (snd kv)) entries -> P (PyDict entries).

(** Induction on a value and on the values it contains. *)
Fixpoint pyobj_induction (obj : pyobj) : P obj :=
  match obj with
  | PyNone => P_none
  | PyBool b => P_bool b
  | PyInt n => P_int n
  | PyFloat x => P_float x
  | PyStr s => P_str s
  | NpInteger n => P_np_integer n
  | NpFloating x => P_np_floating x
  | PyList items =>
      P_list items
        ((fix all (l : list pyobj) : Forall P l :=
            match l with
            | [] => Forall_nil P
            | x :: rest => Forall_cons x (pyobj_induction x) (all rest)
            end) items)
  | PyTuple items =>
      P_tuple items
        ((fix all (l : list pyobj) : Forall P l :=
            match l with
            | [] => Forall_nil P
            | x :: rest => Forall_cons x (pyobj_induction x) (all rest)
            end) items)
  | PyDict entries =>
      P_dict entries
        ((fix all (l : list (string * pyobj))
            : Forall (fun kv => P (snd kv)) l :=
            match l with
            | [] => Forall_nil _
            | (k, v) :: rest =>
                Forall_cons (k, v) (pyobj_induction v) (all rest)
            end) entries)
  end.

End PyobjInduction.

(** X23. [_convert_numpy_types] leaves no NumPy number in a value made of
    dictionaries and lists (a tuple is not entered), changes nothing in a
    value that holds none, and converting twice is converting once. *)
Theorem conversion_removes_numpy (obj : pyobj) :
  (RWATokenizerAgent.tuple_free obj = true ->
   RWATokenizerAgent.numpy_free (RWATokenizerAgent._convert_numpy_types obj) = true)
  /\ (RWATokenizerAgent.numpy_free obj = true ->
      RWATokenizerAgent._convert_numpy_types obj = obj)
  /\ RWATokenizerAgent._convert_numpy_types
       (RWATokenizerAgent._convert_numpy_types obj)
     = RWATokenizerAgent._convert_numpy_types obj.
Proof.
  induction obj as [ | | | | | | | items IH | items IH | entries IH ]
    using pyobj_induction;
    try (repeat split; intros; try reflexivity; discriminate).
  - cbn [RWATokenizerAgent._convert_numpy_types RWATokenizerAgent.tuple_free
           RWATokenizerAgent.numpy_free].
    induction IH as [|x rest (Hx1 & Hx2 & Hx3) _ (IH1 & IH2 & IH3)];
      [repeat split; reflexivity|].
    cbn [List.map List.forallb]. repeat split.
    + intros H. apply andb_true_iff in H. destruct H as [Ha Hb].
      rewrite (Hx1 Ha), (IH1 Hb). reflexivity.
    + intros H. apply andb_true_iff in H. destruct H as [Ha Hb].
      specialize (IH2 Hb). injection IH2 as IH2.
      rewrite (Hx2 Ha), IH2. reflexivity.
    + injection IH3 as IH3. rewrite Hx3, IH3. reflexivity.
  - cbn [RWATokenizerAgent._convert_numpy_types RWATokenizerAgent.tuple_free
           RWATokenizerAgent.numpy_free].
    induction IH as [|[k v] rest (Hx1 & Hx2 & Hx3) _ (IH1 & IH2 & IH3)];
      [repeat split; reflexivity|].
    cbn [List.map List.forallb snd] in *. repeat split.
    + intros H. apply andb_true_iff in H. destruct H as [Ha Hb].
      rewrite (Hx1 Ha), (IH1 Hb). reflexivity.
    + intros H. apply andb_true_iff in H. destruct H as [Ha Hb].
      specialize (IH2 Hb). injection IH2 as IH2.
      rewrite (Hx2 Ha), IH2. reflexivity.
    + injection IH3 as IH3. rewrite Hx3, IH3. reflexivity.
Qed.

Lemma last_segment_without_dash (s : string) :
  RWATokenizerAgent.has_dash s = false -> RWATokenizerAgent.last_segment s = s.
Proof.
  destruct s as [|c rest]; [reflexivity|].
  cbn [RWATokenizerAgent.has_dash RWATokenizerAgent.last_segment].
  intros H. apply orb_false_iff in H. destruct H as [Hc Hrest].
  rewrite Hrest, Hc. reflexivity.
Qed.

Lemma has_dash_append (prefix suffix : string) :
  RWATokenizerAgent.has_dash (String.append prefix (String "-" suffix)) = true.
Proof.
  induction prefix as [|c prefix IH]; cbn [String.append RWATokenizerAgent.has_dash].
  - reflexivity.
  - rewrite IH. apply orb_true_r.
Qed.

Lemma last_segment_after_dash (prefix suffix : string) :
  RWATokenizerAgent.has_dash suffix = false ->
  RWATokenizerAgent.last_segment (String.append prefix (String "-" suffix)) = suffix.
Proof.
  intros H. induction prefix as [|c prefix IH];
    cbn [String.append RWATokenizerAgent.last_segment].
  - rewrite H. reflexivity.
  - rewrite has_dash_append. exact IH.
Qed.

Section Tokenizer.

Variable sha256_of_json : pyobj -> result string.
Variable str : pyobj -> string.
Variable type_name : pyobj -> string.

(** X24. For a loan whose identifier is a text ending in a dash and a
    part without dash (as [LOAN-0001]), and whose details can be hashed,
    the token has symbol [GL] plus that last part, name [Green Loan #]
    plus the identifier, identifier [RWA-] plus the first ten characters
    of the digest in upper case, and the metadata address built on it. *)
Theorem token_of_dashed_loan_id (loan_details : list (string * pyobj))
    (prefix suffix loan_hash : string) :
  RWATokenizerAgent.lookup "loan_id" loan_details
    = Some (PyStr (String.append prefix (String "-" suffix))) ->
  RWATokenizerAgent.has_dash suffix = false ->
  sha256_of_json (RWATokenizerAgent._convert_numpy_types (PyDict loan_details))
    = Ok loan_hash ->
  RWATokenizerAgent.simulate_tokenize_rwa sha256_of_json str type_name
    loan_details
  = RWATokenizerAgent.Tokenized
      (RWATokenizerAgent.mkToken
         (String.append "RWA-"
            (RWATokenizerAgent.upper (String.substring 0 10 loan_hash)))
         (String.append "GL" suffix)
         (String.append "Green Loan #"
            (String.append prefix (String "-" suffix)))
         (String.append "https://simulated.storx.link/rwa_metadata/"
            (String.append
               (String.append "RWA-"
                  (RWATokenizerAgent.upper (String.substring 0 10 loan_hash)))
               ".json"))).
Proof.
  intros Hid Hsuffix Hhash. unfold RWATokenizerAgent.simulate_tokenize_rwa.
  rewrite Hhash, Hid.
  cbn [get RWATokenizerAgent.split_last RWATokenizerAgent.format].
  rewrite (last_segment_after_dash prefix suffix Hsuffix). reflexivity.
Qed.

(** X25. The tokenization fails exactly when the details cannot be
    hashed or the loan identifier is there and is not a text; it never
    raises. Without a loan identifier the token is named
    [Green Loan #Unknown] and has symbol [GL000]. *)
Theorem tokenization_fails_iff (loan_details : list (string * pyobj)) :
  ((exists error,
      RWATokenizerAgent.simulate_tokenize_rwa sha256_of_json str type_name
    loan_details
      = RWATokenizerAgent.TokenizationFailed error)
   <-> (exists e,
          sha256_of_json
            (RWATokenizerAgent._convert_numpy_types (PyDict loan_details))
          = Raise e)
       \/ (exists v,
             RWATokenizerAgent.lookup "loan_id" loan_details = Some v
             /\ forall s, v <> PyStr s))
  /\ (RWATokenizerAgent.lookup "loan_id" loan_details = None ->
      forall loan_hash,
        sha256_of_json
          (RWATokenizerAgent._convert_numpy_types (PyDict loan_details))
        = Ok loan_hash ->
        exists t,
          RWATokenizerAgent.simulate_tokenize_rwa sha256_of_json str type_name
    loan_details
          = RWATokenizerAgent.Tokenized t
          /\ RWATokenizerAgent.token_name t = "Green Loan #Unknown"%string
          /\ RWATokenizerAgent.token_symbol t = "GL000"%string).
Proof.
  unfold RWATokenizerAgent.simulate_tokenize_rwa. split.
  - destruct (sha256_of_json _) as [loan_hash|e].
    2: { split; [intros _; left; eauto | intros _; eauto]. }
    destruct (RWATokenizerAgent.lookup "loan_id" loan_details) as [v|];
      cbn [get].
    + destruct v; cbn [RWATokenizerAgent.split_last].
      5: { split.
           - intros (error & H). discriminate H.
           - intros [(e & H) | (v & Hv & Hs)]; [discriminate H|].
             injection Hv as <-. exfalso. exact (Hs _ eq_refl). }
      all: split; [|intros _; eexists; reflexivity].
      all: intros _; right; eexists; split;
        [reflexivity | intros s Hs; discriminate Hs].
    + cbn [RWATokenizerAgent.split_last]. split.
      * intros (error & H). discriminate H.
      * intros [(e & H) | (v & Hv & _)]; discriminate.
  - intros Hnone loan_hash Hhash. rewrite Hhash, Hnone.
    cbn [get RWATokenizerAgent.split_last RWATokenizerAgent.format].
    eexists. split; [reflexivity|]. split; reflexivity.
Qed.

End Tokenizer.

(** * Properties of the vote *)

Lemma grid_add (a b : Z) : ((a + b) # 1024 == (a # 1024) + (b # 1024))%Q.
Proof. unfold Qeq, Qplus. cbn. lia. Qed.

Lemma grid_sub (a b : Z) : ((a - b) # 1024 == (a # 1024) - (b # 1024))%Q.
Proof. unfold Qeq, Qminus, Qplus, Qopp. cbn. lia. Qed.

Lemma grid_le (a b : Z) : a <= b -> (a # 1024 <= b # 1024)%Q.
Proof. unfold Qle. cbn. lia. Qed.

Lemma grid_lt (a b : Z) : a < b -> (a # 1024 < b # 1024)%Q.
Proof. unfold Qlt. cbn. lia. Qed.

Section Vote.

Variable fl : Q -> Q.
Hypothesis fl_monotone : forall x y : Q, (x <= y)%Q -> (fl x <= fl y)%Q.
Hypothesis fl_grid :
  forall k : Z, -1024 <= k <= 1024 -> (fl (k # 1024) == k # 1024)%Q.

Lemma within_fl (lo hi : Z) (x : Q) :
  -1024 <= lo <= 1024 -> -1024 <= hi <= 1024 ->
  within lo hi x -> within lo hi (fl x).
Proof.
  intros Hlo Hhi [H1 H2]. split.
  - apply Qle_trans with (fl (lo # 1024)).
    + rewrite (fl_grid lo Hlo). apply Qle_refl.
    + apply fl_monotone. exact H1.
  - apply Qle_trans with (fl (hi # 1024)).
    + apply fl_monotone. exact H2.
    + rewrite (fl_grid hi Hhi). apply Qle_refl.
Qed.

Lemma within_fadd (a b c d : Z) (x y : Q) :
  -1024 <= a + c <= 1024 -> -1024 <= b + d <= 1024 ->
  within a b x -> within c d y -> within (a + c) (b + d) (GOATAgent.fadd fl x y).
Proof.
  intros Hlo Hhi [H1 H2] [H3 H4]. apply within_fl; [exact Hlo | exact Hhi |].
  split.
  - rewrite grid_add. apply Qplus_le_compat; assumption.
  - rewrite grid_add. apply Qplus_le_compat; assumption.
Qed.

Lemma within_fsub (a b c d : Z) (x y : Q) :
  -1024 <= a - d <= 1024 -> -1024 <= b - c <= 1024 ->
  within a b x -> within c d y -> within (a - d) (b - c) (GOATAgent.fsub fl x y).
Proof.
  intros Hlo Hhi [H1 H2] [H3 H4]. apply within_fl; [exact Hlo | exact Hhi |].
  unfold Qminus. split.
  - rewrite grid_sub. unfold Qminus. apply Qplus_le_compat; [exact H1|].
    apply Qopp_le_compat. exact H4.
  - rewrite grid_sub. unfold Qminus. apply Qplus_le_compat; [exact H2|].
    apply Qopp_le_compat. exact H3.
Qed.

Lemma within_fraction (a b : Z) (x draw : Q) :
  0 <= a -> b <= 1024 -> (0 <= draw)%Q -> (draw <= 1)%Q ->
  within a b x -> within 0 b (GOATAgent.fmul fl x draw).
Proof.
  intros Ha Hb H0 H1 [H2 H3].
  assert (Hx : (0 <= x)%Q).
  { apply Qle_trans with (a # 1024); [|exact H2].
    unfold Qle. cbn. lia. }
  assert (Hab : a <= b).
  { pose proof (Qle_trans _ _ _ H2 H3) as H. unfold Qle in H. cbn in H. lia. }
  apply within_fl; [lia | lia |]. split.
  - apply Qle_trans with 0%Q; [unfold Qle; cbn; lia|].
    apply Qmult_le_0_compat; assumption.
  - apply Qle_trans with x; [|exact H3].
    apply Qle_trans with (x * 1)%Q; [|rewrite Qmult_1_r; apply Qle_refl].
    rewrite !(Qmult_comm x). apply Qmult_le_compat_r; assumption.
Qed.

Lemma within_weaken (a b a' b' : Z) (x : Q) :
  a' <= a -> b <= b' -> within a b x -> within a' b' x.
Proof.
  intros Ha Hb [H1 H2]. split.
  - apply Qle_trans with (a # 1024); [apply grid_le; exact Ha | exact H1].
  - apply Qle_trans with (b # 1024); [exact H2 | apply grid_le; exact Hb].
Qed.

Lemma within_literal (lo hi : Z) (q : Q) :
  -1024 <= lo <= 1024 -> -1024 <= hi <= 1024 ->
  (lo # 1024 <= q)%Q -> (q <= hi # 1024)%Q -> within lo hi (fl q).
Proof. intros Hlo Hhi H1 H2. apply within_fl; [exact Hlo | exact Hhi | split; assumption]. Qed.

Lemma within_py_max (a b c d : Z) (x y : Q) :
  within a b x -> within c d y ->
  within (Z.max a c) (Z.max b d) (GOATAgent.py_max x y).
Proof.
  intros [H1 H2] [H3 H4]. unfold GOATAgent.py_max.
  destruct (Qgtb y x) eqn:E.
  - apply Qgtb_true in E. split.
    + destruct (Z.max_spec a c) as [[_ ->] | [_ ->]]; [exact H3|].
      apply Qle_trans with x; [exact H1 | apply Qlt_le_weak; exact E].
    + apply Qle_trans with (d # 1024); [exact H4 | apply grid_le; lia].
  - apply Qgtb_false in E. split.
    + destruct (Z.max_spec a c) as [[_ ->] | [_ ->]]; [|exact H1].
      apply Qle_trans with y; [exact H3 | exact E].
    + apply Qle_trans with (b # 1024); [exact H2 | apply grid_le; lia].
Qed.

Lemma within_py_min (a b c d : Z) (x y : Q) :
  within a b x -> within c d y ->
  within (Z.min a c) (Z.min b d) (GOATAgent.py_min x y).
Proof.
  intros [H1 H2] [H3 H4]. unfold GOATAgent.py_min.
  destruct (Qltb y x) eqn:E.
  - apply Qltb_true in E. split.
    + apply Qle_trans with (c # 1024); [apply grid_le; lia | exact H3].
    + destruct (Z.min_spec b d) as [[_ ->] | [_ ->]]; [|exact H4].
      apply Qle_trans with x; [apply Qlt_le_weak; exact E | exact H2].
  - apply Qltb_false in E. split.
    + apply Qle_trans with (a # 1024); [apply grid_le; lia | exact H1].
    + destruct (Z.min_spec b d) as [[_ ->] | [_ ->]]; [exact H2|].
      apply Qle_trans with y; [exact E | exact H4].
Qed.

(** The share of yes votes, from the chance of a yes and the draw. *)
Lemma yes_share_within (a b : Z) (yes_chance draw : Q) :
  -800 <= a -> a <= b -> b <= 900 -> b - a <= 10 ->
  (0 <= draw)%Q -> (draw <= 1)%Q ->
  within a b yes_chance ->
  within (Z.min (Z.max (a - 103) 409) 972)
         (Z.min (Z.max (b + (b - a) + 104) 410) 973)
    (GOATAgent.py_min
       (GOATAgent.py_max
          (DAOGovernanceAgent.uniform fl
             (GOATAgent.fsub fl yes_chance (fl (1 # 10)))
             (GOATAgent.fadd fl yes_chance (fl (1 # 10))) draw)
          (fl (4 # 10)))
       (fl (95 # 100))).
Proof.
  intros Ha Hab Hb Hw H0 H1 Hyc.
  assert (Htenth : within 102 103 (fl (1 # 10))).
  { apply within_literal; [lia | lia | unfold Qle; cbn; lia | unfold Qle; cbn; lia]. }
  assert (Hlow : within (a - 103) (b - 102)
                   (GOATAgent.fsub fl yes_chance (fl (1 # 10)))).
  { apply within_fsub; [lia | lia | exact Hyc | exact Htenth]. }
  assert (Hhigh : within (a + 102) (b + 103)
                    (GOATAgent.fadd fl yes_chance (fl (1 # 10)))).
  { apply within_fadd; [lia | lia | exact Hyc | exact Htenth]. }
  assert (Hwidth : within (a + 102 - (b - 102)) (b + 103 - (a - 103))
                     (GOATAgent.fsub fl
                        (GOATAgent.fadd fl yes_chance (fl (1 # 10)))
                        (GOATAgent.fsub fl yes_chance (fl (1 # 10))))).
  { apply within_fsub; [lia | lia | exact Hhigh | exact Hlow]. }
  assert (Hpart : within 0 (b + 103 - (a - 103))
                    (GOATAgent.fmul fl
                       (GOATAgent.fsub fl
                          (GOATAgent.fadd fl yes_chance (fl (1 # 10)))
                          (GOATAgent.fsub fl yes_chance (fl (1 # 10))))
                       draw)).
  { apply (within_fraction (a + 102 - (b - 102))); [lia | lia | exact H0 | exact H1 | exact Hwidth]. }
  assert (Hu : within (a - 103 + 0) (b - 102 + (b + 103 - (a - 103)))
                 (DAOGovernanceAgent.uniform fl
                    (GOATAgent.fsub fl yes_chance (fl (1 # 10)))
                    (GOATAgent.fadd fl yes_chance (fl (1 # 10))) draw)).
  { unfold DAOGovernanceAgent.uniform.
    apply within_fadd; [lia | lia | exact Hlow | exact Hpart]. }
  assert (H4 : within 409 410 (fl (4 # 10))).
  { apply within_literal; [lia | lia | unfold Qle; cbn; lia | unfold Qle; cbn; lia]. }
  assert (H95 : within 972 973 (fl (95 # 100))).
  { apply within_literal; [lia | lia | unfold Qle; cbn; lia | unfold Qle; cbn; lia]. }
  pose proof (within_py_min _ _ _ _ _ _ (within_py_max _ _ _ _ _ _ Hu H4) H95) as H.
  eapply within_weaken; [| |exact H]; lia.
Qed.

Lemma chance_high_impact : within 767 769 (GOATAgent.fadd fl (fl (6 # 10)) (fl (15 # 100))).
Proof.
  apply (within_fadd 614 615 153 154); [lia | lia | |];
    (apply within_literal; [lia | lia | unfold Qle; cbn; lia | unfold Qle; cbn; lia]).
Qed.

Lemma chance_base : within 614 615 (fl (6 # 10)).
Proof.
  apply within_literal; [lia | lia | unfold Qle; cbn; lia | unfold Qle; cbn; lia].
Qed.

Lemma threshold_approval : within 716 717 (fl (70 # 100)).
Proof.
  apply within_literal; [lia | lia | unfold Qle; cbn; lia | unfold Qle; cbn; lia].
Qed.

Lemma threshold_rejection : within 409 410 (fl (40 # 100)).
Proof.
  apply within_literal; [lia | lia | unfold Qle; cbn; lia | unfold Qle; cbn; lia].
Qed.

Lemma not_above (a b c d : Z) (x y : Q) :
  b <= c -> within a b x -> within c d y -> Qgtb x y = false.
Proof.
  intros H [_ H2] [H3 _]. apply Qgtb_false.
  apply Qle_trans with (b # 1024); [exact H2|].
  apply Qle_trans with (c # 1024); [apply grid_le; exact H | exact H3].
Qed.

Lemma above (a b c d : Z) (x y : Q) :
  d < a -> within a b x -> within c d y -> Qgtb x y = true.
Proof.
  intros H [H1 _] [_ H4]. apply Qgtb_true.
  apply Qle_lt_trans with (d # 1024); [exact H4|].
  apply Qlt_le_trans with (a # 1024); [apply grid_lt; exact H | exact H1].
Qed.

(** X26. Whatever the draw, a proposal whose financial risk is High is
    never approved by the simulated vote, and it is rejected when its
    impact score is at most 70 (or absent). *)
Theorem high_risk_is_never_approved (proposal_id : string)
    (proposal_details : DAOGovernanceAgent.proposal) (draw : Q) (voters : Z) :
  (0 <= draw)%Q -> (draw <= 1)%Q ->
  DAOGovernanceAgent.financial_risk proposal_details = Some "High"%string ->
  DAOGovernanceAgent.vote_outcome
    (DAOGovernanceAgent.simulate_vote_on_proposal fl proposal_id
       proposal_details draw voters) <> "Approved"%string
  /\ ((get (DAOGovernanceAgent.impact_score proposal_details) 50 <= 70)%Q ->
      DAOGovernanceAgent.vote_outcome
        (DAOGovernanceAgent.simulate_vote_on_proposal fl proposal_id
           proposal_details draw voters) = "Rejected"%string).
Proof.
  intros H0 H1 Hrisk. unfold DAOGovernanceAgent.simulate_vote_on_proposal.
  rewrite Hrisk. cbn [get]. change (String.eqb "High" "Low") with false.
  change (String.eqb "High" "High") with true. cbv iota.
  destruct (Qgtb (get (DAOGovernanceAgent.impact_score proposal_details) 50%Q) 70)
    eqn:Himpact.
  - pose proof (within_fsub 767 769 204 205 _ (fl (20 # 100)) ltac:(lia) ltac:(lia)
                  chance_high_impact
                  ltac:(apply within_literal;
                        [lia | lia | unfold Qle; cbn; lia | unfold Qle; cbn; lia]))
      as Hyc.
    pose proof (yes_share_within (767 - 205) (769 - 204) _ draw ltac:(lia)
                  ltac:(lia) ltac:(lia) ltac:(lia) H0 H1 Hyc) as Hyes.
    match goal with
    | |- context [Qgtb ?yes (fl (70 # 100))] =>
        assert (Hnot : Qgtb yes (fl (70 # 100)) = false)
          by (eapply not_above; [|exact Hyes | exact threshold_approval];
              cbn; lia);
        rewrite Hnot
    end.
    split.
    + destruct (Qgtb _ (fl (40 # 100))); cbv beta iota zeta;
        cbn [DAOGovernanceAgent.vote_outcome]; discriminate.
    + intros Hle. apply Qgtb_true in Himpact.
      exfalso. exact (Qlt_not_le _ _ Himpact Hle).
  - pose proof (within_fsub 614 615 204 205 _ (fl (20 # 100)) ltac:(lia) ltac:(lia)
                  chance_base
                  ltac:(apply within_literal;
                        [lia | lia | unfold Qle; cbn; lia | unfold Qle; cbn; lia]))
      as Hyc.
    pose proof (yes_share_within (614 - 205) (615 - 204) _ draw ltac:(lia)
                  ltac:(lia) ltac:(lia) ltac:(lia) H0 H1 Hyc) as Hyes.
    match goal with
    | |- context [Qgtb ?yes (fl (70 # 100))] =>
        assert (Hnot : Qgtb yes (fl (70 # 100)) = false)
          by (eapply not_above; [|exact Hyes | exact threshold_approval];
              cbn; lia);
        rewrite Hnot
    end.
    assert (Hone : within 1024 1024 1).
    { split; unfold Qle; cbn; lia. }
    match goal with
    | |- context [Qgtb ?no (fl (40 # 100))] =>
        assert (Hno : Qgtb no (fl (40 # 100)) = true)
          by (eapply above;
              [|eapply within_fsub; [| |exact Hone | exact Hyes]; cbn; lia
               |exact threshold_rejection];
              cbn; lia);
        rewrite Hno
    end.
    cbv beta iota zeta. cbn [DAOGovernanceAgent.vote_outcome].
    split; [discriminate | reflexivity].
Qed.

(** X27. Whatever the draw, a proposal of Low financial risk whose impact
    score exceeds 70 is approved by the simulated vote. *)
Theorem low_risk_high_impact_is_approved (proposal_id : string)
    (proposal_details : DAOGovernanceAgent.proposal) (draw : Q) (voters : Z) :
  (0 <= draw)%Q -> (draw <= 1)%Q ->
  DAOGovernanceAgent.financial_risk proposal_details = Some "Low"%string ->
  (70 < get (DAOGovernanceAgent.impact_score proposal_details) 50)%Q ->
  DAOGovernanceAgent.vote_outcome
    (DAOGovernanceAgent.simulate_vote_on_proposal fl proposal_id
       proposal_details draw voters) = "Approved"%string
  /\ DAOGovernanceAgent.reason
       (DAOGovernanceAgent.simulate_vote_on_proposal fl proposal_id
          proposal_details draw voters)
     = "Strong community support for green impact and low financial risk."%string.
Proof.
  intros H0 H1 Hrisk Himpact.
  unfold DAOGovernanceAgent.simulate_vote_on_proposal.
  rewrite Hrisk. cbn [get]. change (String.eqb "Low" "Low") with true.
  cbv iota. apply Qgtb_true in Himpact. rewrite Himpact.
  pose proof (within_fadd 767 769 102 103 _ (fl (10 # 100)) ltac:(lia) ltac:(lia)
                chance_high_impact
                ltac:(apply within_literal;
                      [lia | lia | unfold Qle; cbn; lia | unfold Qle; cbn; lia]))
    as Hyc.
  pose proof (yes_share_within (767 + 102) (769 + 103) _ draw ltac:(lia)
                ltac:(lia) ltac:(lia) ltac:(lia) H0 H1 Hyc) as Hyes.
  match goal with
  | |- context [Qgtb ?yes (fl (70 # 100))] =>
      assert (Hyes' : Qgtb yes (fl (70 # 100)) = true)
        by (eapply above; [|exact Hyes | exact threshold_approval]; cbn; lia);
      rewrite Hyes'
  end.
  split; reflexivity.
Qed.

End Vote.

(** * The further properties on the samples *)

Lemma price_failure_aborts_before_balance_lookup_witness :
  outcome (ai_agent_optimize_gas_price Sample.down) = Raise "connection refused"
  /\ outcome (send_xdc_transaction Sample.checksum Sample.stdout Sample.down "key"
                Sample.sender Sample.recipient Sample.ninety) = Ok None
  /\ count is_balance_read
       (effects (send_xdc_transaction Sample.checksum Sample.stdout Sample.down "key"
                   Sample.sender Sample.recipient Sample.ninety)) = 0%nat
  /\ signings (effects (send_xdc_transaction Sample.checksum Sample.stdout Sample.down "key"
                          Sample.sender Sample.recipient Sample.ninety)) = 0%nat
  /\ broadcasts (effects (send_xdc_transaction Sample.checksum Sample.stdout Sample.down "key"
                            Sample.sender Sample.recipient Sample.ninety)) = 0%nat.
Proof.
  apply (price_failure_aborts_before_balance_lookup Sample.checksum Sample.stdout Sample.down
           "key" Sample.sender Sample.recipient Sample.ninety).
  reflexivity.
Defined.

Lemma signed_transfer_is_as_requested_witness :
  "key"%string = "key"%string
  /\ tx_gas Sample.transfer = 21000
  /\ outcome (ai_agent_optimize_gas_price Sample.funded)
     = Ok (tx_gasPrice Sample.transfer)
  /\ floor_wei <= tx_gasPrice Sample.transfer
  /\ Sample.checksum Sample.recipient = Ok (tx_to Sample.transfer)
  /\ (exists from_addr,
        Sample.checksum Sample.sender = Ok from_addr
        /\ eth_get_transaction_count Sample.funded from_addr
           = Ok (tx_nonce Sample.transfer))
  /\ eth_chain_id Sample.funded = Ok (tx_chainId Sample.transfer)
  /\ (exists amount_decimal,
        Decimal_of_str Sample.ninety = Ok amount_decimal
        /\ to_wei amount_decimal ether = Ok (tx_value Sample.transfer)).
Proof.
  apply (signed_transfer_is_as_requested Sample.checksum Sample.stdout Sample.funded "key"
           Sample.sender Sample.recipient Sample.ninety Sample.transfer "key").
  vm_compute. repeat (first [left; reflexivity | right]).
Defined.

Lemma signing_requires_sufficient_funds_witness :
  exists sender_balance amount_decimal gas_cost,
    outcome (get_account_balance Sample.checksum Sample.stdout Sample.funded Sample.sender)
      = Ok (Some sender_balance)
    /\ Decimal_of_str Sample.ninety = Ok amount_decimal
    /\ from_wei (21000 * tx_gasPrice Sample.transfer) ether = Ok gas_cost
    /\ Dec.ltb sender_balance (Dec.add amount_decimal gas_cost) = false
    /\ (Dec.digits (Z.abs (coefficient (Dec.add_exact amount_decimal gas_cost)))
        <= Dec.DEFAULT_PREC ->
        (Dec.to_Q amount_decimal + Dec.to_Q gas_cost <= Dec.to_Q sender_balance)%Q).
Proof.
  apply (signing_requires_sufficient_funds Sample.checksum Sample.stdout Sample.funded "key"
           Sample.sender Sample.recipient Sample.ninety Sample.transfer "key").
  vm_compute. repeat (first [left; reflexivity | right]).
Defined.

Lemma only_signed_payload_is_broadcast_witness :
  exists tx signed_tx,
    In (EvSign tx "key") (effects (Sample.submit Sample.funded))
    /\ eth_account_sign_transaction Sample.funded tx "key" = Ok signed_tx
    /\ "raw"%string = raw_transaction signed_tx.
Proof.
  apply (only_signed_payload_is_broadcast Sample.checksum Sample.stdout Sample.funded "key"
           Sample.sender Sample.recipient Sample.ninety "raw").
  vm_compute. repeat (first [left; reflexivity | right]).
Defined.

Lemma bad_amount_is_never_signed_witness :
  outcome (send_xdc_transaction Sample.checksum Sample.stdout Sample.funded "key"
             Sample.sender Sample.recipient Demo.not_a_number) = Ok None
  /\ signings (effects (send_xdc_transaction Sample.checksum Sample.stdout Sample.funded "key"
                          Sample.sender Sample.recipient Demo.not_a_number))
     = 0%nat
  /\ broadcasts (effects (send_xdc_transaction Sample.checksum Sample.stdout Sample.funded "key"
                            Sample.sender Sample.recipient Demo.not_a_number))
     = 0%nat.
Proof.
  apply (bad_amount_is_never_signed Sample.checksum Sample.stdout Sample.funded "key"
           Sample.sender Sample.recipient Demo.not_a_number).
  exact I.
Defined.

Lemma balance_comes_from_the_node_witness :
  exists checksum_address wei,
    Sample.checksum Sample.sender = Ok checksum_address
    /\ eth_get_balance Sample.funded checksum_address = Ok wei
    /\ 0 <= wei <= MAX_WEI
    /\ (Dec.to_Q (mkDecimal (Sample.xdc 100) (-18))
        == inject_Z wei / inject_Z (10 ^ 18))%Q
    /\ (0 <= Dec.to_Q (mkDecimal (Sample.xdc 100) (-18)))%Q.
Proof.
  apply (balance_comes_from_the_node Sample.checksum Sample.stdout Sample.funded Sample.sender
           (mkDecimal (Sample.xdc 100) (-18))).
  vm_compute. reflexivity.
Defined.

Lemma exact_monotone (x y : Q) : (x <= y)%Q -> (Demo.exact x <= Demo.exact y)%Q.
Proof. intros H. exact H. Qed.

Lemma exact_idempotent (x : Q) : (Demo.exact (Demo.exact x) == Demo.exact x)%Q.
Proof. reflexivity. Qed.


Lemma risk_never_falls_with_larger_loan_witness :
  exists score score',
    App.calculate_financial_risk Demo.exact Sample.borrower 400000 48
      = Ok (score, "Low"%string)
    /\ App.calculate_financial_risk Demo.exact Sample.borrower 900000 72
       = Ok (score', "Medium"%string)
    /\ num_le score score'.
Proof.
  do 2 eexists. split; [reflexivity|]. split; [reflexivity|].
  apply (risk_never_falls_with_larger_loan Demo.exact exact_monotone
           (Qeq_refl 0) exact_idempotent
           Sample.borrower 400000 900000 48 72 _ _
           "Low"%string "Medium"%string).
  - discriminate.
  - lia.
  - reflexivity.
  - reflexivity.
Defined.

Lemma oracle_status_is_always_on_track_witness :
  OracleMonitorAgent.status_update
    (OracleMonitorAgent.fetch_simulated_rwa_data Demo.exact "RWA-1" 3
       (1 # 20) (1 # 10) (-2) (1 # 2) "2025-01-01") = "On Track"%string
  /\ 0 <= OracleMonitorAgent.jobs_created
            (OracleMonitorAgent.fetch_simulated_rwa_data Demo.exact "RWA-1" 3
               (1 # 20) (1 # 10) (-2) (1 # 2) "2025-01-01").
Proof.
  apply (oracle_status_is_always_on_track Demo.exact exact_monotone
           (Qeq_refl 0) exact_idempotent "RWA-1" 3 (1 # 20) (1 # 10) (-2)
           (1 # 2) "2025-01-01").
  - lia.
  - discriminate.
  - discriminate.
Defined.

Lemma priority_approval_needs_co2_witness :
  (5000 < get (estimated_co2_reduction_tons_per_year Sample.solar_farm) 0)%Q
  /\ (exists q,
        GOATAgent.financial_risk_score
          (GOATAgent.analyze_and_execute Demo.exact Sample.borrower
             Sample.solar_farm 0) = Finite q
        /\ (q < 30)%Q)
  /\ 70 < GOATAgent.impact_score
            (GOATAgent.analyze_and_execute Demo.exact Sample.borrower
               Sample.solar_farm 0).
Proof.
  apply (priority_approval_needs_co2 Demo.exact Sample.borrower
           Sample.solar_farm 0).
  vm_compute. reflexivity.
Defined.

Lemma impact_score_is_monotone_witness :
  ImpactAssessorAgent.impact_score
    (ImpactAssessorAgent.assess_impact "Solar farm" Sample.solar_farm 400000 7)
  <= ImpactAssessorAgent.impact_score
       (ImpactAssessorAgent.assess_impact "Solar farm with storage"
          Demo.larger_farm 600000 5).
Proof.
  apply (impact_score_is_monotone "Solar farm" "Solar farm with storage"
           Sample.solar_farm Demo.larger_farm 400000 600000 7 5).
  - reflexivity.
  - discriminate.
  - discriminate.
  - discriminate.
  - discriminate.
  - discriminate.
  - discriminate.
Defined.

Lemma token_of_dashed_loan_id_witness :
  RWATokenizerAgent.simulate_tokenize_rwa Demo.digest Demo.text Demo.kind
    Demo.loan_details
  = RWATokenizerAgent.Tokenized
      (RWATokenizerAgent.mkToken "RWA-9F86D08188" "GL0001"
         "Green Loan #LOAN-0001"
         "https://simulated.storx.link/rwa_metadata/RWA-9F86D08188.json").
Proof.
  apply (token_of_dashed_loan_id Demo.digest Demo.text Demo.kind
           Demo.loan_details
           "LOAN" "0001"
           "9f86d081884c7d659a2feaa0c55ad015a3bf4f1b2b0b822cd15d6c15b0f00a08").
  - reflexivity.
  - reflexivity.
  - reflexivity.
Defined.

Lemma exact_grid (k : Z) :
  -1024 <= k <= 1024 -> (Demo.exact (k # 1024) == k # 1024)%Q.
Proof. intros _. reflexivity. Qed.

Lemma high_risk_is_never_approved_witness :
  DAOGovernanceAgent.vote_outcome
    (DAOGovernanceAgent.simulate_vote_on_proposal Demo.exact "LOAN-0001"
       Demo.risky (1 # 2) 120) <> "Approved"%string
  /\ ((get (DAOGovernanceAgent.impact_score Demo.risky) 50 <= 70)%Q ->
      DAOGovernanceAgent.vote_outcome
        (DAOGovernanceAgent.simulate_vote_on_proposal Demo.exact "LOAN-0001"
           Demo.risky (1 # 2) 120) = "Rejected"%string).
Proof.
  apply (high_risk_is_never_approved Demo.exact exact_monotone exact_grid
           "LOAN-0001" Demo.risky (1 # 2) 120).
  - discriminate.
  - discriminate.
  - reflexivity.
Defined.

Lemma low_risk_high_impact_is_approved_witness :
  DAOGovernanceAgent.vote_outcome
    (DAOGovernanceAgent.simulate_vote_on_proposal Demo.exact "LOAN-0001"
       Demo.sound (1 # 2) 120) = "Approved"%string
  /\ DAOGovernanceAgent.reason
       (DAOGovernanceAgent.simulate_vote_on_proposal Demo.exact "LOAN-0001"
          Demo.sound (1 # 2) 120)
     = "Strong community support for green impact and low financial risk."%string.
Proof.
  apply (low_risk_high_impact_is_approved Demo.exact exact_monotone exact_grid
           "LOAN-0001" Demo.sound (1 # 2) 120).
  - discriminate.
  - discriminate.
  - reflexivity.
  - reflexivity.
Defined.
